(** * A shallow embedding of the Kconfig language server (srv/lsp.py, srv/kconfiglsp.py)

    The development follows the two Python modules of the server:
    - [Py]: the fragment of the Python runtime the server relies on
      (exceptions, [str]/[int] conversions, [split], [join],
      [splitlines], list indexing);
    - [Lsp]: srv/lsp.py (positions, text documents, the document store,
      diagnostics, the JSON-RPC dispatcher);
    - [Kconfiglsp]: srv/kconfiglsp.py (the Kconfig wrapper, conf entries,
      the context with its node identifiers and lint checks, the
      request handlers).

    Text is modelled over the code points 0..255 (one [ascii] per code
    point).  Python objects compared by identity carry an explicit
    address. *)

From Stdlib Require Import ZArith Ascii String Bool Lia.
From Stdlib Require Decimal DecimalString DecimalZ Hexadecimal HexadecimalString.
From stdpp Require Import base option list gmap strings numbers.

Local Open Scope string_scope.
Local Open Scope Z_scope.

(* ===================================================================== *)
(** * The Python runtime fragment *)
(* ===================================================================== *)

Module Py.

(** Exceptions raised by the modelled code.  [RPCError] is the server's
    own exception class (lsp.py), the others are built-in.  *)
Inductive exn : Type :=
  | RPCError (code : Z) (message : string)
  | KeyError (key : string)
  | IndexError
  | ValueError (message : string)
  | TypeError (message : string)
  | AttributeError (message : string)
  | OSError (message : string)
  | Exception (message : string)
  | KeyboardInterrupt.

(** [isinstance(e, Exception)]: [KeyboardInterrupt] derives from
    [BaseException] only. *)
Definition is_Exception (e : exn) : bool :=
  match e with KeyboardInterrupt => false | _ => true end.

Definition is_RPCError (e : exn) : bool :=
  match e with RPCError _ _ => true | _ => false end.

(** The outcome of a call: a value or a raised exception. *)
Inductive result (A : Type) : Type :=
  | Ret (a : A)
  | Raise (e : exn).
Arguments Ret {A} a.
Arguments Raise {A} e.

Definition rbind {A B} (r : result A) (k : A -> result B) : result B :=
  match r with
  | Ret a => k a
  | Raise e => Raise e
  end.

Definition is_Ret {A} (r : result A) : bool :=
  match r with Ret _ => true | Raise _ => false end.

(** The [code] of the [RPCError] a call raised, if it raised one. *)
Definition rpc_code {A} (r : result A) : option Z :=
  match r with
  | Raise (RPCError c _) => Some c
  | _ => None
  end.

(** A computation over a mutable state [S] that may raise; the state
    reached when the exception is raised is kept, as in Python. *)
Definition M (S A : Type) : Type := S -> S * result A.

Definition mret {S A} (a : A) : M S A := fun s => (s, Ret a).
Definition mraise {S A} (e : exn) : M S A := fun s => (s, Raise e).
Definition mbind {S A B} (m : M S A) (k : A -> M S B) : M S B :=
  fun s => match m s with
           | (s', Ret a) => k a s'
           | (s', Raise e) => (s', Raise e)
           end.
Definition mget {S} : M S S := fun s => (s, Ret s).
Definition mput {S} (s : S) : M S unit := fun _ => (s, Ret tt).
Definition mmodify {S} (f : S -> S) : M S unit := fun s => (f s, Ret tt).
Definition mlift {S A} (r : result A) : M S A := fun s => (s, r).

(** Dynamically typed values that flow through the modelled code. *)
Inductive value : Type :=
  | VNone
  | VBool (b : bool)
  | VInt (z : Z)
  | VStr (s : string).

Definition value_eqb (a b : value) : bool :=
  match a, b with
  | VNone, VNone => true
  | VBool x, VBool y => Bool.eqb x y
  | VInt x, VInt y => Z.eqb x y
  | VStr x, VStr y => String.eqb x y
  | VBool x, VInt y | VInt y, VBool x => Z.eqb (if x then 1 else 0) y
  | _, _ => false
  end.

(** ** Characters *)

Definition code (c : ascii) : nat := nat_of_ascii c.

Definition in_range (lo hi : nat) (c : ascii) : bool :=
  (Nat.leb lo (code c) && Nat.leb (code c) hi)%bool.

(** [\d]: the decimal digits (category Nd below 256). *)
Definition is_digit (c : ascii) : bool := in_range 48 57 c.

(** [str.isspace] / [\s] below 256. *)
Definition is_space (c : ascii) : bool :=
  (in_range 9 13 c || in_range 28 32 c
   || Nat.eqb (code c) 133 || Nat.eqb (code c) 160)%bool.

(** [\w]: alphanumeric code points and the underscore. *)
Definition is_word (c : ascii) : bool :=
  (is_digit c || in_range 65 90 c || in_range 97 122 c || Nat.eqb (code c) 95
   || Nat.eqb (code c) 170 || Nat.eqb (code c) 178 || Nat.eqb (code c) 179
   || Nat.eqb (code c) 181 || Nat.eqb (code c) 185 || Nat.eqb (code c) 186
   || in_range 188 190 c || in_range 192 214 c || in_range 216 246 c
   || in_range 248 255 c)%bool.

(** The white space [int()] skips around a number: the code points
    28 to 31 are not part of it. *)
Definition is_int_space (c : ascii) : bool :=
  (in_range 9 13 c || Nat.eqb (code c) 32
   || Nat.eqb (code c) 133 || Nat.eqb (code c) 160)%bool.

(** The line boundaries recognised by [str.splitlines]. *)
Definition is_linebreak (c : ascii) : bool :=
  (in_range 10 13 c || in_range 28 30 c || Nat.eqb (code c) 133)%bool.

Definition LF : ascii := Eval cbv in ascii_of_nat 10.
Definition CR : ascii := Eval cbv in ascii_of_nat 13.
Definition DQUOTE : ascii := Eval cbv in ascii_of_nat 34.

(** ** Strings *)

Fixpoint all_chars (p : ascii -> bool) (s : string) : bool :=
  match s with
  | EmptyString => true
  | String c s' => (p c && all_chars p s')%bool
  end.

Fixpoint lstrip_by (sp : ascii -> bool) (s : string) : string :=
  match s with
  | String c s' => if sp c then lstrip_by sp s' else s
  | EmptyString => EmptyString
  end.

Fixpoint rstrip_by (sp : ascii -> bool) (s : string) : string :=
  match s with
  | EmptyString => EmptyString
  | String c s' =>
      match rstrip_by sp s' with
      | EmptyString => if sp c then EmptyString else String c EmptyString
      | t => String c t
      end
  end.

Definition strip_by (sp : ascii -> bool) (s : string) : string :=
  rstrip_by sp (lstrip_by sp s).

(** [s.lstrip()] and [s.strip()] *)
Definition lstrip (s : string) : string := lstrip_by is_space s.
Definition strip (s : string) : string := strip_by is_space s.

(** [s.startswith(p)] *)
Definition startswith (p s : string) : bool := String.prefix p s.

Fixpoint last_char (s : string) : option ascii :=
  match s with
  | EmptyString => None
  | String c EmptyString => Some c
  | String _ s' => last_char s'
  end.

(** [s[:n]] and [s[n:]] for [0 <= n]. *)
Fixpoint str_take (n : nat) (s : string) : string :=
  match n, s with
  | S n', String c s' => String c (str_take n' s')
  | _, _ => EmptyString
  end.

Fixpoint str_drop (n : nat) (s : string) : string :=
  match n, s with
  | S n', String _ s' => str_drop n' s'
  | _, _ => s
  end.

(** [s.split(sep)] for a one-character separator: never empty. *)
Fixpoint split (sep : ascii) (s : string) : list string :=
  match s with
  | EmptyString => [EmptyString]
  | String c s' =>
      if Ascii.eqb c sep then EmptyString :: split sep s'
      else match split sep s' with
           | w :: ws => String c w :: ws
           | [] => [String c EmptyString]
           end
  end.

(** [sep.join(l)] on a list of strings. *)
Fixpoint join (sep : string) (l : list string) : string :=
  match l with
  | [] => EmptyString
  | [x] => x
  | x :: xs => x +:+ sep +:+ join sep xs
  end.

(** [sep.join(l)] on a list of arbitrary values: a non-string item is a
    [TypeError]. *)
Fixpoint as_strings (l : list value) : option (list string) :=
  match l with
  | [] => Some []
  | VStr s :: l' => option_map (cons s) (as_strings l')
  | _ :: _ => None
  end.

Definition join_values (sep : string) (l : list value) : result string :=
  match as_strings l with
  | Some ss => Ret (join sep ss)
  | None => Raise (TypeError "sequence item: expected str instance")
  end.

(** [s.splitlines()]: a CR directly followed by LF is one boundary; no
    empty last line is produced after a final boundary. *)
Fixpoint splitlines (s : string) : list string :=
  match s with
  | EmptyString => []
  | String c s' =>
      if is_linebreak c then
        EmptyString ::
          match s' with
          | String c' s'' =>
              if (Ascii.eqb c CR && Ascii.eqb c' LF)%bool
              then splitlines s'' else splitlines s'
          | EmptyString => splitlines s'
          end
      else match splitlines s' with
           | l :: ls => String c l :: ls
           | [] => [String c EmptyString]
           end
  end.

(** ** Integers and text *)

(** [str(z)] *)
Definition str_of_int (z : Z) : string :=
  DecimalString.NilEmpty.string_of_int (Z.to_int z).

(** Removal of the digit-group underscores [int()] accepts: one
    underscore between two digits.  [after_digit] tells whether the
    previous character was a digit. *)
Fixpoint ungroup (isdig : ascii -> bool) (after_digit : bool) (s : string)
  : option string :=
  match s with
  | EmptyString => if after_digit then Some EmptyString else None
  | String c s' =>
      if isdig c then option_map (String c) (ungroup isdig true s')
      else if (Ascii.eqb c "_" && after_digit)%bool then
        match s' with
        | String c' _ => if isdig c' then ungroup isdig false s' else None
        | EmptyString => None
        end
      else None
  end.

(** [int(s)]: surrounding white space, an optional sign, decimal digits
    possibly grouped by underscores.  [None] stands for [ValueError]. *)
Definition int_of_str (s : string) : option Z :=
  let body (neg : bool) (t : string) : option Z :=
    match ungroup is_digit false t with
    | Some ds =>
        match DecimalString.NilEmpty.uint_of_string ds with
        | Some d => Some (Z.of_int (if neg then Decimal.Neg d else Decimal.Pos d))
        | None => None
        end
    | None => None
    end in
  match strip_by is_int_space s with
  | String c t =>
      if Ascii.eqb c "-" then body true t
      else if Ascii.eqb c "+" then body false t
      else body false (String c t)
  | EmptyString => None
  end.

Definition int (s : string) : result Z :=
  match int_of_str s with
  | Some z => Ret z
  | None => Raise (ValueError "invalid literal for int() with base 10")
  end.

Definition hex_digit (c : ascii) : option N :=
  if is_digit c then Some (N.of_nat (code c - 48))
  else if in_range 97 102 c then Some (N.of_nat (code c - 87))
  else if in_range 65 70 c then Some (N.of_nat (code c - 55))
  else None.

Definition is_hex_digit (c : ascii) : bool :=
  match hex_digit c with Some _ => true | None => false end.

Fixpoint hex_value (acc : N) (s : string) : option N :=
  match s with
  | EmptyString => Some acc
  | String c s' =>
      match hex_digit c with
      | Some d => hex_value (acc * 16 + d)%N s'
      | None => None
      end
  end.

(** [int(s, 16)]: as [int(s)], with an optional [0x]/[0X] prefix, which
    may be followed by one underscore. *)
Definition int16_of_str (s : string) : option Z :=
  let digits (neg : bool) (t : string) : option Z :=
    match ungroup is_hex_digit false t with
    | Some ds =>
        match hex_value 0%N ds with
        | Some n => Some (if neg then - Z.of_N n else Z.of_N n)
        | None => None
        end
    | None => None
    end in
  let body (neg : bool) (t : string) : option Z :=
    match t with
    | String c0 (String cx t') =>
        if (Ascii.eqb c0 "0" && (Ascii.eqb cx "x" || Ascii.eqb cx "X"))%bool then
          match t' with
          | String cu t'' =>
              if Ascii.eqb cu "_" then digits neg t'' else digits neg t'
          | EmptyString => None
          end
        else digits neg t
    | _ => digits neg t
    end in
  match strip_by is_int_space s with
  | String c t =>
      if Ascii.eqb c "-" then body true t
      else if Ascii.eqb c "+" then body false t
      else body false (String c t)
  | EmptyString => None
  end.

Definition int16 (s : string) : result Z :=
  match int16_of_str s with
  | Some z => Ret z
  | None => Raise (ValueError "invalid literal for int() with base 16")
  end.

(** [hex(z)] *)
Definition hex (z : Z) : string :=
  let digits := HexadecimalString.NilEmpty.string_of_uint (N.to_hex_uint (Z.abs_N z)) in
  if z <? 0 then "-0x" +:+ digits else "0x" +:+ digits.

(** [str(v)] as used by f-strings. *)
Definition str (v : value) : string :=
  match v with
  | VNone => "None"
  | VBool true => "True"
  | VBool false => "False"
  | VInt z => str_of_int z
  | VStr s => s
  end.

(** ** Lists *)

(** [l[i]] with Python's negative indices. *)
Definition getitem {A} (l : list A) (i : Z) : result A :=
  let n := Z.of_nat (length l) in
  let j := if i <? 0 then i + n else i in
  if (0 <=? j) && (j <? n) then
    match l !! Z.to_nat j with
    | Some a => Ret a
    | None => Raise IndexError
    end
  else Raise IndexError.

(** [l.index(x)] for the equality test [eqb]. *)
Fixpoint index_from {A} (eqb : A -> A -> bool) (x : A) (l : list A) (i : Z)
  : result Z :=
  match l with
  | [] => Raise (ValueError "is not in list")
  | y :: l' => if eqb y x then Ret i else index_from eqb x l' (i + 1)
  end.

Definition index {A} (eqb : A -> A -> bool) (x : A) (l : list A) : result Z :=
  index_from eqb x l 0.

End Py.

(* ===================================================================== *)
(** * srv/lsp.py *)
(* ===================================================================== *)

Module Lsp.
Import Py.

(** A reference to a heap object: where the class defines no [__eq__],
    [==] compares the addresses. *)
Record ref (A : Type) : Type := mk_ref { addr : nat; deref : A }.
Arguments mk_ref {A} addr deref.
Arguments addr {A} r.
Arguments deref {A} r.

Definition same_object {A} (a b : ref A) : bool := Nat.eqb (addr a) (addr b).

(** ** Uri *)

Record Uri : Type := mk_Uri {
  scheme : string;
  authority : string;
  path : string;
  query : string;
  fragment : string
}.

Definition nonempty (s : string) : bool :=
  match s with EmptyString => false | _ => true end.

(** [Uri.__repr__] / [Uri.__str__] *)
Definition Uri_str (u : Uri) : string :=
  let uri := scheme u +:+ "://" +:+ authority u +:+ path u in
  let uri := if nonempty (query u) then uri +:+ "?" +:+ query u else uri in
  if nonempty (fragment u) then uri +:+ "#" +:+ fragment u else uri.

(** [Uri.__eq__] between two [Uri] objects *)
Definition Uri_eq (a b : Uri) : bool := String.eqb (Uri_str a) (Uri_str b).

(** [Uri.file] *)
Definition Uri_file (p : string) : Uri := mk_Uri "file" "" p "" "".

(** ** Position, Range, Location *)

Record Position : Type := mk_Position { line : Z; character : Z }.

Definition Position_before (a b : Position) : bool :=
  (line a <? line b) || ((line a =? line b) && (character a <? character b)).

Definition Position_after (a b : Position) : bool :=
  (line a >? line b) || ((line a =? line b) && (character a >? character b)).

Definition Position_eq (a b : Position) : bool :=
  (line a =? line b) && (character a =? character b).

(** [Position.start()] *)
Definition Position_start : Position := mk_Position 0 0.

Record Range : Type := mk_Range { start : Position; end_ : Position }.

(** [Position.range] *)
Definition Position_range (p : Position) : Range := mk_Range p p.

Definition Range_overlaps (a b : Range) : bool :=
  negb (Position_after (start a) (end_ b)) && negb (Position_after (start b) (end_ a)).

Record Location : Type := mk_Location { loc_uri : Uri; loc_range : Range }.

(** ** TextEdit, WorkspaceEdit, CodeAction, Diagnostic *)

Record TextEdit : Type := mk_TextEdit { edit_range : Range; newText : string }.

(** [TextEdit.remove] *)
Definition TextEdit_remove (r : Range) : TextEdit := mk_TextEdit r "".

(** [WorkspaceEdit.changes], keyed by [str(uri)]. *)
Record WorkspaceEdit : Type := mk_WorkspaceEdit {
  changes : gmap string (list TextEdit)
}.

(** [WorkspaceEdit.add] *)
Definition WorkspaceEdit_add (w : WorkspaceEdit) (uri : Uri) (e : TextEdit)
  : WorkspaceEdit :=
  let key := Uri_str uri in
  mk_WorkspaceEdit (<[key := (default [] (changes w !! key) ++ [e])%list]> (changes w)).

Inductive CodeActionKind : Type :=
  | QUICKFIX | REFACTOR | REFACTOREXTRACT | REFACTORINLINE | REFACTORREWRITE
  | SOURCE | SOURCEORGANIZEIMPORTS | SOURCEFIXALL.

(** [CodeAction]; [command] and [data] stay [None] and the back
    references [diagnostics] are only read by the serialiser: the three
    are left out. *)
Record CodeAction : Type := mk_CodeAction {
  title : string;
  kind : CodeActionKind;
  edit : WorkspaceEdit
}.

(** [CodeAction(title)] *)
Definition CodeAction_new (t : string) : CodeAction :=
  mk_CodeAction t QUICKFIX (mk_WorkspaceEdit ∅).

(** [action.edit.add(uri, e)] *)
Definition CodeAction_add_edit (a : CodeAction) (uri : Uri) (e : TextEdit)
  : CodeAction :=
  mk_CodeAction (title a) (kind a) (WorkspaceEdit_add (edit a) uri e).

Definition ERROR : Z := 1.
Definition WARNING : Z := 2.
Definition INFORMATION : Z := 3.
Definition HINT : Z := 4.

Inductive Tag : Type := UNNECESSARY | DEPRECATED.

Record DiagnosticRelatedInfo : Type := mk_DiagnosticRelatedInfo {
  info_loc : Location;
  info_message : string
}.

Record Diagnostic : Type := mk_Diagnostic {
  message : string;
  range : Range;
  severity : Z;
  tags : list Tag;
  related_info : list DiagnosticRelatedInfo;
  actions : list CodeAction
}.

(** [Diagnostic(message, range, severity)] *)
Definition Diagnostic_new (m : string) (r : Range) (sev : Z) : Diagnostic :=
  mk_Diagnostic m r sev [] [] [].

Definition Diagnostic_err (m : string) (r : Range) := Diagnostic_new m r ERROR.
Definition Diagnostic_warn (m : string) (r : Range) := Diagnostic_new m r WARNING.
Definition Diagnostic_hint (m : string) (r : Range) := Diagnostic_new m r HINT.

Definition add_action (d : Diagnostic) (a : CodeAction) : Diagnostic :=
  mk_Diagnostic (message d) (range d) (severity d) (tags d) (related_info d)
    (actions d ++ [a])%list.

Definition mark_unnecessary (d : Diagnostic) : Diagnostic :=
  mk_Diagnostic (message d) (range d) (severity d) (tags d ++ [UNNECESSARY])%list
    (related_info d) (actions d).

Definition set_severity (d : Diagnostic) (sev : Z) : Diagnostic :=
  mk_Diagnostic (message d) (range d) sev (tags d) (related_info d) (actions d).

Definition set_related_info (d : Diagnostic) (l : list DiagnosticRelatedInfo)
  : Diagnostic :=
  mk_Diagnostic (message d) (range d) (severity d) (tags d) l (actions d).

(** ** TextDocument *)

Definition UNKNOWN_VERSION : Z := -1.

(** The fields of [TextDocument] the conversions and the store read;
    the change callbacks [_cbs] are never registered by the server and
    the file-object cursor is not used here. *)
Record TextDocument : Type := mk_TextDocument {
  doc_uri : Uri;
  languageId : option string;
  doc_version : Z;
  modified : bool;
  lines : list string;
  _virtual : bool;
  loaded : bool
}.

(** [TextDocument(uri, text, languageId, version)]: an empty or missing
    text leaves the document unloaded. *)
Definition TextDocument_new (uri : Uri) (text : option string)
    (lang : option string) (version : option Z) : TextDocument :=
  let v := default UNKNOWN_VERSION version in
  let has_text := match text with Some t => nonempty t | None => false end in
  mk_TextDocument uri lang v (negb (v =? 0))
    (if has_text then splitlines (default "" text) else [])
    (negb (String.eqb (scheme uri) "file"))
    has_text.

Definition NEWLINE : string := String LF EmptyString.

(** [TextDocument.text] *)
Definition text (d : TextDocument) : string := join NEWLINE (lines d) +:+ NEWLINE.

Definition len (s : string) : Z := Z.of_nat (String.length s).

(** [l[:n]] on a list, with Python's negative bound. *)
Definition list_upto {A} (l : list A) (n : Z) : list A :=
  if n <? 0 then firstn (Z.to_nat (Z.of_nat (length l) + n)) l
  else firstn (Z.to_nat n) l.

(** [s[:n]] on a string, with Python's negative bound. *)
Definition str_upto (s : string) (n : Z) : string :=
  if n <? 0 then str_take (Z.to_nat (len s + n)) s else str_take (Z.to_nat n) s.

(** [TextDocument.offset] *)
Definition offset (d : TextDocument) (pos : Position) : result Z :=
  if line pos >=? Z.of_nat (length (lines d)) then Ret (len (text d))
  else
    rbind (getitem (lines d) (line pos)) (fun l =>
    let character := Z.min (len l + 1) (character pos) in
    Ret (len (String.concat "" (map (fun l => l +:+ NEWLINE)
                                  (list_upto (lines d) (line pos))))
         + character)).

(** [TextDocument.pos] *)
Definition pos (d : TextDocument) (offset : Z) : Position :=
  let content := str_upto (text d) offset in
  let ls := splitlines content in
  match list.last ls with
  | None => mk_Position 0 0
  | Some l => mk_Position (Z.of_nat (length ls) - 1) (len l)
  end.

(** ** DocumentStore *)

(** A virtual backend as the store uses it: [provider()] reads
    [provider.uri.scheme], [get()] calls [provider.get(uri)].  The base
    class [DocProvider] sets [scheme] but no [uri]. *)
Record DocProvider : Type := mk_DocProvider {
  provider_scheme : string;
  provider_uri : option Uri;
  provider_get : Uri -> option TextDocument
}.

(** [DocProvider(scheme)] *)
Definition DocProvider_new (sch : string) : DocProvider :=
  mk_DocProvider sch None (fun _ => None).

Record DocumentStore : Type := mk_DocumentStore {
  docs : gmap string TextDocument;
  _providers : gmap string DocProvider
}.

(** Persistent storage: the readable files and their contents.  Opening
    a path outside the map raises [EnvironmentError]. *)
Abbreviation FileSystem := (gmap string string).

(** [DocumentStore.open] *)
Definition DocumentStore_open (d : TextDocument) : M DocumentStore unit :=
  mmodify (fun st => mk_DocumentStore (<[Uri_str (doc_uri d) := d]> (docs st))
                                      (_providers st)).

(** [DocumentStore.provider] *)
Definition DocumentStore_provider (p : DocProvider) : M DocumentStore unit :=
  match provider_uri p with
  | None => mraise (AttributeError "object has no attribute 'uri'")
  | Some u =>
      mmodify (fun st => mk_DocumentStore (docs st)
                                          (<[scheme u := p]> (_providers st)))
  end.

(** [DocumentStore._from_disk].  A path either names a file that
    [open] and [read] give as a text, or [open] raises
    [EnvironmentError] on it.  The other ways these two calls fail,
    [ValueError] on a path that holds a NUL character and
    [UnicodeDecodeError] on a file that is no text in the encoding of
    the locale, are not [EnvironmentError]s and have no counterpart
    here: what is proved of a read from disk is proved of paths and
    files of the two kinds above. *)
Definition _from_disk (fs : FileSystem) (uri : Uri)
  : M DocumentStore (option TextDocument) :=
  match fs !! path uri with
  | None => mraise (OSError "No such file or directory")
  | Some content =>
      let doc := TextDocument_new uri (Some content) None None in
      mbind (mmodify (fun st =>
               mk_DocumentStore (<[Uri_str uri := doc]> (docs st)) (_providers st)))
            (fun _ => mret (Some doc))
  end.

Definition is_EnvironmentError (e : exn) : bool :=
  match e with OSError _ => true | _ => false end.

(** [DocumentStore.get] *)
Definition DocumentStore_get (fs : FileSystem) (uri : Uri) (create : bool)
  : M DocumentStore (option TextDocument) :=
  fun st =>
    match _providers st !! scheme uri with
    | Some p => (st, Ret (provider_get p uri))
    | None =>
        match docs st !! Uri_str uri with
        | Some d => (st, Ret (Some d))
        | None =>
            if create then
              match _from_disk fs uri st with
              | (st', Raise e) =>
                  if is_EnvironmentError e then (st', Ret None)
                  else (st', Raise e)
              | r => r
              end
            else (st, Ret None)
        end
    end.

End Lsp.

(* ===================================================================== *)
(** * srv/lsp.py: the JSON-RPC server *)
(* ===================================================================== *)

Module Rpc.
Import Py Lsp.

(** [RPCErrorCode] *)
Definition PARSE_ERROR : Z := -32700.
Definition INVALID_REQUEST : Z := -32600.
Definition METHOD_NOT_FOUND : Z := -32601.
Definition INVALID_PARAMS : Z := -32602.
Definition INTERNAL_ERROR : Z := -32603.
Definition SERVER_NOT_INITIALIZED : Z := -32002.
Definition UNKNOWN_ERROR_CODE : Z := -32001.

(** The [params] object of a message: a JSON object with scalar
    members. *)
Abbreviation Params := (gmap string value).

Record RPCRequest : Type := mk_RPCRequest {
  req_id : value;
  req_method : string;
  req_params : Params
}.

(** A decoded incoming message, as [_recv] returns it. *)
Inductive RPCMsg : Type :=
  | MsgRequest (r : RPCRequest)
  | MsgResponse (id : value)
  | MsgNotification (method : string) (params : Params).

Section Server.

(** [X]: the attributes the subclasses add; [P]: what handlers return;
    [none]: Python's [None] among them; [encode_json]: whether a
    result can be serialised. *)
Variable X : Type.
Variable P : Type.
Variable none : P.
Variable encode_json : P -> result unit.

(** A message written to the output stream. *)
Inductive Sent : Type :=
  | SentResponse (id : value) (result : P) (error : option exn)
  | SentNotification (method : string).

Record RPCServer : Type := mk_RPCServer {
  _req : option RPCRequest;
  running : bool;
  trace : string;
  sent : list Sent;
  ext : X
}.

Definition set_req (r : option RPCRequest) (s : RPCServer) : RPCServer :=
  mk_RPCServer r (running s) (trace s) (sent s) (ext s).

Definition set_ext (x : X) (s : RPCServer) : RPCServer :=
  mk_RPCServer (_req s) (running s) (trace s) (sent s) x.

(** [LSPServer.dbg]: the log file is not modelled; with tracing on it
    calls [self.send], which no class defines. *)
Definition dbg : M RPCServer unit :=
  fun s =>
    if String.eqb (trace s) "off" then (s, Ret tt)
    else (s, Raise (AttributeError "object has no attribute 'send'")).

(** [RPCServer._send] *)
Definition _send (m : Sent) : M RPCServer unit :=
  mbind (mlift match m with
               | SentResponse _ result _ => encode_json result
               | SentNotification _ => Ret tt
               end) (fun _ =>
  mbind dbg (fun _ =>
  mmodify (fun s =>
    mk_RPCServer (_req s) (running s) (trace s) (sent s ++ [m])%list (ext s)))).

(** [RPCServer.rsp] *)
Definition rsp (result : P) (error : option exn) : M RPCServer unit :=
  mbind mget (fun s =>
  match _req s with
  | None => mraise (Exception "No command")
  | Some r =>
      mbind (_send (SentResponse (req_id r) result error)) (fun _ =>
      mmodify (set_req None))
  end).

(** A handler: a method of the server taking [params]. *)
Definition Handler : Type := Params -> M RPCServer P.

Definition respond_if_request (result : P) (error : option exn) : M RPCServer unit :=
  mbind mget (fun s =>
  match _req s with
  | Some _ => rsp result error
  | None => mret tt
  end).

(** [RPCServer.handle] for a request or notification of [method]. *)
Definition dispatch (handlers : gmap string Handler) (method : string)
    (params : Params) : M RPCServer unit :=
  mbind dbg (fun _ =>
  match handlers !! method with
  | Some h =>
      fun s =>
        match h params s with
        | (s1, Raise e) =>
            if is_Exception e then mbind dbg (fun _ => mraise e) s1
            else (s1, Raise e)
        | (s1, Ret result) =>
            mbind dbg (fun _ => respond_if_request result None) s1
        end
  | None =>
      mbind dbg (fun _ =>
      respond_if_request none
        (Some (RPCError METHOD_NOT_FOUND ("Unknown method " +:+ method))))
  end).

(** [RPCServer.handle]; no caller registers a response callback, so
    [self.requests] is empty and a response is dropped. *)
Definition handle (handlers : gmap string Handler) (msg : RPCMsg) : M RPCServer unit :=
  match msg with
  | MsgResponse _ => mret tt
  | MsgRequest r => dispatch handlers (req_method r) (req_params r)
  | MsgNotification method params => dispatch handlers method params
  end.

(** What [_recv] leaves in [self._req]. *)
Definition received (msg : RPCMsg) (s : RPCServer) : RPCServer :=
  match msg with
  | MsgRequest r => set_req (Some r) s
  | _ => s
  end.

(** [RPCServer.loop] on the messages still to come, each one as
    [_recv] has built it from a well-formed object; at the end of the
    input [_recv] decodes an empty text, which raises.  An object
    that lacks a member [_recv] reads makes it raise [KeyError]
    instead: that is [LspMore.decode], and the loop over the objects
    is [LspMore.loop_recv]. *)
Fixpoint loop (handlers : gmap string Handler) (inbox : list RPCMsg)
  : M RPCServer unit :=
  fun s =>
    if running s then
      match inbox with
      | [] => (s, Raise (ValueError "Expecting value"))
      | msg :: rest =>
          match handle handlers msg (received msg s) with
          | (s', Ret _) => loop handlers rest s'
          | (s', Raise KeyboardInterrupt) => (s', Ret tt)
          | (s', Raise e) => (s', Raise e)
          end
      end
    else (s, Ret tt).

End Server.

Arguments mk_RPCServer {X P} _ _ _ _ _.
Arguments _req {X P} _.
Arguments running {X P} _.
Arguments trace {X P} _.
Arguments sent {X P} _.
Arguments ext {X P} _.
Arguments SentResponse {P} _ _ _.
Arguments SentNotification {P} _.
Arguments set_ext {X P} _ _.
Arguments handle {X P} _ _ _ _ _.
Arguments loop {X P} _ _ _ _ _.
Arguments received {X P} _ _.

End Rpc.

(* ===================================================================== *)
(** * srv/kconfiglsp.py *)
(* ===================================================================== *)

Module Kconfiglsp.
Import Py Lsp.

Definition KCONFIG_WARN_LVL : Z := WARNING.
Definition ID_SEP : ascii := "@".

(** [KconfigErrorCode] *)
Definition UNKNOWN_NODE : Z := 1.
Definition DESYNC : Z := 2.
Definition PARSING_FAILED : Z := 3.

(** ** What the server reads from kconfiglib *)

Inductive SymType : Type := UNKNOWN | BOOL | TRISTATE | STRING | INT | HEX.

Definition SymType_eqb (a b : SymType) : bool :=
  match a, b with
  | UNKNOWN, UNKNOWN | BOOL, BOOL | TRISTATE, TRISTATE
  | STRING, STRING | INT, INT | HEX, HEX => true
  | _, _ => false
  end.

Definition TYPE_TO_STR (t : SymType) : string :=
  match t with
  | UNKNOWN => "unknown"
  | BOOL => "bool"
  | TRISTATE => "tristate"
  | STRING => "string"
  | INT => "int"
  | HEX => "hex"
  end.

(** [kconfiglib.TRI_TO_STR[v]]: the dictionary [{0: "n", 1: "m", 2: "y"}]. *)
Definition TRI_TO_STR (v : value) : result string :=
  match v with
  | VInt 0 | VBool false => Ret "n"
  | VInt 1 | VBool true => Ret "m"
  | VInt 2 => Ret "y"
  | _ => Raise (KeyError (str v))
  end.

(** [node.item]: the constants [MENU] and [COMMENT], a [Symbol] or a
    [Choice].  A symbol item is kept as its name and the addresses of
    its menu nodes ([node.item.nodes]); a choice as its address. *)
Inductive Item : Type :=
  | MENU
  | COMMENT
  | ItemSymbol (name : string) (item_nodes : list nat)
  | ItemChoice (choice : nat)
  | ItemOther.

(** [kconfiglib.MenuNode]; nodes are compared by identity. *)
Record MenuNode : Type := mk_MenuNode {
  node_addr : nat;
  item : Item;
  prompt : option string;
  node_filename : string;
  node_linenr : Z
}.

Definition MenuNode_is (a b : MenuNode) : bool :=
  Nat.eqb (node_addr a) (node_addr b).

(** One conjunct of [sym.direct_dep] as [split_expr(_, AND)] returns it:
    its [expr_str], its [expr_value] and, when it is a plain symbol,
    that symbol's name and type. *)
Record Dep : Type := mk_Dep {
  dep_str : string;
  dep_value : Z;
  dep_symbol : option (string * SymType)
}.

(** [kconfiglib.Symbol], the attributes the server reads. *)
Record Symbol : Type := mk_Symbol {
  sym_name : string;
  sym_type : SymType;
  str_value : string;
  user_value : value;
  nodes : list MenuNode;
  direct_dep : list Dep;
  _str_default : string
}.

(** What [find_node] hands back: [menus], [comments] and [sym.nodes]
    hold menu nodes, [choices] holds [Choice] objects. *)
Inductive TreeObject : Type :=
  | TreeNode (n : MenuNode)
  | TreeChoice (choice : nat).

(** ** Kconfig: the wrapper of [kconfiglib.Kconfig] *)

Record Kconfig : Type := mk_Kconfig {
  diags : gmap string (list Diagnostic);
  filename : string;
  valid : bool;
  srctree : string;
  linenr : option Z;
  top_node : MenuNode;
  menus : list MenuNode;
  syms : gmap string Symbol;
  choices : list nat;
  comments : list MenuNode;
  unique_defined_syms : list string
}.

(** The attributes [kconfiglib.Kconfig._init] leaves behind: the tree
    it built and the location it was parsing. *)
Record Engine : Type := mk_Engine {
  e_filename : string;
  e_srctree : string;
  e_linenr : option Z;
  e_top_node : MenuNode;
  e_menus : list MenuNode;
  e_syms : gmap string Symbol;
  e_choices : list nat;
  e_comments : list MenuNode;
  e_unique_defined_syms : list string
}.

(** How a run of [_init] ends: normally, with a [KconfigError], or
    with any other [Exception]. *)
Inductive InitOutcome : Type :=
  | InitOk (e : Engine)
  | InitKconfigError (msg : string) (e : Engine)
  | InitException (msg : string) (e : Engine).

Definition outcome_engine (o : InitOutcome) : Engine :=
  match o with
  | InitOk e | InitKconfigError _ e | InitException _ e => e
  end.

Definition no_node : MenuNode := mk_MenuNode 0 MENU None "" 0.

(** [Kconfig(filename)]: the tree attributes exist only once [_init]
    has run, which [parse] does before anything reads them. *)
Definition Kconfig_new (fname : string) : Kconfig :=
  mk_Kconfig ∅ fname false "" None no_node [] ∅ [] [] [].

Definition install (k : Kconfig) (e : Engine) (v : bool) : Kconfig :=
  mk_Kconfig (diags k) (e_filename e) v (e_srctree e) (e_linenr e)
    (e_top_node e) (e_menus e) (e_syms e) (e_choices e) (e_comments e)
    (e_unique_defined_syms e).

Definition not_empty {A} (l : list A) : bool :=
  match l with [] => false | _ => true end.

(** The exception classes [parse] tells apart. *)
Inductive parse_exn : Type :=
  | KconfigError (msg : string)
  | OtherException (msg : string).

(** [Kconfig.parse] *)
Definition Kconfig_parse (o : InitOutcome) (k : Kconfig)
  : Kconfig * option parse_exn :=
  match o with
  | InitOk e => (install k e (not_empty (e_unique_defined_syms e)), None)
  | InitKconfigError msg e => (install k e false, Some (KconfigError msg))
  | InitException msg e => (install k e false, Some (OtherException msg))
  end.

(** [os.path.join] on POSIX paths. *)
Definition path_join (a b : string) : string :=
  if startswith "/" b then b
  else match last_char a with
       | None => b
       | Some c => if Ascii.eqb c "/" then a +:+ b else a +:+ "/" +:+ b
       end.

(** [Kconfig.loc] *)
Definition Kconfig_loc (k : Kconfig) : option Location :=
  match nonempty (filename k), linenr k with
  | true, Some n =>
      Some (mk_Location (Uri_file (path_join (srctree k) (filename k)))
              (mk_Range (mk_Position (n - 1) 0) (mk_Position (n - 1) 99999)))
  | _, _ => None
  end.

(** [_missing_deps] *)
Definition _missing_deps (sym : Symbol) : list Dep :=
  filter (fun d => dep_value d = 0) (direct_dep sym).

(** ** ConfFile, BoardConf *)

Record ConfFile : Type := mk_ConfFile {
  cf_uri : Uri;
  cf_diags : list Diagnostic
}.

Definition ConfFile_new (u : Uri) : ConfFile := mk_ConfFile u [].

Record BoardConf : Type := mk_BoardConf {
  board_name : string;
  arch : string;
  dir : string
}.

(** [BoardConf.conf_file]: a fresh [ConfFile] at every access. *)
Definition board_conf_file (b : BoardConf) : ConfFile :=
  ConfFile_new (Uri_file (path_join (dir b) (board_name b +:+ "_defconfig"))).

(** ** KconfigContext *)

(** The object stored in [self.modified]: [parse] stores a dict. *)
Inductive container : Type :=
  | Dict (keys : gset string)
  | List (items : list string).

(** [name in c] *)
Definition contains (c : container) (name : string) : bool :=
  match c with
  | Dict keys => bool_decide (name ∈ keys)
  | List items => bool_decide (name ∈ items)
  end.

(** [c.append(name)] *)
Definition append (c : container) (name : string) : result container :=
  match c with
  | List items => Ret (List (items ++ [name])%list)
  | Dict _ => Raise (AttributeError "'dict' object has no attribute 'append'")
  end.

(** [modified] is assigned in [parse] only: [None] is the attribute
    not being there yet. *)
Record KconfigContext : Type := mk_KconfigContext {
  uri : Uri;
  env : gmap string string;
  conf_files : list ConfFile;
  board : BoardConf;
  version : Z;
  _root : string;
  _kconfig : option Kconfig;
  menu : value;
  modified : option container;
  cmd_diags : list Diagnostic;
  kconfig_diags : gmap string (list Diagnostic)
}.

Definition env_get (e : gmap string string) (key : string) : result string :=
  match e !! key with
  | Some v => Ret v
  | None => Raise (KeyError key)
  end.

(** [KconfigContext(uri, root, conf_files, env)] *)
Definition KconfigContext_new (u : Uri) (root : string) (files : list ConfFile)
    (e : gmap string string) : result KconfigContext :=
  rbind (env_get e "BOARD") (fun b =>
  rbind (env_get e "ARCH") (fun a =>
  rbind (env_get e "BOARD_DIR") (fun d =>
  Ret (mk_KconfigContext u e files (mk_BoardConf b a d) 0 root None VNone None
         [] ∅)))).

(** The process-wide state the context touches. *)
Record World : Type := mk_World {
  environ : gmap string string;
  sys_path : list string;
  store : DocumentStore;
  next_addr : nat
}.

(** A context method runs on the process state and on [self]. *)
Record CtxState : Type := mk_CtxState { world : World; self : KconfigContext }.

Definition update_self (f : KconfigContext -> KconfigContext) : M CtxState unit :=
  mmodify (fun st => mk_CtxState (world st) (f (self st))).

Definition update_world (f : World -> World) : M CtxState unit :=
  mmodify (fun st => mk_CtxState (f (world st)) (self st)).

Definition set_menu (m : value) (c : KconfigContext) : KconfigContext :=
  mk_KconfigContext (uri c) (env c) (conf_files c) (board c) (version c)
    (_root c) (_kconfig c) m (modified c) (cmd_diags c) (kconfig_diags c).

Definition set_modified (m : option container) (c : KconfigContext) : KconfigContext :=
  mk_KconfigContext (uri c) (env c) (conf_files c) (board c) (version c)
    (_root c) (_kconfig c) (menu c) m (cmd_diags c) (kconfig_diags c).

Definition set_kconfig (k : option Kconfig) (c : KconfigContext) : KconfigContext :=
  mk_KconfigContext (uri c) (env c) (conf_files c) (board c) (version c)
    (_root c) k (menu c) (modified c) (cmd_diags c) (kconfig_diags c).

Definition set_version (v : Z) (c : KconfigContext) : KconfigContext :=
  mk_KconfigContext (uri c) (env c) (conf_files c) (board c) v
    (_root c) (_kconfig c) (menu c) (modified c) (cmd_diags c) (kconfig_diags c).

Definition set_cmd_diags (l : list Diagnostic) (c : KconfigContext) : KconfigContext :=
  mk_KconfigContext (uri c) (env c) (conf_files c) (board c) (version c)
    (_root c) (_kconfig c) (menu c) (modified c) l (kconfig_diags c).

Definition set_kconfig_diags (m : gmap string (list Diagnostic)) (c : KconfigContext)
  : KconfigContext :=
  mk_KconfigContext (uri c) (env c) (conf_files c) (board c) (version c)
    (_root c) (_kconfig c) (menu c) (modified c) (cmd_diags c) m.

Definition set_conf_files (l : list ConfFile) (c : KconfigContext) : KconfigContext :=
  mk_KconfigContext (uri c) (env c) l (board c) (version c)
    (_root c) (_kconfig c) (menu c) (modified c) (cmd_diags c) (kconfig_diags c).

Definition clear_kconfig_diags (k : Kconfig) : Kconfig :=
  mk_Kconfig ∅ (filename k) (valid k) (srctree k) (linenr k) (top_node k)
    (menus k) (syms k) (choices k) (comments k) (unique_defined_syms k).

(** [KconfigContext.clear_diags] *)
Definition clear_diags (c : KconfigContext) : KconfigContext :=
  mk_KconfigContext (uri c) (env c)
    (map (fun f => mk_ConfFile (cf_uri f) []) (conf_files c))
    (board c) (version c) (_root c)
    (option_map clear_kconfig_diags (_kconfig c))
    (menu c) (modified c) [] ∅.

(** [os.environ[key] = value] refuses an empty name, a name holding
    [=], and a NUL in the name or the value. *)
Definition NUL : ascii := Eval cbv in ascii_of_nat 0.

Definition putenv_ok (key val : string) : bool :=
  nonempty key
  && all_chars (fun c => negb (Ascii.eqb c "=") && negb (Ascii.eqb c NUL)) key
  && all_chars (fun c => negb (Ascii.eqb c NUL)) val.

(** The exception of a refused assignment. *)
Definition putenv_error (key : string) : exn :=
  if nonempty key then ValueError "illegal environment variable name"
  else OSError "Invalid argument".

Fixpoint putenv_all (l : list (string * string)) (environ : gmap string string)
  : gmap string string * result unit :=
  match l with
  | [] => (environ, Ret tt)
  | (k, v) :: l' =>
      if putenv_ok k v then putenv_all l' (<[k := v]> environ)
      else (environ, Raise (putenv_error k))
  end.

(** [KconfigContext.initialize_env]; the order in which a dict lists
    its items only decides which entries are already applied when an
    illegal one raises. *)
Definition initialize_env : M CtxState unit :=
  fun st =>
    let w := world st in
    let '(environ', r) := putenv_all (map_to_list (env (self st))) (environ w) in
    let w1 := mk_World environ' (sys_path w) (store w) (next_addr w) in
    match r with
    | Raise e => (mk_CtxState w1 (self st), Raise e)
    | Ret _ =>
        match env_get (env (self st)) "ZEPHYR_BASE" with
        | Raise e => (mk_CtxState w1 (self st), Raise e)
        | Ret base =>
            let functions_path := path_join (path_join base "scripts") "kconfig" in
            let w2 :=
              if bool_decide (functions_path ∈ sys_path w1) then w1
              else mk_World environ' (sys_path w1 ++ [functions_path])%list
                     (store w1) (next_addr w1) in
            (mk_CtxState w2 (self st), Ret tt)
        end
    end.

(** [KconfigContext.kconfig_diag] *)
Definition kconfig_diag (u : Uri) (d : Diagnostic) (c : KconfigContext)
  : KconfigContext :=
  let key := Uri_str u in
  set_kconfig_diags
    (<[key := (default [] (kconfig_diags c !! key) ++ [d])%list]> (kconfig_diags c)) c.

(** The longest prefix of [s] made of characters satisfying [p], and
    what follows it. *)
Fixpoint span (p : ascii -> bool) (s : string) : string * string :=
  match s with
  | String c s' =>
      if p c then let '(a, b) := span p s' in (String c a, b) else (EmptyString, s)
  | EmptyString => (EmptyString, EmptyString)
  end.

Definition is_path_char (c : ascii) : bool :=
  is_word c || Ascii.eqb c "/" || Ascii.eqb c "\" || Ascii.eqb c "-".

(** Group 1 of the pattern in [parse]: [[\w\/\\-]+:\d+:\s*], giving
    what follows the match. *)
Definition skip_location (s : string) : option string :=
  match span is_path_char s with
  | (String _ _, String c1 r1) =>
      if Ascii.eqb c1 ":" then
        match span is_digit r1 with
        | (String _ _, String c2 r2) =>
            if Ascii.eqb c2 ":" then Some (lstrip r2) else None
        | _ => None
        end
      else None
  | _ => None
  end.

(** Group 3 of the pattern matched in [parse]: an optional location
    (group 1), an optional [error:], white space, then the rest of the
    line.  The pattern matches every string. *)
Definition error_message (s : string) : string :=
  let s1 := default s (skip_location s) in
  let s2 := if startswith "error:" s1 then str_drop 6 s1 else s1 in
  fst (span (fun c => negb (Ascii.eqb c LF)) (lstrip s2)).

Definition origin : Range := mk_Range Position_start Position_start.

(** [KconfigContext.parse]; [o] is how the run of kconfiglib ends. *)
Definition parse (o : InitOutcome) : M CtxState unit :=
  mbind (update_self (set_menu VNone)) (fun _ =>
  mbind (update_self (set_modified (Some (Dict ∅)))) (fun _ =>
  mbind (update_self clear_diags) (fun _ =>
  mbind initialize_env (fun _ =>
  mbind mget (fun st =>
  let '(k, raised) := Kconfig_parse o (Kconfig_new (_root (self st))) in
  mbind (update_self (set_kconfig (Some k))) (fun _ =>
  mbind
    match raised with
    | None => mret tt
    | Some (KconfigError e) =>
        let msg := error_message e in
        match Kconfig_loc k with
        | Some loc =>
            update_self (kconfig_diag (loc_uri loc) (Diagnostic_err msg (loc_range loc)))
        | None =>
            update_self (fun c =>
              set_cmd_diags (cmd_diags c ++ [Diagnostic_err msg origin])%list c)
        end
    | Some (OtherException e) =>
        update_self (fun c =>
          set_cmd_diags
            (cmd_diags c ++ [Diagnostic_err ("Kconfig failed: " +:+ e) origin])%list c)
    end (fun _ =>
  update_self (fun c => set_version (version c + 1) c)))))))).

(** [KconfigContext.valid] *)
Definition ctx_valid (c : KconfigContext) : bool :=
  match _kconfig c with
  | Some k => valid k
  | None => false
  end.

(** [KconfigContext.invalidate] *)
Definition invalidate (c : KconfigContext) : KconfigContext :=
  match _kconfig c with
  | Some k =>
      set_kconfig (Some (mk_Kconfig (diags k) (filename k) false (srctree k)
                           (linenr k) (top_node k) (menus k) (syms k) (choices k)
                           (comments k) (unique_defined_syms k))) c
  | None => c
  end.

(** ** Node identifiers *)

(** [l.index(node)] on a list of objects, by identity. *)
Definition index_of (a : nat) (l : list nat) : result Z :=
  index Nat.eqb a l.

(** [KconfigContext._node_id] *)
Definition _node_id (c : KconfigContext) (node : MenuNode) : result string :=
  match _kconfig c with
  | None => Ret ""
  | Some k =>
      rbind
        (if MenuNode_is node (top_node k) then Ret [VStr "MAINMENU"]
         else match item node with
              | MENU =>
                  rbind (index_of (node_addr node) (map node_addr (menus k)))
                    (fun i => Ret [VStr "MENU"; VStr (str_of_int i)])
              | ItemSymbol name item_nodes =>
                  rbind (index_of (node_addr node) item_nodes)
                    (fun i => Ret [VStr "SYM"; VStr name; VStr (str_of_int i)])
              | ItemChoice _ =>
                  rbind (index_of (node_addr node) (choices k))
                    (fun i => Ret [VStr "CHOICE"; VInt i])
              | COMMENT =>
                  rbind (index_of (node_addr node) (map node_addr (comments k)))
                    (fun i => Ret [VStr "COMMENT"; VInt i])
              | ItemOther =>
                  Ret [VStr "UNKNOWN"; VStr (node_filename node);
                       VInt (node_linenr node)]
              end)
        (fun parts =>
           join_values (String ID_SEP "") (VStr (str_of_int (version c)) :: parts))
  end.

Definition the_kconfig (c : KconfigContext) : result Kconfig :=
  match _kconfig c with
  | Some k => Ret k
  | None => Raise (AttributeError "'NoneType' object has no attribute")
  end.

Definition dict_get {A} (m : gmap string A) (key : string) : result A :=
  match m !! key with
  | Some a => Ret a
  | None => Raise (KeyError key)
  end.

(** [KconfigContext.find_node] *)
Definition find_node (c : KconfigContext) (id : string)
  : result (option TreeObject) :=
  match split ID_SEP id with
  | ver :: type :: parts =>
      rbind (int ver) (fun v =>
      if negb (v =? version c) then Ret None
      else if String.eqb type "MENU" then
        rbind (the_kconfig c) (fun k =>
        rbind (getitem parts 0) (fun p0 =>
        rbind (int p0) (fun i =>
        rbind (getitem (menus k) i) (fun n => Ret (Some (TreeNode n))))))
      else if String.eqb type "SYM" then
        rbind (the_kconfig c) (fun k =>
        rbind (getitem parts 0) (fun p0 =>
        rbind (dict_get (syms k) p0) (fun sym =>
        rbind (getitem parts 1) (fun p1 =>
        rbind (int p1) (fun i =>
        rbind (getitem (nodes sym) i) (fun n => Ret (Some (TreeNode n))))))))
      else if String.eqb type "CHOICE" then
        rbind (the_kconfig c) (fun k =>
        rbind (getitem parts 0) (fun p0 =>
        rbind (int p0) (fun i =>
        rbind (getitem (choices k) i) (fun a => Ret (Some (TreeChoice a))))))
      else if String.eqb type "COMMENT" then
        rbind (the_kconfig c) (fun k =>
        rbind (getitem parts 0) (fun p0 =>
        rbind (int p0) (fun i =>
        rbind (getitem (comments k) i) (fun n => Ret (Some (TreeNode n))))))
      else if String.eqb type "MAINMENU" then
        rbind (the_kconfig c) (fun k => Ret (Some (TreeNode (top_node k))))
      else Ret None)
  | _ => Raise (ValueError "not enough values to unpack (expected at least 2)")
  end.

(** [KconfigMenu]: the constructor takes [(ctx, node, id)]. *)
Record KconfigMenu : Type := mk_KconfigMenu {
  km_ctx : KconfigContext;
  km_node : TreeObject;
  km_id : string
}.

(** The call [KconfigMenu(node, id)] of [get_menu]: one argument short. *)
Definition KconfigMenu_call2 (node : TreeObject) (id : string) : result KconfigMenu :=
  Raise (TypeError "__init__() missing 1 required positional argument: 'id'").

(** [bool(v)] *)
Definition truthy (v : value) : bool :=
  match v with
  | VNone => false
  | VBool b => b
  | VInt z => negb (z =? 0)
  | VStr s => nonempty s
  end.

(** [KconfigContext.get_menu]; an [id] that is not a string has no
    [split]. *)
Definition get_menu (c : KconfigContext) (id : value)
  : result (option KconfigMenu) :=
  let lookup (i : value) :=
    match i with
    | VStr s =>
        rbind (find_node c s) (fun node =>
        match node with
        | None => Ret None
        | Some n => rbind (KconfigMenu_call2 n s) (fun m => Ret (Some m))
        end)
    | _ => Raise (AttributeError "object has no attribute 'split'")
    end in
  if truthy id then lookup id
  else if truthy (menu c) then lookup (menu c)
  else Ret None.

(** [KconfigContext.get] *)
Definition get (c : KconfigContext) (name : string) : option Symbol :=
  match _kconfig c with
  | Some k => syms k !! name
  | None => None
  end.

Definition set_syms (s : gmap string Symbol) (k : Kconfig) : Kconfig :=
  mk_Kconfig (diags k) (filename k) (valid k) (srctree k) (linenr k) (top_node k)
    (menus k) s (choices k) (comments k) (unique_defined_syms k).

(** [sym = ...] mutated in place: the symbol stored under [name]. *)
Definition store_symbol (name : string) (s : Symbol) (c : KconfigContext)
  : KconfigContext :=
  set_kconfig (option_map (fun k => set_syms (<[name := s]> (syms k)) k) (_kconfig c)) c.

Section Assignments.

(** [Symbol.set_value] and [Symbol.unset_value] of kconfiglib: whether
    the value is accepted, and the symbol afterwards. *)
Variable set_value : Symbol -> value -> bool * Symbol.
Variable unset_value : Symbol -> Symbol.

(** [KconfigContext.set] *)
Definition set (name : string) (val : value) (c : KconfigContext)
  : KconfigContext * result unit :=
  match get c name with
  | None => (c, Raise (RPCError UNKNOWN_NODE ("Unknown symbol " +:+ name)))
  | Some sym =>
      let '(ok, sym') := set_value sym val in
      let c1 := store_symbol name sym' c in
      if ok then
        match modified c1 with
        | None =>
            (c1, Raise (AttributeError
                          "'KconfigContext' object has no attribute 'modified'"))
        | Some m =>
            if negb (contains m name) then
              match append m name with
              | Ret m' => (set_modified (Some m') c1, Ret tt)
              | Raise e => (c1, Raise e)
              end
            else (c1, Ret tt)
        end
      else (c1, Ret tt)
  end.

(** [KconfigContext.unset] *)
Definition unset (name : string) (c : KconfigContext) : KconfigContext :=
  match get c name with
  | Some sym => store_symbol name (unset_value sym) c
  | None => c
  end.

End Assignments.

(** ** ConfEntry *)

(** [entry.loc] refers to a [Location] object; [Location] defines no
    [__eq__], so two locations are equal when they are one object. *)
Record ConfEntry : Type := mk_ConfEntry {
  name : string;
  loc : ref Location;
  raw : string;
  value_range : Range
}.

(** [ConfEntry(name, loc, assignment, value_range)] *)
Definition ConfEntry_new (n : string) (l : ref Location) (assignment : string)
    (vr : Range) : ConfEntry :=
  mk_ConfEntry n l (strip assignment) vr.

(** [ConfEntry.range] *)
Definition entry_range (e : ConfEntry) : Range := loc_range (deref (loc e)).

(** [ConfEntry.__eq__] on two entries *)
Definition ConfEntry_eq (a b : ConfEntry) : bool := same_object (loc a) (loc b).

(** [ConfEntry.full_range] *)
Definition full_range (e : ConfEntry) : Range :=
  mk_Range (start (entry_range e)) (end_ (value_range e)).

Definition QUOTE : string := String DQUOTE EmptyString.

Definition endswith_quote (s : string) : bool :=
  match last_char s with
  | Some c => Ascii.eqb c DQUOTE
  | None => false
  end.

Definition is_string (e : ConfEntry) : bool :=
  startswith QUOTE (raw e) && endswith_quote (raw e).

Definition is_bool (e : ConfEntry) : bool :=
  String.eqb (raw e) "y" || String.eqb (raw e) "n".

(** [re.match(r'0x[a-fA-F\d]+', raw)] *)
Definition is_hex (e : ConfEntry) : bool :=
  match raw e with
  | String c0 (String c1 (String c2 _)) =>
      Ascii.eqb c0 "0" && Ascii.eqb c1 "x" && is_hex_digit c2
  | _ => false
  end.

(** [re.match(r'\d+', raw)] *)
Definition is_int (e : ConfEntry) : bool :=
  match raw e with
  | String c _ => is_digit c
  | EmptyString => false
  end.

(** [s[1:-1]] *)
Definition unquote (s : string) : string :=
  str_take (String.length s - 2)%nat (str_drop 1 s).

(** [ConfEntry.value] *)
Definition entry_value (e : ConfEntry) : result value :=
  if is_string e then Ret (VStr (unquote (raw e)))
  else if is_bool e then Ret (VStr (raw e))
  else if is_hex e then rbind (int16 (raw e)) (fun z => Ret (VInt z))
  else if is_int e then rbind (int (raw e)) (fun z => Ret (VInt z))
  else Ret VNone.

(** [ConfEntry.type] *)
Definition entry_type (e : ConfEntry) : string :=
  if is_string e then TYPE_TO_STR STRING
  else if is_hex e then TYPE_TO_STR HEX
  else if is_int e then TYPE_TO_STR INT
  else if is_bool e then TYPE_TO_STR BOOL
  else TYPE_TO_STR UNKNOWN.

(** [ConfEntry.line_range] *)
Definition line_range (e : ConfEntry) : Range :=
  let l := line (start (entry_range e)) in
  mk_Range (mk_Position l 0) (mk_Position (l + 1) 0).

(** [ConfEntry.remove] *)
Definition entry_remove (e : ConfEntry) (t : string) : CodeAction :=
  CodeAction_add_edit (CodeAction_new t) (loc_uri (deref (loc e)))
    (TextEdit_remove (line_range e)).

(** ** ConfFile.entries *)

(** One match of the entry pattern on a line: where group 1 starts and
    ends, group 2 (the name), where group 3 starts and ends, group 3
    (the value). *)
Record EntryMatch : Type := mk_EntryMatch {
  m_start1 : Z; m_end1 : Z; m_name : string;
  m_start3 : Z; m_end3 : Z; m_value : string
}.

(** Group 3: a quoted non-empty text without quotes inside, or a word. *)
Definition match_value (s : string) : option string :=
  match s with
  | String c r =>
      if Ascii.eqb c DQUOTE then
        match span (fun x => negb (Ascii.eqb x DQUOTE)) r with
        | (String b0 body, String _ _) => Some (QUOTE +:+ String b0 body +:+ QUOTE)
        | _ => None
        end
      else match span is_word s with
           | (String w0 w, _) => Some (String w0 w)
           | _ => None
           end
  | EmptyString => None
  end.

(** The pattern of [ConfFile.entries]: leading white space, [CONFIG_]
    and a word, white space, [=], the value. *)
Definition match_entry (ln : string) : option EntryMatch :=
  let '(ws, r0) := span is_space ln in
  if startswith "CONFIG_" r0 then
    match span is_word (str_drop 7 r0) with
    | (String n0 n, r2) =>
        let nm := String n0 n in
        let '(ws2, r3) := span is_space r2 in
        match r3 with
        | String c r4 =>
            if Ascii.eqb c "=" then
              match match_value r4 with
              | Some v =>
                  let s1 := len ws in
                  let e1 := s1 + 7 + len nm in
                  let s3 := e1 + len ws2 + 1 in
                  Some (mk_EntryMatch s1 e1 nm s3 (s3 + len v) v)
              | None => None
              end
            else None
        | EmptyString => None
        end
    | _ => None
    end
  else None.

(** The loop of [entries]: [linenr] counts the lines, [a] is the next
    free address; every entry gets a new [Location] object. *)
Fixpoint entries_of_lines (u : Uri) (ls : list string) (linenr : Z) (a : nat)
  : list ConfEntry * nat :=
  match ls with
  | [] => ([], a)
  | l :: ls' =>
      match match_entry l with
      | Some m =>
          let range := mk_Range (mk_Position linenr (m_start1 m))
                                (mk_Position linenr (m_end1 m)) in
          let vrange := mk_Range (mk_Position linenr (m_start3 m))
                                 (mk_Position linenr (m_end3 m)) in
          let e := ConfEntry_new (m_name m) (mk_ref a (mk_Location u range))
                     (m_value m) vrange in
          let '(es, a') := entries_of_lines u ls' (linenr + 1) (S a) in
          (e :: es, a')
      | None => entries_of_lines u ls' (linenr + 1) a
      end
  end.

Section Lint.

(** The files on disk while the lint pass runs. *)
Variable fs : FileSystem.

(** [ConfFile.doc] *)
Definition ConfFile_doc (f : ConfFile) : M World (option TextDocument) :=
  fun w =>
    let '(s', r) := DocumentStore_get fs (cf_uri f) true (store w) in
    (mk_World (environ w) (sys_path w) s' (next_addr w), r).

(** [ConfFile.entries] *)
Definition entries (f : ConfFile) : M World (list ConfEntry) :=
  mbind (ConfFile_doc f) (fun doc =>
  match doc with
  | None => mraise (AttributeError "'NoneType' object has no attribute 'lines'")
  | Some d =>
      fun w =>
        let '(es, a) := entries_of_lines (cf_uri f) (lines d) 0 (next_addr w) in
        (mk_World (environ w) (sys_path w) (store w) a, Ret es)
  end).

(** A step on the process state, run inside a context method. *)
Definition in_world {A} (m : M World A) : M CtxState A :=
  fun st =>
    let '(w', r) := m (world st) in
    (mk_CtxState w' (self st), r).

Fixpoint entries_of_files (fl : list ConfFile) : M World (list ConfEntry) :=
  match fl with
  | [] => mret []
  | f :: fl' =>
      mbind (entries f) (fun es =>
      mbind (entries_of_files fl') (fun rest => mret (es ++ rest)%list))
  end.

(** [KconfigContext.all_entries] *)
Definition all_entries : M CtxState (list ConfEntry) :=
  mbind mget (fun st =>
  in_world (entries_of_files (board_conf_file (board (self st))
                              :: conf_files (self st)))).

(** [file.diags.append(d)] for the file at index [i] of [conf_files]. *)
Definition append_diag (i : nat) (d : Diagnostic) : M CtxState unit :=
  update_self (fun c =>
    set_conf_files
      (alter (fun f => mk_ConfFile (cf_uri f) (cf_diags f ++ [d])%list) i
             (conf_files c)) c).

(** The diagnostics of the file at index [i]. *)
Definition file_diags (i : nat) (st : CtxState) : list Diagnostic :=
  match conf_files (self st) !! i with
  | Some f => cf_diags f
  | None => []
  end.

(** [KconfigContext.check_undefined] *)
Definition check_undefined (i : nat) (file : ConfFile) (entry : ConfEntry)
    (sym : Symbol) : M CtxState bool :=
  if SymType_eqb (sym_type sym) UNKNOWN then
    mbind (append_diag i (Diagnostic_err ("Undefined symbol CONFIG_" +:+ sym_name sym)
                            (full_range entry)))
          (fun _ => mret true)
  else mret false.

(** [hex(v)] and [str(v)] on the value of an entry *)
Definition hex_of (v : value) : result string :=
  match v with
  | VInt z => Ret (hex z)
  | VBool b => Ret (hex (if b then 1 else 0))
  | _ => Raise (TypeError "object cannot be interpreted as an integer")
  end.

(** [KconfigContext.check_type] *)
Definition check_type (i : nat) (file : ConfFile) (entry : ConfEntry)
    (sym : Symbol) : M CtxState bool :=
  if negb (String.eqb (TYPE_TO_STR (sym_type sym)) (entry_type entry)) then
    let diag := Diagnostic_err ("Invalid type. Expected " +:+ TYPE_TO_STR (sym_type sym))
                  (full_range entry) in
    mbind
      (if (SymType_eqb (sym_type sym) HEX || SymType_eqb (sym_type sym) INT)
          && (is_hex entry || is_int entry) then
         let action := CodeAction_new ("Convert value to " +:+ TYPE_TO_STR (sym_type sym)) in
         mbind (mlift (entry_value entry)) (fun v =>
         mbind (mlift (if SymType_eqb (sym_type sym) HEX then hex_of v
                       else Ret (str v))) (fun txt =>
         mret (add_action diag
                 (CodeAction_add_edit action (loc_uri (deref (loc entry)))
                    (mk_TextEdit (value_range entry) txt)))))
       else mret diag)
      (fun diag =>
         mbind (append_diag i diag) (fun _ => mret true))
  else mret false.

(** One edit of [check_assignment]: [{'dep': ..., 'edit': ...}]. *)
Record DepEdit : Type := mk_DepEdit { dep : string; dep_edit : TextEdit }.

(** The body of the loop over [deps] in [check_assignment]: the edit
    for one dependency, if it is a boolean symbol. *)
Definition dep_edit_for (file : ConfFile) (entry : ConfEntry) (d : Dep)
  : M World (list DepEdit) :=
  match dep_symbol d with
  | Some (dname, BOOL) =>
      mbind (entries file) (fun es =>
      match filter (fun e => name e = dname) es with
      | dep_entry :: _ =>
          mret [mk_DepEdit dname (mk_TextEdit (value_range dep_entry) "y")]
      | [] =>
          mret [mk_DepEdit dname
                  (mk_TextEdit (mk_Range (start (line_range entry))
                                         (start (line_range entry)))
                     ("CONFIG_" +:+ dname +:+ "=y" +:+ NEWLINE))]
      end)
  | _ => mret []
  end.

(** The loop over [deps] in [check_assignment]. *)
Fixpoint dep_edits (file : ConfFile) (entry : ConfEntry) (deps : list Dep)
  : M World (list DepEdit) :=
  match deps with
  | [] => mret []
  | d :: deps' =>
      mbind (dep_edit_for file entry d) (fun here =>
      mbind (dep_edits file entry deps') (fun rest => mret (here ++ rest)%list))
  end.

(** The value [check_assignment] compares: [sym.user_value], through
    [TRI_TO_STR] for a bool or tristate symbol. *)
Definition assigned_value (sym : Symbol) : result value :=
  if SymType_eqb (sym_type sym) BOOL || SymType_eqb (sym_type sym) TRISTATE
  then rbind (TRI_TO_STR (user_value sym)) (fun s => Ret (VStr s))
  else Ret (user_value sym).

(** The message and severity [check_assignment] settles on before it
    looks at the dependencies; [None] is the early [return]. *)
Definition assignment_finding (entry : ConfEntry) (sym : Symbol) (uv : value)
  : option (string * Z) :=
  if value_eqb uv (VStr (str_value sym)) then
    if value_eqb uv (VStr "y") then None
    else Some ("CONFIG_" +:+ sym_name sym +:+ " was already disabled.", HINT)
  else if nonempty (str_value sym) then
    Some ("CONFIG_" +:+ sym_name sym +:+ " was assigned the value " +:+ raw entry
          +:+ ", but got the value " +:+ str_value sym +:+ ".", WARNING)
  else Some ("CONFIG_" +:+ sym_name sym +:+ " couldn't be set.", WARNING).

(** The actions built from the edits: one edit, one action; several,
    one action that applies them in reverse order. *)
Definition dependency_actions (file : ConfFile) (edits : list DepEdit)
  : list CodeAction :=
  match edits with
  | [] => []
  | [e] =>
      [CodeAction_add_edit
         (CodeAction_new ("Enable CONFIG_" +:+ dep e +:+ " to resolve dependency"))
         (cf_uri file) (dep_edit e)]
  | _ =>
      [fold_left (fun a e => CodeAction_add_edit a (cf_uri file) (dep_edit e))
         (rev edits)
         (CodeAction_new ("Enable " +:+ str_of_int (Z.of_nat (length edits))
                          +:+ " entries to resolve dependencies"))]
  end.

(** [KconfigContext.check_assignment] *)
Definition check_assignment (i : nat) (file : ConfFile) (entry : ConfEntry)
    (sym : Symbol) : M CtxState bool :=
  mbind (mlift (assigned_value sym)) (fun uv =>
  match assignment_finding entry sym uv with
  | None => mret false
  | Some (msg, sev) =>
      let deps := _missing_deps sym in
      if not_empty deps then
        let msg := msg +:+ " Missing dependencies:" +:+ NEWLINE
                   +:+ join " && " (map dep_str deps) in
        mbind (in_world (dep_edits file entry deps)) (fun edits =>
        let actions := (dependency_actions file edits
                        ++ [entry_remove entry "Remove entry"])%list in
        let diag := Diagnostic_new msg (entry_range entry) sev in
        let diag := if sev =? HINT then mark_unnecessary diag else diag in
        let diag := fold_left add_action actions diag in
        mbind (append_diag i diag) (fun _ => mret true))
      else mret false
  end).

(** [KconfigContext.check_visibility] *)
Definition check_visibility (i : nat) (file : ConfFile) (entry : ConfEntry)
    (sym : Symbol) : M CtxState bool :=
  if negb (existsb (fun n => bool_decide (is_Some (prompt n))) (nodes sym)) then
    let diag := Diagnostic_warn ("Symbol CONFIG_" +:+ name entry
                                 +:+ " cannot be set (has no prompt)")
                  (full_range entry) in
    mbind (append_diag i (add_action diag (entry_remove entry "Remove entry")))
          (fun _ => mret true)
  else mret false.

(** [KconfigContext.check_defaults] *)
Definition check_defaults (i : nat) (file : ConfFile) (entry : ConfEntry)
    (sym : Symbol) : M CtxState bool :=
  if value_eqb (VStr (_str_default sym)) (user_value sym) then
    let diag := Diagnostic_hint ("Value is " +:+ raw entry +:+ " by default")
                  (full_range entry) in
    mbind (append_diag i
             (add_action (mark_unnecessary diag)
                (entry_remove entry "Remove redundant entry")))
          (fun _ => mret true)
  else mret false.

(** The list comprehension building [diag.related_info]. *)
Fixpoint related (entry : ConfEntry) (matching : list ConfEntry)
  : result (list DiagnosticRelatedInfo) :=
  match matching with
  | [] => Ret []
  | e :: rest =>
      if negb (ConfEntry_eq e entry) then
        rbind (entry_value e) (fun v =>
        rbind (related entry rest) (fun infos =>
        Ret (mk_DiagnosticRelatedInfo (deref (loc e))
               ("Already set to " +:+ QUOTE +:+ str v +:+ QUOTE +:+ " here")
             :: infos)))
      else related entry rest
  end.

(** [KconfigContext.check_multiple_assignments] *)
Definition check_multiple_assignments (i : nat) (file : ConfFile)
    (entry : ConfEntry) (all : list ConfEntry) : M CtxState bool :=
  let matching := filter (fun e => name e = name entry) all in
  match matching with
  | existing :: _ :: _ =>
      if negb (ConfEntry_eq existing entry) then
        mbind (mlift (entry_value existing)) (fun old =>
        mbind (mlift (entry_value entry)) (fun new =>
        let diag := Diagnostic_warn
                      (name entry +:+ " set more than once. Old value " +:+ QUOTE
                       +:+ str old +:+ QUOTE +:+ ", new value " +:+ QUOTE
                       +:+ str new +:+ QUOTE +:+ ".")
                      (full_range entry) in
        mbind (mlift (related entry matching)) (fun infos =>
        let diag := set_related_info diag infos in
        mbind (mlift (entry_value existing)) (fun old' =>
        mbind (mlift (entry_value entry)) (fun new' =>
        let diag :=
          if value_eqb old' new' then
            add_action (set_severity (mark_unnecessary diag) HINT)
              (entry_remove entry "Remove redundant entry")
          else diag in
        mbind (append_diag i diag) (fun _ => mret true))))))
      else mret false
  | _ => mret false
  end.

(** The body of the inner loop of [lint] once [sym] is looked up: the
    six checks, each one ending the iteration when it returns true. *)
Definition lint_checks (i : nat) (file : ConfFile) (entry : ConfEntry)
    (sym : Symbol) (all : list ConfEntry) : M CtxState unit :=
  mbind (check_undefined i file entry sym) (fun hit =>
  if hit then mret tt else
  mbind (check_type i file entry sym) (fun hit =>
  if hit then mret tt else
  mbind (check_assignment i file entry sym) (fun hit =>
  if hit then mret tt else
  mbind (check_visibility i file entry sym) (fun hit =>
  if hit then mret tt else
  mbind (check_defaults i file entry sym) (fun hit =>
  if hit then mret tt else
  mbind (check_multiple_assignments i file entry all) (fun hit =>
  mret tt)))))).

(** One iteration of the inner loop of [lint]. *)
Definition lint_entry (i : nat) (file : ConfFile) (all : list ConfEntry)
    (entry : ConfEntry) : M CtxState unit :=
  mbind mget (fun st =>
  mbind (mlift (the_kconfig (self st))) (fun k =>
  match syms k !! name entry with
  | None => mret tt
  | Some sym => lint_checks i file entry sym all
  end)).

Fixpoint for_each {S A} (body : A -> M S unit) (l : list A) : M S unit :=
  match l with
  | [] => mret tt
  | a :: l' => mbind (body a) (fun _ => for_each body l')
  end.

(** One iteration of the outer loop of [lint]. *)
Definition lint_file (all : list ConfEntry) (f : nat * ConfFile) : M CtxState unit :=
  mbind (in_world (entries (snd f))) (fun es =>
  for_each (lint_entry (fst f) (snd f) all) es).

(** [KconfigContext.lint] *)
Definition lint : M CtxState unit :=
  mbind all_entries (fun all =>
  mbind mget (fun st =>
  for_each (lint_file all) (imap pair (conf_files (self st))))).

End Lint.

(** ** KconfigServer *)

Import Rpc.

(** [self.ctx] and the process state the contexts work on. *)
Record ServerState : Type := mk_ServerState {
  ctx : gmap string KconfigContext;
  srv_world : World
}.

(** What the handlers below return. *)
Inductive Payload : Type :=
  | PNone
  | PSearch (ctx_id query : value) (symbols : list Symbol)
  | PMenu (m : KconfigMenu).

(** [encode_json] on a result: [symbols] is a [map] object, which has
    neither [to_dict] nor [__dict__].  A menu would go through
    [KconfigMenu.to_dict], not modelled: no [KconfigMenu] is ever
    built. *)
Definition encode_json (p : Payload) : result unit :=
  match p with
  | PNone => Ret tt
  | PSearch _ _ _ => Raise (AttributeError "'map' object has no attribute '__dict__'")
  | PMenu _ => Ret tt
  end.

Abbreviation Server := (RPCServer ServerState Payload).

(** [params[key]] *)
Definition param (params : Params) (key : string) : result value :=
  match params !! key with
  | Some v => Ret v
  | None => Raise (KeyError key)
  end.

(** [self.ctx[key]]: the keys of [self.ctx] are strings. *)
Definition ctx_lookup (s : Server) (key : value) : result KconfigContext :=
  match key with
  | VStr k =>
      match ctx (ext s) !! k with
      | Some c => Ret c
      | None => Raise (KeyError k)
      end
  | _ => Raise (KeyError (str key))
  end.

(** The context stored under [key], mutated in place. *)
Definition ctx_store (key : value) (c : KconfigContext) (s : Server) : Server :=
  match key with
  | VStr k =>
      set_ext (mk_ServerState (<[k := c]> (ctx (ext s))) (srv_world (ext s))) s
  | _ => s
  end.

(** [KconfigContext.symbols] *)
Definition symbols (c : KconfigContext) (filter_ : value)
  : result (list Symbol) :=
  rbind
    (if truthy filter_ then
       match filter_ with
       | VStr f => Ret (if startswith "CONFIG_" f then str_drop 7 f else f)
       | _ => Raise (AttributeError "object has no attribute 'startswith'")
       end
     else Ret "") (fun f =>
  rbind (the_kconfig c) (fun k =>
  Ret (filter (fun sym => negb (nonempty f) || startswith f (sym_name sym) = true)
         (snd <$> map_to_list (syms k))))).

(** A [KconfigContext] defines neither [__bool__] nor [__len__]. *)
Definition ctx_truthy (c : KconfigContext) : bool := true.

(** [KconfigServer.handle_search]; [KconfigErrorCode] has no member
    [UNKNOWN_CTX]. *)
Definition handle_search (params : Params) : M Server Payload :=
  fun s =>
    (s,
     rbind (param params "ctx") (fun key =>
     rbind (ctx_lookup s key) (fun c =>
     if negb (ctx_truthy c) then
       Raise (AttributeError "UNKNOWN_CTX")
     else
       rbind (param params "ctx") (fun key' =>
       rbind (param params "query") (fun q =>
       rbind (param params "query") (fun q' =>
       rbind (symbols c q') (fun syms => Ret (PSearch key' q syms)))))))).

(** [KconfigServer.handle_set_menu] *)
Definition handle_set_menu (params : Params) : M Server Payload :=
  fun s =>
    match rbind (param params "ctx") (ctx_lookup s) with
    | Raise e => (s, Raise e)
    | Ret c =>
        match param params "id" with
        | Raise e => (s, Raise e)
        | Ret id =>
            let c1 := set_menu id c in
            let s1 := match param params "ctx" with
                      | Ret key => ctx_store key c1 s
                      | Raise _ => s
                      end in
            (s1, rbind (get_menu c1 id) (fun m =>
                 Ret match m with
                     | Some km => PMenu km
                     | None => PNone
                     end))
        end
    end.

Section Handlers.

Variable set_value : Symbol -> value -> bool * Symbol.
Variable unset_value : Symbol -> Symbol.

(** [ctx.set(name, val)] and [ctx.unset(name)] with the [name] of a
    request, which only names a symbol when it is a string. *)
Definition ctx_set (name val : value) (c : KconfigContext)
  : KconfigContext * result unit :=
  match name with
  | VStr n => set set_value n val c
  | _ => (c, Raise (RPCError UNKNOWN_NODE ("Unknown symbol " +:+ str name)))
  end.

Definition ctx_unset (name : value) (c : KconfigContext) : KconfigContext :=
  match name with
  | VStr n => unset unset_value n c
  | _ => c
  end.

(** [KconfigServer.handle_setval] *)
Definition handle_setval (params : Params) : M Server Payload :=
  fun s =>
    match param params "ctx" with
    | Raise e => (s, Raise e)
    | Ret key =>
        match ctx_lookup s key with
        | Raise e => (s, Raise e)
        | Ret c =>
            match params !! "val" with
            | Some _ =>
                match param params "name" with
                | Raise e => (s, Raise e)
                | Ret name =>
                    match param params "val" with
                    | Raise e => (s, Raise e)
                    | Ret val =>
                        let '(c', r) := ctx_set name val c in
                        (ctx_store key c' s, rbind r (fun _ => Ret PNone))
                    end
                end
            | None =>
                match param params "name" with
                | Raise e => (s, Raise e)
                | Ret name => (ctx_store key (ctx_unset name c) s, Ret PNone)
                end
            end
        end
    end.

(** The handlers of the custom methods modelled here, as
    [RPCServer.__init__] collects them from the class. *)
Definition kconfig_handlers : gmap string (Params -> M Server Payload) :=
  {[ "kconfig/search" := handle_search;
     "kconfig/setMenu" := handle_set_menu;
     "kconfig/setVal" := handle_setval ]}.

(** [KconfigServer.handle] and [KconfigServer.loop] *)
Definition server_handle (hs : gmap string (Params -> M Server Payload))
  : RPCMsg -> M Server unit :=
  handle PNone encode_json hs.

Definition server_loop (hs : gmap string (Params -> M Server Payload))
  : list RPCMsg -> M Server unit :=
  loop PNone encode_json hs.

End Handlers.

End Kconfiglsp.
(* ===================================================================== *)
(** * srv/lsp.py: ranges, edits of a text document, framing *)
(* ===================================================================== *)

Module LspMore.
Import Py Lsp Rpc.

(** ** Range *)

(** [Range.union] *)
Definition Range_union (a b : Range) : Range :=
  mk_Range (if Position_before (start a) (start b) then start a else start b)
           (if Position_before (end_ a) (end_ b) then end_ b else end_ b).

(** [Range.contains] on a position *)
Definition Range_contains_pos (r : Range) (p : Position) : bool :=
  negb (Position_before p (start r)) && negb (Position_before (end_ r) p).

(** [Range.contains] on a range *)
Definition Range_contains (r x : Range) : bool :=
  Range_contains_pos r (start x) && Range_contains_pos r (end_ x).

(** [Range.single_line] *)
Definition single_line (r : Range) : bool := line (start r) =? line (end_ r).

(** ** Printing a diagnostic *)

(** [Position.__repr__] *)
Definition Position_repr (p : Position) : string :=
  str_of_int (line p + 1) +:+ ":" +:+ str_of_int (character p).

(** [Range.__repr__] *)
Definition Range_repr (r : Range) : string :=
  Position_repr (start r) +:+ " - " +:+ Position_repr (end_ r).

(** [Diagnostic.severity_str] *)
Definition severity_str (sev : Z) : result string :=
  getitem ["Unknown"; "Error"; "Information"; "Hint"] sev.

(** [Diagnostic.__str__] *)
Definition Diagnostic_str (d : Diagnostic) : result string :=
  rbind (severity_str (severity d)) (fun s =>
  Ret (Range_repr (range d) +:+ ": " +:+ s +:+ ": " +:+ message d)).

(** ** Slices *)

(** A slice bound brought into [0, len]. *)
Definition clip (n : Z) (i : Z) : nat :=
  Z.to_nat (if i <? 0 then Z.max 0 (i + n) else Z.min i n).

(** [s[a:b]] and [s[a:]] *)
Definition str_slice (s : string) (a b : Z) : string :=
  str_take (clip (len s) b - clip (len s) a) (str_drop (clip (len s) a) s).

Definition str_from (s : string) (a : Z) : string :=
  str_drop (clip (len s) a) s.

(** ** TextDocument *)

(** [TextDocument._set_text]; no change callback is ever registered. *)
Definition _set_text (t : string) (d : TextDocument) : TextDocument :=
  mk_TextDocument (doc_uri d) (languageId d) (doc_version d) (modified d)
    (splitlines t) (_virtual d) true.

Definition set_modified (m : bool) (d : TextDocument) : TextDocument :=
  mk_TextDocument (doc_uri d) (languageId d) (doc_version d) m
    (lines d) (_virtual d) (loaded d).

(** [TextDocument.line] *)
Definition doc_line (d : TextDocument) (index : Z) : result (option string) :=
  if index <? Z.of_nat (length (lines d)) then
    rbind (getitem (lines d) index) (fun l => Ret (Some l))
  else Ret None.

Definition endswith_newline (s : string) : bool :=
  match last_char s with
  | Some c => Ascii.eqb c LF
  | None => false
  end.

(** [TextDocument.get] *)
Definition doc_get (d : TextDocument) (r : option Range) : result string :=
  match r with
  | None => Ret (text d)
  | Some r =>
      rbind (offset d (start r)) (fun a =>
      rbind (offset d (end_ r)) (fun b =>
      let t := str_slice (text d) a b in
      if endswith_newline t && negb (character (end_ r) =? 0)
         && (line (end_ r) <? Z.of_nat (length (lines d)))
      then Ret (str_upto t (-1))
      else Ret t))
  end.

(** [TextDocument.replace] *)
Definition doc_replace (t : string) (r : option Range) (d : TextDocument)
  : result TextDocument :=
  rbind
    match r with
    | Some r =>
        if 0 <? Z.of_nat (length (lines d)) then
          rbind (offset d (start r)) (fun a =>
          rbind (offset d (end_ r)) (fun b =>
          Ret (_set_text (str_upto (text d) a +:+ t +:+ str_from (text d) b) d)))
        else Ret (_set_text t d)
    | None => Ret (_set_text t d)
    end
    (fun d' => Ret (set_modified true d')).

(** ** DocumentStore *)

(** [DocumentStore.close] *)
Definition DocumentStore_close (u : Uri) : M DocumentStore unit := mret tt.

(** [DocumentStore.create]: unlike [get], the second attempt to read
    the file is not guarded. *)
Definition DocumentStore_create (fs : FileSystem) (u : Uri)
  : M DocumentStore (option TextDocument) :=
  mbind (DocumentStore_get fs u true) (fun doc =>
  match doc with
  | Some d => mret (Some d)
  | None => _from_disk fs u
  end).

(** ** Framing *)

(** The lines of a stream as successive [readline()] calls return
    them: each one ends with its newline, except maybe the last. *)
Fixpoint stream_lines (s : string) : list string :=
  match s with
  | EmptyString => []
  | String c s' =>
      if Ascii.eqb c LF then String c EmptyString :: stream_lines s'
      else match stream_lines s' with
           | l :: ls => String c l :: ls
           | [] => [String c EmptyString]
           end
  end.

Definition CRLF : string := String CR (String LF EmptyString).

(** What [RPCServer._send] writes for the encoded message [raw]. *)
Definition frame (raw : string) : string :=
  "Content-Type: " +:+ String DQUOTE "application/vscode-jsonrpc; charset=utf-8"
  +:+ String DQUOTE CRLF
  +:+ "Content-Length: " +:+ str_of_int (len raw) +:+ CRLF +:+ CRLF +:+ raw.

(** [RPCServer._read_headers] on the lines still to be read, giving
    the length, the content type and the lines left; at the end of the
    stream [readline()] returns the empty text. *)
Fixpoint read_headers (ls : list string) (length : Z) (content_type : string)
  : result (Z * string * list string) :=
  match ls with
  | [] => Ret (length, content_type, [])
  | l :: rest =>
      let ln := strip l in
      if nonempty ln then
        match map strip (split ":" ln) with
        | [key; val] =>
            if String.eqb key "Content-Length" then
              rbind (int val) (fun n => read_headers rest n content_type)
            else if String.eqb key "Content-Type" then
              read_headers rest length val
            else read_headers rest length content_type
        | _ => read_headers rest length content_type
        end
      else Ret (length, content_type, rest)
  end.

Definition _read_headers (stream : string) : result (Z * string * string) :=
  rbind (read_headers (stream_lines stream) 0 "") (fun r =>
  Ret (r.1.1, r.1.2, String.concat "" r.2)).

(** [stream.read(n)]: a negative [n] reads everything. *)
Definition stream_read (n : Z) (stream : string) : string * string :=
  if n <? 0 then (stream, "")
  else (str_take (Z.to_nat n) stream, str_drop (Z.to_nat n) stream).

(** The first two statements of [RPCServer._recv]: the text handed to
    the JSON decoder, and the stream after it. *)
Definition read_payload (stream : string) : result (string * string) :=
  rbind (_read_headers stream) (fun r =>
  let '(length, _, rest) := r in
  Ret (stream_read length rest)).

(** ** Handlers of LSPServer *)

Section Handlers.

Variable X : Type.
Variable P : Type.
Variable none : P.

(** [LSPServer.handle_shutdown] *)
Definition handle_shutdown (params : Params) : M (RPCServer X P) P :=
  fun s => (mk_RPCServer (_req s) false (trace s) (sent s) (ext s), Ret none).

(** [LSPServer.handle_cancel] and [LSPServer.handle_progress] *)
Definition handle_cancel (params : Params) : M (RPCServer X P) P := mret none.
Definition handle_progress (params : Params) : M (RPCServer X P) P := mret none.

End Handlers.

Arguments handle_shutdown {X P} _ _ _.
Arguments handle_cancel {X P} _ _ _.
Arguments handle_progress {X P} _ _ _.

(** ** Receiving *)

(** The object [json.loads] returns for an incoming payload, by the
    members [_recv] looks at: [None] is a member that is absent.  The
    [method] of an object that has one is a text, its [params] and its
    [error] are objects with scalar members. *)
Record JsonObject : Type := mk_JsonObject {
  obj_id : option value;
  obj_method : option string;
  obj_params : option Params;
  obj_error : option (gmap string value)
}.

(** [obj[key]] *)
Definition member {A : Type} (key : string) (m : option A) : result A :=
  match m with
  | Some a => Ret a
  | None => Raise (KeyError key)
  end.

(** [RPCError.create]: the error is built and dropped with the
    response. *)
Definition RPCError_create (obj : gmap string value) : result unit :=
  rbind (member "code" (obj !! "code")) (fun _ =>
  rbind (member "message" (obj !! "message")) (fun _ =>
  Ret tt)).

(** The message [_recv] builds from the object: the members are read
    with [obj[...]], which raises [KeyError] on an absent one. *)
Definition decode (obj : JsonObject) : result RPCMsg :=
  match obj_id obj with
  | Some id =>
      match obj_method obj with
      | Some method =>
          rbind (member "params" (obj_params obj)) (fun params =>
          Ret (MsgRequest (mk_RPCRequest id method params)))
      | None =>
          rbind (match obj_error obj with
                 | Some err => RPCError_create err
                 | None => Ret tt
                 end) (fun _ =>
          Ret (MsgResponse id))
      end
  | None =>
      rbind (member "method" (obj_method obj)) (fun method =>
      rbind (member "params" (obj_params obj)) (fun params =>
      Ret (MsgNotification method params)))
  end.

Section Receiving.

Variable X : Type.
Variable P : Type.
Variable none : P.
Variable encode_json : P -> result unit.

(** [RPCServer._recv] once the payload is read and parsed: it is
    logged, decoded, and a request becomes the pending one. *)
Definition _recv (obj : JsonObject) : M (RPCServer X P) RPCMsg :=
  mbind (dbg X P) (fun _ =>
  mbind (mlift (decode obj)) (fun msg =>
  mbind (mmodify (received msg)) (fun _ =>
  mret msg))).

(** [RPCServer.loop] on the objects still to come: [Rpc.loop] with
    the decoding of [_recv] in it. *)
Fixpoint loop_recv (handlers : gmap string (Handler X P)) (inbox : list JsonObject)
  : M (RPCServer X P) unit :=
  fun s =>
    if running s then
      match inbox with
      | [] => (s, Raise (ValueError "Expecting value"))
      | obj :: rest =>
          match mbind (_recv obj) (handle none encode_json handlers) s with
          | (s', Ret _) => loop_recv handlers rest s'
          | (s', Raise KeyboardInterrupt) => (s', Ret tt)
          | (s', Raise e) => (s', Raise e)
          end
      end
    else (s, Ret tt).

End Receiving.

Arguments _recv {X P} _ _.
Arguments loop_recv {X P} _ _ _ _ _.

End LspMore.

(* ===================================================================== *)
(** * srv/kconfiglsp.py: watched files *)
(* ===================================================================== *)

Module KconfigMore.
Import Py Lsp Rpc Kconfiglsp.

(** [Uri.basename]: [os.path.basename] of the path. *)
Definition basename (u : Uri) : string :=
  default "" (list.last (split "/" (path u))).

(** [s.replace(pat, '')] for a non-empty [pat]: [skip] counts the
    characters of a match still to drop. *)
Fixpoint remove_all (pat : string) (skip : nat) (s : string) : string :=
  match s with
  | EmptyString => EmptyString
  | String c s' =>
      match skip with
      | S k => remove_all pat k s'
      | O =>
          if startswith pat s then remove_all pat (String.length pat - 1) s'
          else String c (remove_all pat 0 s')
      end
  end.

Definition set_ctx (m : gmap string KconfigContext) (s : Server) : Server :=
  set_ext (mk_ServerState m (srv_world (ext s))) s.

(** The loop of [on_file_change] over the contexts, by key: each one
    is invalidated in place, then [dbg] is called.  The order of a
    dict only decides which contexts are done when [dbg] raises. *)
Fixpoint invalidate_each (keys : list string) : M Server unit :=
  match keys with
  | [] => mret tt
  | k :: keys' =>
      mbind (mmodify (fun s => set_ctx (alter invalidate k (ctx (ext s))) s)) (fun _ =>
      mbind (dbg ServerState Payload) (fun _ =>
      invalidate_each keys'))
  end.

(** [KconfigServer.on_file_change] *)
Definition on_file_change (u : Uri) : M Server unit :=
  if startswith "Kconfig" (basename u) then
    mbind mget (fun s => invalidate_each (map fst (map_to_list (ctx (ext s)))))
  else if String.eqb (basename u) "edt.pickle" then
    mbind mget (fun s =>
    let key := Uri_str (Uri_file (remove_all "/zephyr/edt.pickle" 0 (path u))) in
    match ctx (ext s) !! key with
    | Some c =>
        mbind (mmodify (set_ctx (<[key := invalidate c]> (ctx (ext s))))) (fun _ =>
        dbg ServerState Payload)
    | None => mret tt
    end)
  else mret tt.

End KconfigMore.

(* ===================================================================== *)
(** * Facts about the runtime fragment *)
(* ===================================================================== *)

Module PyFacts.
Import Py.

Lemma rstrip_no_space sp s :
  all_chars (fun c => negb (sp c)) s = true -> rstrip_by sp s = s.
Proof.
  induction s as [|c s IH]; simpl; [reflexivity|].
  intros [Hc Hs]%andb_prop. rewrite (IH Hs).
  destruct s; [|reflexivity].
  apply negb_true_iff in Hc. now rewrite Hc.
Qed.

Lemma lstrip_no_space sp s :
  all_chars (fun c => negb (sp c)) s = true -> lstrip_by sp s = s.
Proof.
  destruct s as [|c s]; simpl; [reflexivity|].
  intros [Hc _]%andb_prop. apply negb_true_iff in Hc. now rewrite Hc.
Qed.

Lemma strip_no_space sp s :
  all_chars (fun c => negb (sp c)) s = true -> strip_by sp s = s.
Proof.
  intros H. unfold strip_by. rewrite (lstrip_no_space _ _ H). now apply rstrip_no_space.
Qed.

Lemma all_chars_impl (p q : ascii -> bool) s :
  (forall c, p c = true -> q c = true) ->
  all_chars p s = true -> all_chars q s = true.
Proof.
  intros Hpq. induction s as [|c s IH]; simpl; [reflexivity|].
  intros [Hc Hs]%andb_prop. rewrite (Hpq _ Hc), (IH Hs). reflexivity.
Qed.

(** The characters [str] writes for a number: digits and the sign. *)
Definition is_numeral_char (c : ascii) : bool := is_digit c || Ascii.eqb c "-".

Lemma digit_cases (p : ascii -> bool) :
  p "0"%char = true -> p "1"%char = true -> p "2"%char = true ->
  p "3"%char = true -> p "4"%char = true -> p "5"%char = true ->
  p "6"%char = true -> p "7"%char = true -> p "8"%char = true ->
  p "9"%char = true ->
  forall d, all_chars p (DecimalString.NilEmpty.string_of_uint d) = true.
Proof.
  intros H0 H1 H2 H3 H4 H5 H6 H7 H8 H9.
  induction d; simpl; rewrite ?IHd, ?H0, ?H1, ?H2, ?H3, ?H4, ?H5, ?H6, ?H7, ?H8, ?H9;
    reflexivity.
Qed.

Lemma uint_digits d :
  all_chars is_digit (DecimalString.NilEmpty.string_of_uint d) = true.
Proof. apply digit_cases; reflexivity. Qed.

Lemma is_digit_not_space c : is_digit c = true -> negb (is_int_space c) = true.
Proof.
  destruct c as [[] [] [] [] [] [] [] []]; vm_compute; congruence.
Qed.

Lemma is_digit_not_sign c :
  is_digit c = true -> Ascii.eqb c "-" = false /\ Ascii.eqb c "+" = false.
Proof.
  destruct c as [[] [] [] [] [] [] [] []]; vm_compute; split; congruence.
Qed.

Lemma ungroup_digits s b :
  all_chars is_digit s = true ->
  (s <> EmptyString \/ b = true) ->
  ungroup is_digit b s = Some s.
Proof.
  revert b. induction s as [|c s IH]; simpl; intros b Hall Hne.
  - destruct Hne as [Hne | ->]; [congruence | reflexivity].
  - apply andb_prop in Hall as [Hc Hs]. rewrite Hc.
    rewrite (IH true Hs); [reflexivity|now right].
Qed.

Lemma uint_nonempty d :
  d <> Decimal.Nil -> DecimalString.NilEmpty.string_of_uint d <> EmptyString.
Proof. destruct d; simpl; congruence. Qed.

(** Reading back the digits of an unsigned numeral. *)
Lemma int_of_digits d :
  d <> Decimal.Nil ->
  int_of_str (DecimalString.NilEmpty.string_of_uint d)
  = Some (Z.of_int (Decimal.Pos d)).
Proof.
  intros Hd. unfold int_of_str.
  pose proof (uint_digits d) as Hdig.
  pose proof (uint_nonempty d Hd) as Hne.
  rewrite strip_no_space by (eapply all_chars_impl; [apply is_digit_not_space|exact Hdig]).
  destruct (DecimalString.NilEmpty.string_of_uint d) as [|c t] eqn:E; [congruence|].
  simpl in Hdig. apply andb_prop in Hdig as [Hc Ht].
  destruct (is_digit_not_sign c Hc) as [-> ->].
  rewrite ungroup_digits; [|simpl; now rewrite Hc, Ht|now left].
  rewrite <- E, DecimalString.NilEmpty.usu. reflexivity.
Qed.

Lemma int_of_minus_digits d :
  d <> Decimal.Nil ->
  int_of_str (String "-" (DecimalString.NilEmpty.string_of_uint d))
  = Some (Z.of_int (Decimal.Neg d)).
Proof.
  intros Hd. unfold int_of_str.
  pose proof (uint_digits d) as Hdig.
  pose proof (uint_nonempty d Hd) as Hne.
  assert (Hs : strip_by is_int_space
                 (String "-" (DecimalString.NilEmpty.string_of_uint d))
               = String "-" (DecimalString.NilEmpty.string_of_uint d)).
  { apply strip_no_space. simpl.
    eapply all_chars_impl; [apply is_digit_not_space|exact Hdig]. }
  rewrite Hs. simpl.
  rewrite ungroup_digits; [|exact Hdig|now left].
  rewrite DecimalString.NilEmpty.usu. reflexivity.
Qed.

(** [int(str(z)) == z] *)
Lemma int_str (z : Z) : int_of_str (str_of_int z) = Some z.
Proof.
  unfold str_of_int.
  rewrite <- (DecimalZ.of_to z) at 2.
  destruct z as [|p|p]; simpl Z.to_int; simpl DecimalString.NilEmpty.string_of_int.
  - reflexivity.
  - apply int_of_digits, DecimalPos.Unsigned.to_uint_nonnil.
  - apply int_of_minus_digits, DecimalPos.Unsigned.to_uint_nonnil.
Qed.

Lemma str_of_int_chars (z : Z) : all_chars is_numeral_char (str_of_int z) = true.
Proof.
  unfold str_of_int.
  assert (H : forall d, all_chars is_numeral_char
                          (DecimalString.NilEmpty.string_of_uint d) = true)
    by (apply digit_cases; reflexivity).
  destruct (Z.to_int z); simpl; apply H.
Qed.

Lemma numeral_char_not_sep c :
  is_numeral_char c = true -> Ascii.eqb c "@" = false.
Proof.
  destruct c as [[] [] [] [] [] [] [] []]; vm_compute; congruence.
Qed.

Lemma split_not_nil sep s : split sep s <> [].
Proof.
  destruct s as [|c s]; simpl; [congruence|].
  destruct (Ascii.eqb c sep); [congruence|].
  destruct (split sep s); congruence.
Qed.

(** Splitting after a prefix that holds no separator. *)
Lemma split_prefix sep a b :
  all_chars (fun c => negb (Ascii.eqb c sep)) a = true ->
  split sep (a +:+ String sep b) = a :: split sep b.
Proof.
  induction a as [|c a IH]; simpl; intros H.
  - now rewrite Ascii.eqb_refl.
  - apply andb_prop in H as [Hc Ha]. apply negb_true_iff in Hc.
    rewrite Hc, (IH Ha). reflexivity.
Qed.

Lemma split_no_sep sep a :
  all_chars (fun c => negb (Ascii.eqb c sep)) a = true -> split sep a = [a].
Proof.
  induction a as [|c a IH]; simpl; intros H; [reflexivity|].
  apply andb_prop in H as [Hc Ha]. apply negb_true_iff in Hc.
  rewrite Hc, (IH Ha). reflexivity.
Qed.

Lemma join_cons sep x y l :
  join sep (x :: y :: l) = x +:+ sep +:+ join sep (y :: l).
Proof. reflexivity. Qed.

Lemma rbind_Ret {A B} (r : result A) (k : A -> result B) b :
  rbind r k = Ret b -> exists a, r = Ret a /\ k a = Ret b.
Proof. destruct r; simpl; [eauto|discriminate]. Qed.

End PyFacts.

(* ===================================================================== *)
(** * Facts about srv/lsp.py *)
(* ===================================================================== *)

Module LspFacts.
Import Py Lsp.

(** ** Offsets and positions *)

(** A two-line buffer, [ab] and [cd]. *)
Definition two_lines : TextDocument :=
  TextDocument_new (Uri_file "/prj.conf") (Some ("ab" +:+ NEWLINE +:+ "cd")) None None.

(** C7, at the start of the second line of a two-line buffer: the
    position (1, 0) is in range and has offset 3, but [pos] maps
    offset 3 to (0, 2), the end of the first line, so
    [pos(offset(p))] is not [p]. *)
Theorem pos_offset_line_start :
  lines two_lines = ["ab"; "cd"] /\
  offset two_lines (mk_Position 1 0) = Ret 3 /\
  pos two_lines 3 = mk_Position 0 2 /\
  pos two_lines 3 <> mk_Position 1 0.
Proof. repeat split; try reflexivity. discriminate. Qed.

(** *** Which positions survive the round trip *)

(** A line holds no line boundary, as every line [splitlines] returns. *)
Definition clean (l : string) : Prop :=
  all_chars (fun c => negb (is_linebreak c)) l = true.

(** The lines, each followed by a newline. *)
Definition flat (ls : list string) : string :=
  String.concat "" (map (fun l => l +:+ NEWLINE) ls).

Lemma append_cons (x : ascii) (a b : string) : String x a +:+ b = String x (a +:+ b).
Proof. reflexivity. Qed.

Lemma append_assoc (a b c : string) : (a +:+ b) +:+ c = a +:+ (b +:+ c).
Proof.
  induction a as [|x a IH]; [reflexivity|]. rewrite !append_cons, IH. reflexivity.
Qed.

Lemma length_append (a b : string) :
  String.length (a +:+ b) = (String.length a + String.length b)%nat.
Proof.
  induction a as [|x a IH]; [reflexivity|]. rewrite ?append_cons. simpl. now rewrite IH.
Qed.

Lemma take_append (a b : string) (n : nat) :
  str_take (String.length a + n) (a +:+ b) = a +:+ str_take n b.
Proof.
  induction a as [|x a IH]; [reflexivity|].
  rewrite ?append_cons. simpl. now rewrite IH.
Qed.

Lemma take_within (a b : string) (n : nat) :
  (n <= String.length a)%nat -> str_take n (a +:+ b) = str_take n a.
Proof.
  revert n. induction a as [|x a IH]; intros [|n] H; simpl in *;
    try reflexivity; try lia.
  rewrite ?append_cons. simpl. rewrite IH by lia. reflexivity.
Qed.

Lemma length_take (a : string) (n : nat) :
  (n <= String.length a)%nat -> String.length (str_take n a) = n.
Proof.
  revert n. induction a as [|x a IH]; intros [|n] H; simpl in *; try reflexivity; try lia.
  rewrite IH by lia. reflexivity.
Qed.

Lemma clean_take (a : string) (n : nat) : clean a -> clean (str_take n a).
Proof.
  unfold clean. revert n. induction a as [|x a IH]; intros [|n]; simpl; try reflexivity.
  intros [Hx Ha]%andb_prop. rewrite Hx, (IH n Ha). reflexivity.
Qed.

Lemma flat_cons (l : string) (ls : list string) :
  flat (l :: ls) = l +:+ NEWLINE +:+ flat ls.
Proof.
  unfold flat. destruct ls as [|l2 ls]; cbn [map String.concat].
  - change (l +:+ NEWLINE +:+ "") with (l +:+ NEWLINE). reflexivity.
  - rewrite append_assoc. reflexivity.
Qed.

Lemma flat_app (a b : list string) : flat (a ++ b) = flat a +:+ flat b.
Proof.
  induction a as [|l a IH]; [reflexivity|].
  change ((l :: a) ++ b)%list with (l :: (a ++ b))%list.
  rewrite !flat_cons, IH, !append_assoc. reflexivity.
Qed.

(** [text] is the lines each followed by a newline, for a buffer that
    has lines. *)
Lemma text_flat (d : TextDocument) : lines d <> [] -> text d = flat (lines d).
Proof.
  unfold text. induction (lines d) as [|l ls IH]; [congruence|]. intros _.
  rewrite flat_cons. destruct ls as [|l2 ls].
  - reflexivity.
  - change (join NEWLINE (l :: l2 :: ls)) with (l +:+ NEWLINE +:+ join NEWLINE (l2 :: ls)).
    rewrite !append_assoc, IH by congruence. reflexivity.
Qed.

Lemma splitlines_line (l rest : string) :
  clean l -> splitlines (l +:+ NEWLINE +:+ rest) = l :: splitlines rest.
Proof.
  unfold clean. induction l as [|c l IH]; intros H.
  - change ("" +:+ NEWLINE +:+ rest) with (String LF rest).
    simpl. destruct rest; reflexivity.
  - simpl in H. apply andb_prop in H as [Hc Hl]. apply negb_true_iff in Hc.
    rewrite ?append_cons. simpl. rewrite Hc, (IH Hl). reflexivity.
Qed.

Lemma splitlines_flat (ls : list string) (s : string) :
  Forall clean ls -> splitlines (flat ls +:+ s) = (ls ++ splitlines s)%list.
Proof.
  induction ls as [|l ls IH]; intros H; [reflexivity|].
  inversion H as [|? ? Hl Hls]; subst.
  rewrite flat_cons, !append_assoc, splitlines_line by exact Hl.
  rewrite (IH Hls). reflexivity.
Qed.

Lemma splitlines_one (s : string) :
  clean s -> s <> "" -> splitlines s = [s].
Proof.
  unfold clean. induction s as [|c s IH]; intros H Hne; [congruence|].
  simpl in H. apply andb_prop in H as [Hc Hs]. apply negb_true_iff in Hc.
  simpl. rewrite Hc. destruct s as [|c2 s]; [reflexivity|].
  rewrite IH by (auto; congruence). reflexivity.
Qed.

(** The lines of a buffer are clean: [_set_text] gets them from
    [splitlines]. *)
Lemma splitlines_clean (s : string) : Forall clean (splitlines s).
Proof.
  assert (H : forall n s, (String.length s <= n)%nat -> Forall clean (splitlines s)).
  { clear s. induction n as [|n IH]; intros [|c s] Hlen; simpl in *;
      try (constructor; fail); try lia.
    destruct (is_linebreak c) eqn:Hc.
    - constructor; [reflexivity|].
      destruct s as [|c' s']; [constructor|].
      destruct (_ && _); apply IH; simpl in *; lia.
    - assert (Hs : Forall clean (splitlines s)) by (apply IH; lia).
      destruct (splitlines s) as [|l ls].
      + constructor; [|constructor]. unfold clean. simpl. now rewrite Hc.
      + inversion Hs as [|? ? Hl Hls]; subst. constructor; [|exact Hls].
        unfold clean in *. simpl. now rewrite Hc, Hl. }
  apply (H (String.length s)). lia.
Qed.

Lemma new_document_clean u t lang v : Forall clean (lines (TextDocument_new u t lang v)).
Proof.
  unfold TextDocument_new. cbn [lines].
  destruct (match t with Some t0 => nonempty t0 | None => false end);
    [apply splitlines_clean|constructor].
Qed.

(** Where [pos(offset(p))] lands for an in-range position
    [p = (k, ch)]: on [p] itself when [ch > 0] or [p = (0, 0)], at the
    end of the previous line when [ch = 0] and [k > 0]. *)
Lemma pos_offset (d : TextDocument) (k ch : nat) (l : string) :
  Forall clean (lines d) ->
  lines d !! k = Some l ->
  (ch <= String.length l)%nat ->
  exists off,
    offset d (mk_Position (Z.of_nat k) (Z.of_nat ch)) = Ret off /\
    pos d off
    = match ch, k with
      | O, O => mk_Position 0 0
      | O, S k' => mk_Position (Z.of_nat k') (len (default "" (lines d !! k')))
      | _, _ => mk_Position (Z.of_nat k) (Z.of_nat ch)
      end.
Proof.
  intros Hclean Hk Hch.
  pose proof (lookup_lt_Some _ _ _ Hk) as Hlt.
  assert (Hne : lines d <> []) by (intros E; rewrite E in Hlt; simpl in Hlt; lia).
  exists (len (flat (take k (lines d))) + Z.of_nat ch).
  split.
  - unfold offset. cbn [line character].
    destruct (Z.geb_spec (Z.of_nat k) (Z.of_nat (length (lines d)))); [lia|].
    unfold getitem.
    destruct (Z.ltb_spec (Z.of_nat k) 0); [lia|].
    destruct (Z.leb_spec 0 (Z.of_nat k)); [|lia].
    destruct (Z.ltb_spec (Z.of_nat k) (Z.of_nat (length (lines d)))); [|lia].
    cbn [andb]. rewrite Nat2Z.id, Hk. cbn [rbind].
    unfold list_upto. destruct (Z.ltb_spec (Z.of_nat k) 0); [lia|].
    rewrite Nat2Z.id. unfold len, flat. f_equal. f_equal. lia.
  - assert (Hl : clean l).
    { eapply Forall_forall in Hclean; [exact Hclean|].
      apply list_elem_of_In, list_elem_of_lookup. eauto. }
    assert (Hcontent :
              str_upto (text d) (len (flat (take k (lines d))) + Z.of_nat ch)
              = flat (take k (lines d)) +:+ str_take ch l).
    { unfold str_upto, len. rewrite (text_flat d Hne).
      destruct (Z.ltb_spec (Z.of_nat (String.length (flat (take k (lines d))))
                            + Z.of_nat ch) 0); [lia|].
      rewrite <- Nat2Z.inj_add, Nat2Z.id.
      rewrite <- (take_drop_middle (lines d) k l Hk) at 2.
      rewrite flat_app, flat_cons, take_append.
      rewrite take_within by exact Hch. reflexivity. }
    unfold pos. rewrite Hcontent.
    rewrite splitlines_flat by (apply Forall_take, Hclean).
    destruct ch as [|ch].
    + simpl str_take. simpl splitlines. rewrite app_nil_r.
      destruct k as [|k'].
      * reflexivity.
      * assert (Hk' : (k' < length (lines d))%nat) by lia.
        destruct (lookup_lt_is_Some_2 _ _ Hk') as [l' Hl'].
        rewrite (take_S_r _ _ _ Hl'), last_snoc, Hl'. cbn [default].
        rewrite length_app, length_take_le by lia. simpl length. f_equal. lia.
    + assert (Hne' : str_take (S ch) l <> "")
        by (destruct l; simpl in *; [lia|congruence]).
      rewrite splitlines_one by (auto using clean_take).
      rewrite last_snoc, length_app, length_take_le by lia. simpl length.
      unfold len. rewrite length_take by exact Hch. f_equal. lia.
Qed.

(** The round trip holds at every in-range position of column 1 or
    more. *)
Lemma pos_offset_inside (d : TextDocument) (k ch : nat) (l : string) :
  Forall clean (lines d) ->
  lines d !! k = Some l ->
  (0 < ch <= String.length l)%nat ->
  exists off,
    offset d (mk_Position (Z.of_nat k) (Z.of_nat ch)) = Ret off /\
    pos d off = mk_Position (Z.of_nat k) (Z.of_nat ch).
Proof.
  intros Hclean Hk [Hpos Hch].
  destruct (pos_offset d k ch l Hclean Hk Hch) as (off & Ho & Hp).
  exists off. split; [exact Ho|]. rewrite Hp. destruct ch; [lia|reflexivity].
Qed.

(** It fails at column 0 of every line but the first. *)
Lemma pos_offset_column0 (d : TextDocument) (k : nat) (l : string) :
  Forall clean (lines d) ->
  lines d !! S k = Some l ->
  exists off,
    offset d (mk_Position (Z.of_nat (S k)) 0) = Ret off /\
    pos d off <> mk_Position (Z.of_nat (S k)) 0.
Proof.
  intros Hclean Hk.
  destruct (pos_offset d (S k) 0 l Hclean Hk) as (off & Ho & Hp); [lia|].
  exists off. split; [exact Ho|]. rewrite Hp. intros [= E _]. lia.
Qed.

(** ** The document store *)

Definition virt_uri : Uri := mk_Uri "virt" "" "/x" "" "".

Definition virt_doc : TextDocument :=
  TextDocument_new virt_uri (Some "CONFIG_A=y") None (Some 1).

(** A store holding a buffer for [virt:///x] (opened by the editor)
    and a backend for the scheme [virt] that knows no document. *)
Definition virt_store : DocumentStore :=
  mk_DocumentStore {[ Uri_str virt_uri := virt_doc ]}
                   {[ "virt" := mk_DocProvider "virt" (Some virt_uri) (fun _ => None) ]}.

(** C8 as stated fails: the buffer for the identifier exists, yet
    [get] asks the backend of the scheme and returns nothing. *)
Lemma get_existing_shadowed :
  docs virt_store !! Uri_str virt_uri = Some virt_doc /\
  DocumentStore_get ∅ virt_uri true virt_store = (virt_store, Ret None).
Proof. split; reflexivity. Qed.

(** C8, amended: [get(uri, create)] first delegates to the backend
    registered for the scheme of [uri] if there is one; only otherwise
    returns the buffer already stored for [uri]; only otherwise, and
    only when [create] is true and the file can be read, builds the
    buffer from the file and stores it; and returns [None], raising
    nothing, when the file does not exist or [create] is false. *)
Theorem get_lookup_order (fs : FileSystem) (u : Uri) (create : bool)
    (st : DocumentStore) :
  (forall p, _providers st !! scheme u = Some p ->
     DocumentStore_get fs u create st = (st, Ret (provider_get p u))) /\
  (forall d, _providers st !! scheme u = None ->
     docs st !! Uri_str u = Some d ->
     DocumentStore_get fs u create st = (st, Ret (Some d))) /\
  (forall content, _providers st !! scheme u = None ->
     docs st !! Uri_str u = None ->
     create = true ->
     fs !! path u = Some content ->
     let doc := TextDocument_new u (Some content) None None in
     DocumentStore_get fs u create st
     = (mk_DocumentStore (<[Uri_str u := doc]> (docs st)) (_providers st),
        Ret (Some doc))) /\
  (_providers st !! scheme u = None ->
     docs st !! Uri_str u = None ->
     create = false \/ fs !! path u = None ->
     DocumentStore_get fs u create st = (st, Ret None)).
Proof.
  unfold DocumentStore_get, _from_disk.
  repeat split.
  - intros p ->. reflexivity.
  - intros d -> ->. reflexivity.
  - intros content -> -> -> ->. reflexivity.
  - intros -> -> [-> | Hfs]; [reflexivity|].
    rewrite Hfs. destruct create; reflexivity.
Qed.

Definition conf_disk : FileSystem := {[ "/prj.conf" := "CONFIG_A=y" ]}.
Definition empty_store : DocumentStore := mk_DocumentStore ∅ ∅.

Lemma get_lookup_order_witness :
  DocumentStore_get conf_disk virt_uri true virt_store = (virt_store, Ret None) /\
  DocumentStore_get conf_disk (Uri_file "/prj.conf") true empty_store
  = (mk_DocumentStore
       {[ Uri_str (Uri_file "/prj.conf") :=
            TextDocument_new (Uri_file "/prj.conf") (Some "CONFIG_A=y") None None ]} ∅,
     Ret (Some (TextDocument_new (Uri_file "/prj.conf") (Some "CONFIG_A=y") None None)))
  /\
  DocumentStore_get conf_disk (Uri_file "/prj.conf") false empty_store
  = (empty_store, Ret None).
Proof.
  destruct (get_lookup_order conf_disk virt_uri true virt_store) as [H1 _].
  destruct (get_lookup_order conf_disk (Uri_file "/prj.conf") true empty_store)
    as (_ & _ & H3 & _).
  destruct (get_lookup_order conf_disk (Uri_file "/prj.conf") false empty_store)
    as (_ & _ & _ & H4).
  split; [|split].
  - apply (H1 (mk_DocProvider "virt" (Some virt_uri) (fun _ => None))). reflexivity.
  - apply (H3 "CONFIG_A=y"); reflexivity.
  - apply H4; [reflexivity | reflexivity | left; reflexivity].
Defined.

End LspFacts.

(* ===================================================================== *)
(** * Facts about srv/kconfiglsp.py: node identifiers and parse *)
(* ===================================================================== *)

Module IdFacts.
Import Py Lsp Kconfiglsp PyFacts.

(** ** A small evaluated tree used by the examples *)

Definition top : MenuNode := mk_MenuNode 1 MENU (Some "Main menu") "Kconfig" 1.
Definition foo_node : MenuNode :=
  mk_MenuNode 2 (ItemSymbol "FOO" [2%nat]) (Some "Foo support") "Kconfig" 3.
Definition net_menu : MenuNode := mk_MenuNode 3 MENU (Some "Networking") "Kconfig" 7.
Definition a_comment : MenuNode := mk_MenuNode 4 COMMENT (Some "note") "Kconfig" 9.
Definition a_choice_node : MenuNode := mk_MenuNode 5 (ItemChoice 6) (Some "pick") "Kconfig" 11.

Definition FOO : Symbol :=
  mk_Symbol "FOO" INT "2" (VStr "2") [foo_node] [] "7".

Definition tree : Engine :=
  mk_Engine "Kconfig" "/zephyr" (Some 12) top [net_menu] {[ "FOO" := FOO ]}
            [6%nat] [a_comment] ["FOO"].

Definition base_env : gmap string string :=
  {[ "BOARD" := "nrf52dk"; "ARCH" := "arm"; "BOARD_DIR" := "/boards/nrf52dk";
     "ZEPHYR_BASE" := "/zephyr" ]}.

Definition ctx_at (v : Z) : KconfigContext :=
  mk_KconfigContext (Uri_file "/build") base_env []
    (mk_BoardConf "nrf52dk" "arm" "/boards/nrf52dk") v "Kconfig"
    (Some (install (Kconfig_new "Kconfig") tree true)) VNone (Some (Dict ∅)) [] ∅.

(** ** Stale tokens *)

Lemma find_node_split (c : KconfigContext) (id ver type : string)
    (parts : list string) (v : Z) :
  split ID_SEP id = ver :: type :: parts ->
  int_of_str ver = Some v ->
  v <> version c ->
  find_node c id = Ret None.
Proof.
  intros Hs Hv Hne. unfold find_node, int. rewrite Hs, Hv. simpl.
  destruct (Z.eqb_spec v (version c)); [contradiction|reflexivity].
Qed.

(** C1 as stated fails: at version 4 the token [3@SYM@FOO@0] of the
    previous version resolves to [None] by a normal return, with no
    [RPCError] and so no [DESYNC] code; [get_menu] returns [None]
    too.  A token of the current version with an unknown kind gets
    the same answer, and the token of the current version resolves. *)
Lemma stale_token_plain_none :
  version (ctx_at 4) = 4 /\
  find_node (ctx_at 4) "3@SYM@FOO@0" = Ret None /\
  rpc_code (find_node (ctx_at 4) "3@SYM@FOO@0") = None /\
  get_menu (ctx_at 4) (VStr "3@SYM@FOO@0") = Ret None /\
  rpc_code (get_menu (ctx_at 4) (VStr "3@SYM@FOO@0")) = None /\
  find_node (ctx_at 4) "4@NOSUCH" = Ret None /\
  find_node (ctx_at 4) "4@SYM@FOO@0" = Ret (Some (TreeNode foo_node)).
Proof. repeat split; reflexivity. Qed.

(** C1, amended: for every Session and every token whose leading
    version does not equal the Session's current version, resolving
    the token returns no node: [find_node] returns [None] and
    [get_menu] returns [None], by a normal return. *)
Theorem stale_token_resolves_to_none (c : KconfigContext) (id ver type : string)
    (parts : list string) (v : Z) :
  split ID_SEP id = ver :: type :: parts ->
  int_of_str ver = Some v ->
  v <> version c ->
  find_node c id = Ret None /\ get_menu c (VStr id) = Ret None.
Proof.
  intros Hs Hv Hne.
  pose proof (find_node_split c id ver type parts v Hs Hv Hne) as Hf.
  split; [exact Hf|].
  unfold get_menu.
  assert (Hid : truthy (VStr id) = true).
  { destruct id; [discriminate Hs|reflexivity]. }
  rewrite Hid, Hf. reflexivity.
Qed.

Lemma stale_token_resolves_to_none_witness :
  find_node (ctx_at 4) "3@MENU@0" = Ret None /\
  get_menu (ctx_at 4) (VStr "3@MENU@0") = Ret None.
Proof.
  apply (stale_token_resolves_to_none (ctx_at 4) "3@MENU@0" "3" "MENU" ["0"] 3).
  - reflexivity.
  - reflexivity.
  - simpl. lia.
Defined.

(** ** Version gating *)

(** The kinds of token and their tags in an identifier. *)
Inductive NodeKind : Type := MainMenu | Menu | Sym | Choice | Comment.

Definition kind_tag (k : NodeKind) : string :=
  match k with
  | MainMenu => "MAINMENU"
  | Menu => "MENU"
  | Sym => "SYM"
  | Choice => "CHOICE"
  | Comment => "COMMENT"
  end.

Definition SEP : string := String ID_SEP "".

Lemma str_of_int_no_sep (z : Z) :
  all_chars (fun c => negb (Ascii.eqb c ID_SEP)) (str_of_int z) = true.
Proof.
  eapply all_chars_impl; [|apply str_of_int_chars].
  intros c H. unfold ID_SEP. now rewrite (numeral_char_not_sep c H).
Qed.

(** A joined identifier splits back into its version and at least a
    kind. *)
Lemma split_versioned (v : Z) (p : string) (ps : list string) :
  exists type parts,
    split ID_SEP (join SEP (str_of_int v :: p :: ps))
    = str_of_int v :: type :: parts.
Proof.
  change (join SEP (str_of_int v :: p :: ps))
    with (str_of_int v +:+ String ID_SEP (join SEP (p :: ps))).
  rewrite split_prefix by apply str_of_int_no_sep.
  destruct (split ID_SEP (join SEP (p :: ps))) as [|t parts] eqn:E.
  - now apply split_not_nil in E.
  - eauto.
Qed.

Lemma find_node_versioned (c : KconfigContext) (v : Z) (p : string)
    (ps : list string) :
  v <> version c ->
  find_node c (join SEP (str_of_int v :: p :: ps)) = Ret None.
Proof.
  intros Hne. destruct (split_versioned v p ps) as (type & parts & Hs).
  eapply find_node_split; [exact Hs|apply int_str|exact Hne].
Qed.

(** What [_node_id] returns: the empty text without a tree, else the
    version joined to at least one more field. *)
Lemma _node_id_shape (c : KconfigContext) (node : MenuNode) (tok : string) :
  _node_id c node = Ret tok ->
  (tok = "" /\ _kconfig c = None) \/
  (exists p ps, tok = join SEP (str_of_int (version c) :: p :: ps)).
Proof.
  unfold _node_id. destruct (_kconfig c) as [k|]; [|intros [= <-]; now left].
  intros H. right.
  apply rbind_Ret in H as (parts & Hparts & Hjoin).
  unfold join_values in Hjoin. simpl as_strings in Hjoin.
  destruct (as_strings parts) as [ss|] eqn:Ess; simpl in Hjoin; [|discriminate].
  injection Hjoin as <-.
  assert (Hne : ss <> []).
  { intros ->.
    destruct (MenuNode_is node (top_node k)).
    - injection Hparts as <-. discriminate Ess.
    - destruct (item node); try (apply rbind_Ret in Hparts as (i & _ & Hp));
        try injection Hp as <-; try injection Hparts as <-; discriminate Ess. }
  destruct ss as [|p ps]; [contradiction|]. eauto.
Qed.

(** C2: for every token kind, a token encoded while the Session's
    version is [v] yields no node once the version is [v + 1]:
    whatever [_node_id] returned at version [v] does not resolve to a
    node, and every identifier made of [v], a kind tag and any
    discriminators resolves to [None]. *)
Theorem version_gating (c c' : KconfigContext) :
  version c' = version c + 1 ->
  (forall node tok, _node_id c node = Ret tok ->
     forall n, find_node c' tok <> Ret (Some n)) /\
  (forall (k : NodeKind) (discs : list string),
     find_node c' (join SEP (str_of_int (version c) :: kind_tag k :: discs))
     = Ret None).
Proof.
  intros Hv. assert (Hne : version c <> version c') by lia.
  split.
  - intros node tok Hid n.
    destruct (_node_id_shape c node tok Hid) as [[-> _] | (p & ps & ->)].
    + discriminate.
    + rewrite find_node_versioned by exact Hne. discriminate.
  - intros k discs. now apply find_node_versioned.
Qed.

Lemma version_gating_witness :
  _node_id (ctx_at 3) foo_node = Ret "3@SYM@FOO@0" /\
  find_node (ctx_at 3) "3@SYM@FOO@0" = Ret (Some (TreeNode foo_node)) /\
  find_node (ctx_at 4) "3@SYM@FOO@0" <> Ret (Some (TreeNode foo_node)) /\
  find_node (ctx_at 4) (join SEP [str_of_int 3; kind_tag Choice; "0"]) = Ret None.
Proof.
  assert (Hv : version (ctx_at 4) = version (ctx_at 3) + 1) by reflexivity.
  destruct (version_gating (ctx_at 3) (ctx_at 4) Hv) as [H1 H2].
  split; [reflexivity|]. split; [reflexivity|]. split.
  - apply (H1 foo_node). reflexivity.
  - apply (H2 Choice ["0"]).
Defined.

End IdFacts.

Module ParseFacts.
Import Py Lsp Kconfiglsp PyFacts IdFacts.

(** The environment of a Session can be applied to the process: every
    entry is accepted by [os.environ] and [ZEPHYR_BASE] is defined. *)
Definition env_applicable (e : gmap string string) : Prop :=
  (forall k v, e !! k = Some v -> putenv_ok k v = true) /\
  is_Some (e !! "ZEPHYR_BASE").

Lemma putenv_all_ok (l : list (string * string)) (environ : gmap string string) :
  Forall (fun kv => putenv_ok kv.1 kv.2 = true) l ->
  exists environ', putenv_all l environ = (environ', Ret tt).
Proof.
  revert environ. induction l as [|[k v] l IH]; intros environ Hall; simpl.
  - eauto.
  - inversion Hall as [|? ? Hkv Hl]; subst. simpl in Hkv. rewrite Hkv. apply IH, Hl.
Qed.

Lemma initialize_env_ok (st : CtxState) :
  env_applicable (env (self st)) ->
  exists w, initialize_env st = (mk_CtxState w (self st), Ret tt).
Proof.
  intros [Hok [base Hbase]]. unfold initialize_env.
  destruct (putenv_all_ok (map_to_list (env (self st))) (environ (world st)))
    as [environ' ->].
  { apply Forall_forall. intros [k v] Hin. simpl.
    apply (Hok k v). apply elem_of_map_to_list, list_elem_of_In, Hin. }
  unfold env_get. rewrite Hbase. eauto.
Qed.

(** A Session whose environment lacks [ZEPHYR_BASE]. *)
Definition bare_env : gmap string string :=
  {[ "BOARD" := "nrf52dk"; "ARCH" := "arm"; "BOARD_DIR" := "/boards/nrf52dk" ]}.

Definition bare_ctx : KconfigContext :=
  mk_KconfigContext (Uri_file "/build") bare_env []
    (mk_BoardConf "nrf52dk" "arm" "/boards/nrf52dk") 0 "Kconfig" None VNone None [] ∅.

Definition world0 : World := mk_World ∅ [] (mk_DocumentStore ∅ ∅) 0.

(** C3 as stated fails: the constructor accepts an environment
    without [ZEPHYR_BASE]; on such a Session [parse] raises [KeyError]
    while applying the environment and the version stays 0, whether
    kconfiglib would have succeeded or failed. *)
Lemma parse_without_base_keeps_version :
  KconfigContext_new (Uri_file "/build") "Kconfig" [] bare_env = Ret bare_ctx /\
  snd (parse (InitOk tree) (mk_CtxState world0 bare_ctx)) = Raise (KeyError "ZEPHYR_BASE") /\
  version (self (fst (parse (InitOk tree) (mk_CtxState world0 bare_ctx)))) = 0 /\
  snd (parse (InitKconfigError "bad" tree) (mk_CtxState world0 bare_ctx))
  = Raise (KeyError "ZEPHYR_BASE") /\
  version (self (fst (parse (InitKconfigError "bad" tree) (mk_CtxState world0 bare_ctx)))) = 0.
Proof. repeat split; vm_compute; reflexivity. Qed.

(** The diagnostics [parse] leaves for each way kconfiglib can end. *)
Definition parse_diagnostics (o : InitOutcome) (c : KconfigContext) : Prop :=
  match o with
  | InitOk e =>
      ctx_valid c = not_empty (e_unique_defined_syms e) /\
      cmd_diags c = [] /\ kconfig_diags c = ∅
  | InitKconfigError msg e =>
      ctx_valid c = false /\
      match nonempty (e_filename e), e_linenr e with
      | true, Some n =>
          kconfig_diags c
          = {[ Uri_str (Uri_file (path_join (e_srctree e) (e_filename e))) :=
                 [Diagnostic_err (error_message msg)
                    (mk_Range (mk_Position (n - 1) 0) (mk_Position (n - 1) 99999))] ]}
          /\ cmd_diags c = []
      | _, _ =>
          cmd_diags c = [Diagnostic_err (error_message msg) origin]
          /\ kconfig_diags c = ∅
      end
  | InitException msg e =>
      ctx_valid c = false /\
      cmd_diags c = [Diagnostic_err ("Kconfig failed: " +:+ msg) origin] /\
      kconfig_diags c = ∅
  end.

(** The context [parse] leaves when the environment applies. *)
Definition parsed (o : InitOutcome) (c : KconfigContext) : KconfigContext :=
  let c1 := clear_diags (set_modified (Some (Dict ∅)) (set_menu VNone c)) in
  let k := (Kconfig_parse o (Kconfig_new (_root c1))).1 in
  let c2 := set_kconfig (Some k) c1 in
  let c3 :=
    match (Kconfig_parse o (Kconfig_new (_root c1))).2 with
    | None => c2
    | Some (KconfigError e) =>
        match Kconfig_loc k with
        | Some loc =>
            kconfig_diag (loc_uri loc)
              (Diagnostic_err (error_message e) (loc_range loc)) c2
        | None =>
            set_cmd_diags (cmd_diags c2 ++ [Diagnostic_err (error_message e) origin])%list c2
        end
    | Some (OtherException e) =>
        set_cmd_diags
          (cmd_diags c2 ++ [Diagnostic_err ("Kconfig failed: " +:+ e) origin])%list c2
    end in
  set_version (version c3 + 1) c3.

Lemma parse_run (o : InitOutcome) (st : CtxState) :
  env_applicable (env (self st)) ->
  exists w, parse o st = (mk_CtxState w (parsed o (self st)), Ret tt).
Proof.
  intros Henv. unfold parse, mbind, update_self, mmodify, mget.
  match goal with
  | |- context [initialize_env ?s] =>
      destruct (initialize_env_ok s) as [w Hw]; [exact Henv|]
  end.
  rewrite Hw. exists w. unfold parsed.
  destruct o as [e|msg e|msg e]; cbn -[error_message path_join Uri_str].
  - reflexivity.
  - destruct (Kconfig_loc _); reflexivity.
  - reflexivity.
Qed.

(** C3, amended: every call to [parse()] on a Session whose
    environment can be applied (legal entries, [ZEPHYR_BASE] defined)
    returns and increments the version by exactly one, on success and
    on evaluation failure alike; on a [KconfigError] the valid flag is
    false and the failure becomes one error Diagnostic, stored under
    the reported file at the reported line when kconfiglib has a file
    name and a line number, else a command-level Diagnostic at
    position (0,0); any other exception becomes a command-level
    Diagnostic at (0,0). *)
Theorem parse_increments_version (o : InitOutcome) (st : CtxState) :
  env_applicable (env (self st)) ->
  snd (parse o st) = Ret tt /\
  version (self (fst (parse o st))) = version (self st) + 1 /\
  parse_diagnostics o (self (fst (parse o st))).
Proof.
  intros Henv. destruct (parse_run o st Henv) as [w ->].
  cbn [fst snd self]. split; [reflexivity|]. unfold parsed.
  destruct o as [e|msg e|msg e]; cbn -[error_message path_join Uri_str].
  - repeat split; reflexivity.
  - unfold Kconfig_loc. cbn -[error_message path_join Uri_str].
    destruct (nonempty (e_filename e)), (e_linenr e) as [n|];
      cbn -[error_message path_join Uri_str]; repeat split; reflexivity.
  - repeat split; reflexivity.
Qed.

Lemma parse_increments_version_witness :
  snd (parse (InitKconfigError "Kconfig:12: error: bad token" tree)
         (mk_CtxState world0 (ctx_at 3))) = Ret tt /\
  version (self (fst (parse (InitKconfigError "Kconfig:12: error: bad token" tree)
                        (mk_CtxState world0 (ctx_at 3))))) = 4 /\
  parse_diagnostics (InitKconfigError "Kconfig:12: error: bad token" tree)
    (self (fst (parse (InitKconfigError "Kconfig:12: error: bad token" tree)
                  (mk_CtxState world0 (ctx_at 3))))).
Proof.
  apply (parse_increments_version
           (InitKconfigError "Kconfig:12: error: bad token" tree)
           (mk_CtxState world0 (ctx_at 3))).
  split.
  - intros k v Hkv. simpl in Hkv. unfold base_env in Hkv.
    repeat (apply lookup_insert_Some in Hkv as [[<- <-] | [_ Hkv]]; [reflexivity|]).
    apply lookup_singleton_Some in Hkv as [<- <-]. reflexivity.
  - exists "/zephyr". reflexivity.
Defined.

(** The message kept from a compiler-style error text. *)
Example error_message_strips_location :
  error_message "Kconfig:12: error: bad token" = "bad token" /\
  error_message "couldn't parse 'x'" = "couldn't parse 'x'".
Proof. split; reflexivity. Qed.

End ParseFacts.

(* ===================================================================== *)
(** * Facts about srv/kconfiglsp.py: the lint checks *)
(* ===================================================================== *)

Module LintFacts.
Import Py Lsp Kconfiglsp PyFacts IdFacts.

(** What a check may do to the diagnostics of the file at index [i]:
    return false and leave the state alone, return true after adding
    one diagnostic, or raise before adding any. *)
Definition check_outcome (i : nat) (st : CtxState) (r : CtxState * result bool)
  : Prop :=
  r = (st, Ret false) \/
  (exists st' d, r = (st', Ret true) /\ file_diags i st' = (file_diags i st ++ [d])%list) \/
  (exists st' e, r = (st', Raise e) /\ file_diags i st' = file_diags i st).

Definition well_indexed (i : nat) (st : CtxState) : Prop :=
  (i < length (conf_files (self st)))%nat.

Lemma append_diag_spec (i : nat) (d : Diagnostic) (st : CtxState) :
  well_indexed i st ->
  exists st', append_diag i d st = (st', Ret tt) /\
              world st' = world st /\
              file_diags i st' = (file_diags i st ++ [d])%list.
Proof.
  intros Hi. unfold append_diag, update_self, mmodify. eexists. split; [reflexivity|].
  split; [reflexivity|].
  unfold file_diags. cbn [self set_conf_files conf_files].
  rewrite list_lookup_alter.
  destruct (decide (i = i)); [|congruence].
  destruct (lookup_lt_is_Some_2 _ _ Hi) as [f ->]. reflexivity.
Qed.


Lemma in_world_self {A} (m : M World A) (st : CtxState) :
  self (fst (in_world m st)) = self st.
Proof. unfold in_world. destruct (m (world st)). reflexivity. Qed.








(** The rule as the design words it: run the checks in order and stop
    at the first one that applies. *)
Fixpoint first_applicable (cs : list (M CtxState bool)) : M CtxState unit :=
  match cs with
  | [] => mret tt
  | c :: cs' => mbind c (fun hit => if hit then mret tt else first_applicable cs')
  end.



Lemma first_applicable_fires (cs : list (M CtxState bool)) i st k c :
  Forall (fun c => check_outcome i st (c st)) cs ->
  cs !! k = Some c ->
  (forall j c', (j < k)%nat -> cs !! j = Some c' -> snd (c' st) = Ret false) ->
  snd (c st) = Ret true ->
  first_applicable cs st = (fst (c st), Ret tt) /\
  exists d, file_diags i (fst (c st)) = (file_diags i st ++ [d])%list.
Proof.
  revert k. induction cs as [|c0 cs IH]; intros k Hall Hk Hbefore Hfire.
  - discriminate.
  - inversion Hall as [|? ? Hc0 Hcs]; subst. destruct k as [|k].
    + injection Hk as ->. simpl. unfold mbind at 1.
      destruct Hc0 as [E | [(st' & d & E & Hd) | (st' & e & E & Hd)]];
        rewrite E in *; cbn [fst snd] in *; try discriminate.
      split; [reflexivity|eauto].
    + simpl in Hk. simpl. unfold mbind at 1.
      assert (H0 : snd (c0 st) = Ret false) by (apply (Hbefore 0%nat); [lia|reflexivity]).
      destruct Hc0 as [E | [(st' & d & E & Hd) | (st' & e & E & Hd)]];
        rewrite E in *; cbn [fst snd] in *; try discriminate.
      apply (IH k); auto.
      intros j c' Hj Hc'. apply (Hbefore (S j)); [lia|exact Hc'].
Qed.

(** A concrete pass: one conf file with two assignments of [FOO], an
    empty board file, and the tree of [IdFacts]. *)
Definition prj : Uri := Uri_file "/prj.conf".

Definition disk : FileSystem :=
  {[ "/prj.conf" := "CONFIG_FOO=1" +:+ NEWLINE +:+ "CONFIG_FOO=2";
     "/boards/nrf52dk/nrf52dk_defconfig" := "" ]}.

Definition lint_ctx (e : Engine) : KconfigContext :=
  mk_KconfigContext (Uri_file "/build") base_env [ConfFile_new prj]
    (mk_BoardConf "nrf52dk" "arm" "/boards/nrf52dk") 1 "Kconfig"
    (Some (install (Kconfig_new "Kconfig") e true)) VNone (Some (Dict ∅)) [] ∅.

Definition fresh_world : World := mk_World ∅ [] (mk_DocumentStore ∅ ∅) 0.

Definition entry_at (l : Z) (a : nat) (n v : string) : ConfEntry :=
  mk_ConfEntry n
    (mk_ref a (mk_Location prj (mk_Range (mk_Position l 0)
                                         (mk_Position l (7 + len n)))))
    v
    (mk_Range (mk_Position l (8 + len n)) (mk_Position l (8 + len n + len v))).

(** ** Assignments that did not take effect *)






(** The text [check_assignment] starts from when the value asked for
    is not the value in effect. *)
Definition assignment_message (entry : ConfEntry) (sym : Symbol) : string :=
  if nonempty (str_value sym) then
    "CONFIG_" +:+ sym_name sym +:+ " was assigned the value " +:+ raw entry
    +:+ ", but got the value " +:+ str_value sym +:+ "."
  else "CONFIG_" +:+ sym_name sym +:+ " couldn't be set.".


(** An integer symbol asked to be 5 that ended up 3, with no unmet
    dependency, a prompt and another default. *)
Definition bar_node : MenuNode :=
  mk_MenuNode 7 (ItemSymbol "BAR" [7%nat]) (Some "Bar level") "Kconfig" 5.
Definition BAR : Symbol := mk_Symbol "BAR" INT "3" (VStr "5") [bar_node] [] "0".
Definition bar_tree : Engine :=
  mk_Engine "Kconfig" "/zephyr" (Some 12) top [] {[ "BAR" := BAR ]} [] [] ["BAR"].
Definition bar_disk : FileSystem :=
  {[ "/prj.conf" := "CONFIG_BAR=5"; "/boards/nrf52dk/nrf52dk_defconfig" := "" ]}.

(** Without an unmet dependency [check_assignment] reports nothing,
    whatever it found. *)
Lemma check_assignment_silent (fs : FileSystem) (i : nat) (file : ConfFile)
    (entry : ConfEntry) (sym : Symbol) (uv : value) (st : CtxState) :
  assigned_value sym = Ret uv ->
  _missing_deps sym = [] ->
  check_assignment fs i file entry sym st = (st, Ret false).
Proof.
  intros Huv Hdeps. unfold check_assignment, mbind, mlift. rewrite Huv, Hdeps.
  destruct (assignment_finding entry sym uv) as [[msg sev]|]; reflexivity.
Qed.

(** For a bool or tristate symbol without user value, which is what
    a rejected assignment leaves, it raises [KeyError]. *)
Lemma check_assignment_no_user_value (fs : FileSystem) (i : nat) (file : ConfFile)
    (entry : ConfEntry) (sym : Symbol) (st : CtxState) :
  sym_type sym = BOOL \/ sym_type sym = TRISTATE ->
  user_value sym = VNone ->
  check_assignment fs i file entry sym st = (st, Raise (KeyError "None")).
Proof.
  intros Hty Hu. unfold check_assignment, mbind, mlift, assigned_value.
  rewrite Hu. destruct Hty as [-> | ->]; reflexivity.
Qed.

(** A bool symbol with a prompt whose assignment was rejected: it has
    no user value and no value in effect. *)
Definition QUX : Symbol :=
  mk_Symbol "QUX" BOOL "" VNone
    [mk_MenuNode 9 (ItemSymbol "QUX" [9%nat]) (Some "Qux") "Kconfig" 8] [] "n".
Definition qux_tree : Engine :=
  mk_Engine "Kconfig" "/zephyr" (Some 12) top [] {[ "QUX" := QUX ]} [] [] ["QUX"].
Definition qux_disk : FileSystem :=
  {[ "/prj.conf" := "CONFIG_QUX=y"; "/boards/nrf52dk/nrf52dk_defconfig" := "" ]}.

(** A bool symbol asked to be [y] by one entry and [n] by a later one,
    which is the value in effect, with an unmet dependency. *)
Definition ZAP : Symbol :=
  mk_Symbol "ZAP" BOOL "n" (VInt 0)
    [mk_MenuNode 10 (ItemSymbol "ZAP" [10%nat]) (Some "Zap") "Kconfig" 9]
    [mk_Dep "QUX" 0 (Some ("QUX", BOOL))] "y".
Definition zap_tree : Engine :=
  mk_Engine "Kconfig" "/zephyr" (Some 12) top [] {[ "ZAP" := ZAP ]} [] [] ["ZAP"].
Definition zap_disk : FileSystem :=
  {[ "/prj.conf" := "CONFIG_ZAP=y" +:+ NEWLINE +:+ "CONFIG_ZAP=n";
     "/boards/nrf52dk/nrf52dk_defconfig" := "" ]}.

(** C5 fails on three inputs.  [CONFIG_BAR=5] passes checks 1 and 2,
    and the value in effect, 3, differs from the 5 asked for, yet the
    pass ends without any diagnostic: [check_assignment] settles the
    message and the severity, then reports only when a dependency is
    unmet.  [CONFIG_QUX=y] on a bool symbol that rejected the value
    ends the pass with [KeyError] and no diagnostic.  And of the two
    assignments [CONFIG_ZAP=y], [CONFIG_ZAP=n], the first, whose value
    is not the one in effect, gets a Hint saying the symbol was
    already disabled: the check compares the last value given to the
    symbol, not the value of the entry. *)
Theorem unhonored_assignment_unreported :
  (assigned_value BAR = Ret (VStr "5") /\
   value_eqb (VStr "5") (VStr (str_value BAR)) = false /\
   snd (lint bar_disk (mk_CtxState fresh_world (lint_ctx bar_tree))) = Ret tt /\
   file_diags 0 (fst (lint bar_disk (mk_CtxState fresh_world (lint_ctx bar_tree)))) = []) /\
  (snd (lint qux_disk (mk_CtxState fresh_world (lint_ctx qux_tree)))
   = Raise (KeyError "None") /\
   file_diags 0 (fst (lint qux_disk (mk_CtxState fresh_world (lint_ctx qux_tree)))) = []) /\
  (snd (lint zap_disk (mk_CtxState fresh_world (lint_ctx zap_tree))) = Ret tt /\
   map (fun d => (line (start (range d)), severity d, message d))
     (file_diags 0 (fst (lint zap_disk (mk_CtxState fresh_world (lint_ctx zap_tree)))))
   = [(0, HINT,
       "CONFIG_ZAP was already disabled. Missing dependencies:" +:+ NEWLINE +:+ "QUX");
      (1, HINT,
       "CONFIG_ZAP was already disabled. Missing dependencies:" +:+ NEWLINE +:+ "QUX")]).
Proof. repeat split; vm_compute; reflexivity. Qed.

Definition dep_disk : FileSystem :=
  {[ "/prj.conf" := "CONFIG_BAZ=y"; "/boards/nrf52dk/nrf52dk_defconfig" := "" ]}.

(** [BAZ] depends on the boolean [QUX], which is off. *)
Definition BAZ : Symbol :=
  mk_Symbol "BAZ" BOOL "n" (VInt 2)
    [mk_MenuNode 8 (ItemSymbol "BAZ" [8%nat]) (Some "Baz") "Kconfig" 6]
    [mk_Dep "QUX" 0 (Some ("QUX", BOOL))] "n".

Definition baz_entry : ConfEntry := entry_at 0 1 "BAZ" "y".

Definition loaded_world : World :=
  mk_World ∅ []
    (mk_DocumentStore
       {[ Uri_str prj := TextDocument_new prj (Some "CONFIG_BAZ=y") None None ]} ∅) 2.

(** With an unmet dependency the check does warn: the message and the
    titles of the actions. *)
Example baz_warning :
  let st' := fst (lint_checks dep_disk 0 (ConfFile_new prj) baz_entry BAZ [baz_entry]
                    (mk_CtxState loaded_world (lint_ctx tree))) in
  map message (file_diags 0 st')
  = ["CONFIG_BAZ was assigned the value y, but got the value n. Missing dependencies:"
     +:+ NEWLINE +:+ "QUX"] /\
  map (fun d => map title (actions d)) (file_diags 0 st')
  = [["Enable CONFIG_QUX to resolve dependency"; "Remove entry"]].
Proof. split; vm_compute; reflexivity. Qed.

(** ** Duplicate assignments *)

(** C6 on the file [CONFIG_FOO=1], [CONFIG_FOO=2]: the pass returns
    and leaves two diagnostics.  The first is on line 0, the first
    occurrence: a Hint tagged unnecessary whose action removes the
    entry, comparing the entry with itself.  The second, on line 1, is
    the Warning naming both values. *)
Theorem first_occurrence_flagged :
  let run := lint disk (mk_CtxState fresh_world (lint_ctx tree)) in
  snd run = Ret tt /\
  map (fun d => (line (start (range d)), severity d, tags d, map title (actions d)))
      (file_diags 0 (fst run))
  = [(0, HINT, [UNNECESSARY], ["Remove redundant entry"]); (1, WARNING, [], [])] /\
  map message (file_diags 0 (fst run))
  = ["FOO set more than once. Old value " +:+ QUOTE +:+ "1" +:+ QUOTE
     +:+ ", new value " +:+ QUOTE +:+ "1" +:+ QUOTE +:+ ".";
     "FOO set more than once. Old value " +:+ QUOTE +:+ "1" +:+ QUOTE
     +:+ ", new value " +:+ QUOTE +:+ "2" +:+ QUOTE +:+ "."].
Proof. repeat split; vm_compute; reflexivity. Qed.

(** Why: each call of [entries] allocates its locations anew. *)
Lemma entries_of_lines_mono u ls l a :
  (a <= (entries_of_lines u ls l a).2)%nat.
Proof.
  revert l a. induction ls as [|x ls IH]; intros l a; simpl; [lia|].
  destruct (match_entry x).
  - pose proof (IH (l + 1) (S a)) as H.
    destruct (entries_of_lines u ls (l + 1) (S a)). simpl in *. lia.
  - apply IH.
Qed.

Lemma entries_of_lines_addr u ls l a e :
  e ∈ (entries_of_lines u ls l a).1 ->
  (a <= addr (loc e) < (entries_of_lines u ls l a).2)%nat.
Proof.
  revert l a. induction ls as [|x ls IH]; intros l a; simpl.
  - intros H. inversion H.
  - destruct (match_entry x) as [m|].
    + pose proof (IH (l + 1) (S a)) as IH'.
      pose proof (entries_of_lines_mono u ls (l + 1) (S a)) as Hm.
      destruct (entries_of_lines u ls (l + 1) (S a)) as [es a']. simpl in *.
      intros [-> | Hin]%elem_of_cons.
      * simpl. lia.
      * specialize (IH' Hin). lia.
    + apply IH.
Qed.

(** An entry of a later call of [entries] is never equal to an entry
    of an earlier call. *)
Lemma later_entries_differ u1 ls1 l1 a1 u2 ls2 l2 e1 e2 :
  e1 ∈ (entries_of_lines u1 ls1 l1 a1).1 ->
  e2 ∈ (entries_of_lines u2 ls2 l2 (entries_of_lines u1 ls1 l1 a1).2).1 ->
  ConfEntry_eq e1 e2 = false.
Proof.
  intros H1%entries_of_lines_addr H2%entries_of_lines_addr.
  unfold ConfEntry_eq, same_object. apply Nat.eqb_neq. lia.
Qed.



(** ** Priority of the checks *)



(** The entries [check_multiple_assignments] compares with. *)
Definition matching (entry : ConfEntry) (all : list ConfEntry) : list ConfEntry :=
  filter (fun e => name e = name entry) all.

























End LintFacts.
(* ===================================================================== *)
(** * Facts about the request handlers *)
(* ===================================================================== *)

Module ServerFacts.
Import Py Lsp Rpc Kconfiglsp PyFacts IdFacts LintFacts.

(** ** Exceptions in handlers *)

(** An engine whose symbols accept every value. *)
Definition accept_all (s : Symbol) (v : value) : bool * Symbol := (true, s).
Definition forget (s : Symbol) : Symbol := s.

Definition idle_server : Server :=
  mk_RPCServer None true "off" [] (mk_ServerState ∅ fresh_world).

Definition search_request : RPCRequest :=
  mk_RPCRequest (VInt 1) "kconfig/search"
    {[ "ctx" := VStr "file:///no/such/build"; "query" := VStr "FOO" ]}.

Definition next_request : RPCRequest :=
  mk_RPCRequest (VInt 2) "kconfig/search"
    {[ "ctx" := VStr "file:///no/such/build"; "query" := VStr "BAR" ]}.

(** An exception of a handler leaves [handle] as it is: nothing is
    sent, and [loop] ends with it. *)
Lemma handler_exception_escapes (hs : gmap string (Params -> M Server Payload))
    (r : RPCRequest) (h : Params -> M Server Payload) (s : Server) (e : exn)
    (rest : list RPCMsg) :
  running s = true ->
  trace s = "off" ->
  hs !! req_method r = Some h ->
  snd (h (req_params r) (received (MsgRequest r) s)) = Raise e ->
  trace (fst (h (req_params r) (received (MsgRequest r) s))) = "off" ->
  e <> KeyboardInterrupt ->
  snd (server_loop hs (MsgRequest r :: rest) s) = Raise e /\
  sent (fst (server_loop hs (MsgRequest r :: rest) s))
  = sent (fst (h (req_params r) (received (MsgRequest r) s))).
Proof.
  intros Hrun Htr Hh He Htr' Hki.
  assert (H : server_loop hs (MsgRequest r :: rest) s
              = (fst (h (req_params r) (received (MsgRequest r) s)), Raise e)).
  { unfold server_loop. simpl loop. rewrite Hrun.
    unfold handle, dispatch.
    match goal with
    | |- context [@lookup ?a ?b ?c ?d (req_method r) hs] =>
        replace (@lookup a b c d (req_method r) hs) with (Some h)
          by (symmetry; exact Hh)
    end.
    unfold mbind, dbg, mraise.
    cbn [received set_req trace] in *. rewrite Htr.
    change (String.eqb "off" "off") with true. cbv iota.
    destruct (h (req_params r) _) as [s1 [p|e']]; cbn [fst snd] in *;
      [discriminate|]. injection He as ->. rewrite Htr'.
    change (String.eqb "off" "off") with true. cbv iota.
    destruct e; try reflexivity. contradiction. }
  rewrite H. split; reflexivity.
Qed.

(** C9 on a [kconfig/search] request naming a Session that does not
    exist, followed by one more request: the handler raises
    [KeyError]; [handle] lets it through without sending a response;
    [loop] ends with the exception and the second request is never
    handled. *)
Theorem unknown_context_ends_loop :
  handle_search (req_params search_request) idle_server
  = (idle_server, Raise (KeyError "file:///no/such/build")) /\
  rpc_code (snd (handle_search (req_params search_request) idle_server)) = None /\
  snd (server_handle (kconfig_handlers accept_all forget) (MsgRequest search_request)
         (received (MsgRequest search_request) idle_server))
  = Raise (KeyError "file:///no/such/build") /\
  snd (server_loop (kconfig_handlers accept_all forget)
         [MsgRequest search_request; MsgRequest next_request] idle_server)
  = Raise (KeyError "file:///no/such/build") /\
  sent (fst (server_loop (kconfig_handlers accept_all forget)
               [MsgRequest search_request; MsgRequest next_request] idle_server))
  = [].
Proof. repeat split; vm_compute; reflexivity. Qed.

(** A request of an unknown method, by contrast, is answered. *)
Example unknown_method_answered :
  sent (fst (server_handle (kconfig_handlers accept_all forget)
               (MsgRequest (mk_RPCRequest (VInt 7) "no/such" ∅))
               (received (MsgRequest (mk_RPCRequest (VInt 7) "no/such" ∅)) idle_server)))
  = [SentResponse (VInt 7) PNone
       (Some (RPCError METHOD_NOT_FOUND "Unknown method no/such"))].
Proof. vm_compute. reflexivity. Qed.

(** ** setVal *)

Lemma initialize_env_self (st : CtxState) :
  self (fst (initialize_env st)) = self st.
Proof.
  unfold initialize_env.
  destruct (putenv_all _ _) as [environ' [[]|e]]; [|reflexivity].
  destruct (env_get _ _); reflexivity.
Qed.

(** [parse] always leaves a dict in [modified]. *)
Lemma parse_modified (o : InitOutcome) (st : CtxState) :
  modified (self (fst (parse o st))) = Some (Dict ∅).
Proof.
  unfold parse, mbind, update_self, mmodify, mget.
  match goal with
  | |- context [initialize_env ?s] =>
      pose proof (initialize_env_self s) as Hs;
      destruct (initialize_env s) as [st1 [[]|e]]
  end; cbn [fst self] in Hs.
  - destruct o as [e|msg e|msg e]; cbn -[error_message path_join Uri_str];
      try destruct (Kconfig_loc _); cbn; rewrite Hs; reflexivity.
  - cbn. rewrite Hs. reflexivity.
Qed.

Lemma set_on_dict set_value (n : string) (v : value) (c : KconfigContext)
    (sym : Symbol) (keys : gset string) :
  modified c = Some (Dict keys) ->
  n ∉ keys ->
  get c n = Some sym ->
  snd (set set_value n v c)
  = if fst (set_value sym v)
    then Raise (AttributeError "'dict' object has no attribute 'append'")
    else Ret tt.
Proof.
  intros Hm Hn Hg. unfold set. rewrite Hg.
  destruct (set_value sym v) as [ok sym']. cbn [fst].
  destruct ok; [|reflexivity].
  replace (modified (store_symbol n sym' c)) with (Some (Dict keys))
    by (rewrite <- Hm; reflexivity).
  unfold contains. rewrite bool_decide_eq_false_2 by exact Hn. reflexivity.
Qed.

Lemma set_keeps_modified set_value (n : string) (v : value) (c : KconfigContext)
    (keys : gset string) :
  modified c = Some (Dict keys) ->
  modified (fst (set set_value n v c)) = Some (Dict keys).
Proof.
  intros Hm. unfold set. destruct (get c n) as [sym|]; [|exact Hm].
  destruct (set_value sym v) as [ok sym'].
  assert (H1 : modified (store_symbol n sym' c) = Some (Dict keys))
    by (rewrite <- Hm; reflexivity).
  destruct ok; [|exact H1]. rewrite H1.
  destruct (contains (Dict keys) n); exact H1.
Qed.

Lemma unset_keeps_modified unset_value (n : string) (c : KconfigContext) :
  modified (unset unset_value n c) = modified c.
Proof. unfold unset. destruct (get c n); reflexivity. Qed.

(** C10: [parse()] leaves an empty dict in [modified], and neither
    [kconfig/setMenu] nor [set] nor [unset] replaces it.  On every
    context whose [modified] is a dict that does not hold the name,
    for a known symbol name, a [kconfig/setVal] request whose value
    the symbol accepts raises [AttributeError], from [append] on the
    dict; it completes when the symbol rejects the value and when the
    value is omitted. *)
Theorem setval_accepted_raises
    (set_value : Symbol -> value -> bool * Symbol) (unset_value : Symbol -> Symbol) :
  (forall o st, modified (self (fst (parse o st))) = Some (Dict ∅)) /\
  (forall c keys, modified c = Some (Dict keys) ->
     (forall id, modified (set_menu id c) = Some (Dict keys)) /\
     (forall n v, modified (fst (set set_value n v c)) = Some (Dict keys)) /\
     (forall n, modified (unset unset_value n c) = Some (Dict keys))) /\
  (forall (srv : Server) (cid n : string) (c : KconfigContext) (keys : gset string)
          (v : value) (sym : Symbol) (params : Params),
     ctx (ext srv) !! cid = Some c ->
     modified c = Some (Dict keys) ->
     n ∉ keys ->
     get c n = Some sym ->
     params !! "ctx" = Some (VStr cid) ->
     params !! "name" = Some (VStr n) ->
     (params !! "val" = Some v -> fst (set_value sym v) = true ->
        snd (handle_setval set_value unset_value params srv)
        = Raise (AttributeError "'dict' object has no attribute 'append'")) /\
     (params !! "val" = Some v -> fst (set_value sym v) = false ->
        snd (handle_setval set_value unset_value params srv) = Ret PNone) /\
     (params !! "val" = None ->
        snd (handle_setval set_value unset_value params srv) = Ret PNone)).
Proof.
  split; [apply parse_modified|]. split.
  - intros c keys Hm. repeat split.
    + intros id. exact Hm.
    + intros n v. now apply set_keeps_modified.
    + intros n. now rewrite unset_keeps_modified.
  - intros srv cid n c keys v sym params Hctx Hm Hnin Hget Hc Hn.
    pose proof (set_on_dict set_value n v c sym keys Hm Hnin Hget) as Hset.
    repeat split.
    + intros Hv Hok. unfold handle_setval, param, ctx_lookup.
      rewrite Hc, Hctx, Hv, Hn. unfold ctx_set.
      destruct (set set_value n v c) as [c' r]. cbn [snd] in *.
      rewrite Hset, Hok. reflexivity.
    + intros Hv Hok. unfold handle_setval, param, ctx_lookup.
      rewrite Hc, Hctx, Hv, Hn. unfold ctx_set.
      destruct (set set_value n v c) as [c' r]. cbn [snd] in *.
      rewrite Hset, Hok. reflexivity.
    + intros Hv. unfold handle_setval, param, ctx_lookup.
      rewrite Hc, Hctx, Hv, Hn. reflexivity.
Qed.

(** A server holding the Session of [IdFacts] after a successful
    [parse], and an engine accepting only the value 5. *)
Definition parsed_ctx : KconfigContext :=
  self (fst (parse (InitOk tree) (mk_CtxState fresh_world (ctx_at 0)))).

Definition one_build : Server :=
  mk_RPCServer None true "off" []
    (mk_ServerState {[ "file:///build" := parsed_ctx ]} fresh_world).

(** The same server once [kconfig/setMenu] has stored the main menu
    as the current menu of the Session. *)
Definition browsed_build : Server :=
  mk_RPCServer None true "off" []
    (mk_ServerState {[ "file:///build" := set_menu (VStr "1@MAINMENU") parsed_ctx ]}
       fresh_world).

Definition only_five (s : Symbol) (v : value) : bool * Symbol :=
  if value_eqb v (VStr "5")
  then (true, mk_Symbol (sym_name s) (sym_type s) "5" (VStr "5") (nodes s)
                (direct_dep s) (_str_default s))
  else (false, s).

Definition setval_params (v : value) : Params :=
  {[ "ctx" := VStr "file:///build"; "name" := VStr "FOO"; "val" := v ]}.

Definition unset_params : Params :=
  {[ "ctx" := VStr "file:///build"; "name" := VStr "FOO" ]}.

Lemma setval_accepted_raises_witness :
  snd (handle_setval only_five forget (setval_params (VStr "5")) one_build)
  = Raise (AttributeError "'dict' object has no attribute 'append'") /\
  snd (handle_setval only_five forget (setval_params (VStr "5")) browsed_build)
  = Raise (AttributeError "'dict' object has no attribute 'append'") /\
  snd (handle_setval only_five forget (setval_params (VStr "x")) one_build)
  = Ret PNone /\
  snd (handle_setval only_five forget unset_params browsed_build) = Ret PNone.
Proof.
  destruct (setval_accepted_raises only_five forget) as (Hparse & Hkeep & H).
  assert (Hm : modified parsed_ctx = Some (Dict ∅)) by apply Hparse.
  assert (Hget : get parsed_ctx "FOO" = Some FOO) by (vm_compute; reflexivity).
  assert (Hb : ctx (ext browsed_build) !! "file:///build"
               = Some (set_menu (VStr "1@MAINMENU") parsed_ctx)) by reflexivity.
  assert (Hm' : modified (set_menu (VStr "1@MAINMENU") parsed_ctx) = Some (Dict ∅))
    by apply (Hkeep parsed_ctx ∅ Hm).
  assert (Hget' : get (set_menu (VStr "1@MAINMENU") parsed_ctx) "FOO" = Some FOO)
    by (vm_compute; reflexivity).
  assert (Hone : ctx (ext one_build) !! "file:///build" = Some parsed_ctx)
    by reflexivity.
  destruct (H one_build "file:///build" "FOO" parsed_ctx ∅ (VStr "5") FOO
              (setval_params (VStr "5")) Hone Hm (not_elem_of_empty _) Hget
              eq_refl eq_refl) as (Haccepted & _ & _).
  destruct (H browsed_build "file:///build" "FOO"
              (set_menu (VStr "1@MAINMENU") parsed_ctx) ∅ (VStr "5") FOO
              (setval_params (VStr "5")) Hb Hm' (not_elem_of_empty _) Hget'
              eq_refl eq_refl) as (Hbrowsed & _ & _).
  destruct (H one_build "file:///build" "FOO" parsed_ctx ∅ (VStr "x") FOO
              (setval_params (VStr "x")) Hone Hm (not_elem_of_empty _) Hget
              eq_refl eq_refl) as (_ & Hrejected & _).
  destruct (H browsed_build "file:///build" "FOO"
              (set_menu (VStr "1@MAINMENU") parsed_ctx) ∅ VNone FOO
              unset_params Hb Hm' (not_elem_of_empty _) Hget' eq_refl eq_refl)
    as (_ & _ & Homitted).
  split; [|split; [|split]].
  - apply Haccepted; reflexivity.
  - apply Hbrowsed; reflexivity.
  - apply Hrejected; reflexivity.
  - apply Homitted; reflexivity.
Defined.

(** Through the dispatcher the exception of such a request ends the
    loop as well. *)
Example setval_request_ends_loop :
  snd (server_loop (kconfig_handlers only_five forget)
         [MsgRequest (mk_RPCRequest (VInt 3) "kconfig/setVal" (setval_params (VStr "5")))]
         one_build)
  = Raise (AttributeError "'dict' object has no attribute 'append'").
Proof. vm_compute. reflexivity. Qed.

End ServerFacts.

(* ===================================================================== *)
(** * More facts about srv/lsp.py *)
(* ===================================================================== *)

Module MoreLspFacts.
Import Py Lsp Rpc LspMore PyFacts LspFacts.

(** ** Positions and ranges *)

(** The order of positions: by line, then by column. *)
Definition pos_lt (a b : Position) : Prop :=
  line a < line b \/ (line a = line b /\ character a < character b).

Lemma before_spec (a b : Position) :
  (Position_before a b = true <-> pos_lt a b) /\
  (Position_before a b = false <-> ~ pos_lt a b).
Proof.
  unfold Position_before, pos_lt.
  destruct (Z.ltb_spec (line a) (line b)), (Z.eqb_spec (line a) (line b)),
    (Z.ltb_spec (character a) (character b)); cbn; split; split;
    intros; try congruence; try lia.
Qed.

Lemma after_spec (a b : Position) : Position_after a b = Position_before b a.
Proof.
  unfold Position_after, Position_before.
  rewrite !Z.gtb_ltb, (Z.eqb_sym (line a) (line b)). reflexivity.
Qed.

Lemma eq_spec (a b : Position) :
  (Position_eq a b = true <-> ~ pos_lt a b /\ ~ pos_lt b a) /\
  (Position_eq a b = false <-> pos_lt a b \/ pos_lt b a).
Proof.
  unfold Position_eq, pos_lt.
  destruct (Z.eqb_spec (line a) (line b)), (Z.eqb_spec (character a) (character b));
    cbn; split; split; intros; try congruence; try lia.
Qed.

(** Decides a goal on the order of positions once every comparison has
    been named by [destruct ... eqn]. *)
Ltac order :=
  rewrite ?after_spec in *;
  repeat match goal with
         | H : Position_before _ _ = true |- _ => apply before_spec in H
         | H : Position_before _ _ = false |- _ => apply before_spec in H
         | H : Position_eq _ _ = true |- _ => apply eq_spec in H
         | H : Position_eq _ _ = false |- _ => apply eq_spec in H
         end;
  unfold pos_lt in *; cbn [negb andb orb] in *;
  try reflexivity; try (exfalso; lia).

(** X1: [before], [==] and [after] order the positions totally: for any
    two positions exactly one of the three holds, [a.before(b)] is
    [b.after(a)], and [==] holds only between equal positions. *)
Theorem position_trichotomy (a b : Position) :
  ((Position_before a b = true /\ Position_eq a b = false /\ Position_after a b = false) \/
   (Position_before a b = false /\ Position_eq a b = true /\ Position_after a b = false) \/
   (Position_before a b = false /\ Position_eq a b = false /\ Position_after a b = true)) /\
  Position_before a b = Position_after b a /\
  (Position_eq a b = true <-> a = b).
Proof.
  split; [|split].
  - rewrite after_spec.
    destruct (Position_before a b) eqn:Hab, (Position_eq a b) eqn:He,
      (Position_before b a) eqn:Hba; auto 10; order.
  - rewrite after_spec. reflexivity.
  - split.
    + intros H. apply eq_spec in H. unfold pos_lt in H.
      destruct a, b. cbn [line character] in *. f_equal; lia.
    + intros ->. apply eq_spec. unfold pos_lt. lia.
Qed.

(** A range whose end is not before its start. *)
Definition ordered (r : Range) : Prop := Position_before (end_ r) (start r) = false.

(** X2: [Range.union(a, b)] always ends where [b] ends.  For ordered
    ranges it contains [b], and it contains [a] exactly when [a] does
    not end after [b]. *)
Theorem union_contains (a b : Range) :
  ordered a -> ordered b ->
  end_ (Range_union a b) = end_ b /\
  Range_contains (Range_union a b) b = true /\
  Range_contains (Range_union a b) a = negb (Position_before (end_ b) (end_ a)).
Proof.
  unfold ordered. intros Ha Hb.
  assert (He : end_ (Range_union a b) = end_ b).
  { unfold Range_union. cbn [end_].
    destruct (Position_before (end_ a) (end_ b)); reflexivity. }
  unfold Range_contains, Range_contains_pos. rewrite He.
  split; [reflexivity|].
  unfold Range_union. cbn [start].
  destruct (Position_before (start a) (start b)) eqn:Hs.
  - split.
    + destruct (Position_before (start b) (start a)) eqn:H1,
        (Position_before (end_ b) (start b)) eqn:H2,
        (Position_before (end_ b) (start a)) eqn:H3,
        (Position_before (end_ b) (end_ b)) eqn:H4; order.
    + destruct (Position_before (start a) (start a)) eqn:H1,
        (Position_before (end_ b) (start a)) eqn:H2,
        (Position_before (end_ a) (start a)) eqn:H3,
        (Position_before (end_ b) (end_ a)) eqn:H4; order.
  - split.
    + destruct (Position_before (start b) (start b)) eqn:H1,
        (Position_before (end_ b) (start b)) eqn:H2,
        (Position_before (end_ b) (end_ b)) eqn:H4; order.
    + destruct (Position_before (start a) (start b)) eqn:H1,
        (Position_before (end_ b) (start a)) eqn:H2,
        (Position_before (end_ a) (start b)) eqn:H3,
        (Position_before (end_ b) (end_ a)) eqn:H4; order.
Qed.

Lemma union_contains_witness :
  Range_contains
    (Range_union (mk_Range (mk_Position 0 0) (mk_Position 9 0))
                 (mk_Range (mk_Position 2 0) (mk_Position 3 0)))
    (mk_Range (mk_Position 0 0) (mk_Position 9 0)) = false.
Proof.
  destruct (union_contains (mk_Range (mk_Position 0 0) (mk_Position 9 0))
              (mk_Range (mk_Position 2 0) (mk_Position 3 0)))
    as (_ & _ & H); [reflexivity | reflexivity |].
  rewrite H. reflexivity.
Defined.

(** X3: printing a diagnostic of severity HINT raises [IndexError],
    whatever its message and range: [severity_str] indexes a list of
    four labels with the severity, which starts at 1; a WARNING is
    labelled Information and an INFORMATION is labelled Hint. *)
Theorem hint_cannot_be_printed (d : Diagnostic) :
  (severity d = HINT -> Diagnostic_str d = Raise IndexError) /\
  (severity d = WARNING ->
     Diagnostic_str d
     = Ret (Range_repr (range d) +:+ ": Information: " +:+ message d)) /\
  (severity d = INFORMATION ->
     Diagnostic_str d = Ret (Range_repr (range d) +:+ ": Hint: " +:+ message d)) /\
  (severity d = ERROR ->
     Diagnostic_str d = Ret (Range_repr (range d) +:+ ": Error: " +:+ message d)).
Proof.
  unfold Diagnostic_str, severity_str.
  repeat split; intros ->; reflexivity.
Qed.

Lemma hint_cannot_be_printed_witness :
  Diagnostic_str (Diagnostic_hint "Value is 7 by default" (Position_range Position_start))
  = Raise IndexError.
Proof.
  apply (hint_cannot_be_printed
           (Diagnostic_hint "Value is 7 by default" (Position_range Position_start))).
  reflexivity.
Defined.

End MoreLspFacts.

(* ===================================================================== *)
(** * Reading and editing a text document *)
(* ===================================================================== *)

Module DocFacts.
Import Py Lsp Rpc LspMore PyFacts LspFacts.

(** ** Slices of texts *)

Lemma append_nil_r (s : string) : s +:+ "" = s.
Proof. induction s as [|c s IH]; [reflexivity|]. rewrite append_cons, IH. reflexivity. Qed.

Lemma length_drop (s : string) (n : nat) :
  String.length (str_drop n s) = (String.length s - n)%nat.
Proof.
  revert n. induction s as [|c s IH]; intros [|n]; simpl; try reflexivity. apply IH.
Qed.

Lemma take_all (s : string) (n : nat) :
  (String.length s <= n)%nat -> str_take n s = s.
Proof.
  revert n. induction s as [|c s IH]; intros [|n] H; simpl in *; try reflexivity; try lia.
  rewrite IH by lia. reflexivity.
Qed.

Lemma drop_all (s : string) (n : nat) :
  (String.length s <= n)%nat -> str_drop n s = "".
Proof.
  revert n. induction s as [|c s IH]; intros [|n] H; simpl in *; try reflexivity; try lia.
  apply IH. lia.
Qed.

Lemma drop_append (a b : string) (n : nat) :
  str_drop (String.length a + n) (a +:+ b) = str_drop n b.
Proof. induction a as [|x a IH]; [reflexivity|]. rewrite append_cons. simpl. exact IH. Qed.

Lemma drop_within (a b : string) (n : nat) :
  (n <= String.length a)%nat -> str_drop n (a +:+ b) = str_drop n a +:+ b.
Proof.
  revert n. induction a as [|x a IH]; intros [|n] H; simpl in *;
    try reflexivity; try lia.
  rewrite ?append_cons. simpl. apply IH. lia.
Qed.

Lemma take_drop_id (s : string) (n : nat) : str_take n s +:+ str_drop n s = s.
Proof.
  revert n. induction s as [|c s IH]; intros [|n]; simpl; try reflexivity.
  rewrite ?append_cons, IH. reflexivity.
Qed.

Lemma clean_drop (a : string) (n : nat) : clean a -> clean (str_drop n a).
Proof.
  unfold clean. revert n. induction a as [|x a IH]; intros [|n]; simpl; auto.
  intros [_ Ha]%andb_prop. apply IH, Ha.
Qed.

Lemma clean_append (a b : string) : clean a -> clean b -> clean (a +:+ b).
Proof.
  unfold clean. induction a as [|x a IH]; intros Ha Hb; [exact Hb|].
  rewrite append_cons. simpl in *. apply andb_prop in Ha as [Hx Ha].
  rewrite Hx, (IH Ha Hb). reflexivity.
Qed.

Lemma last_char_snoc (s : string) (c : ascii) :
  last_char (s +:+ String c "") = Some c.
Proof.
  induction s as [|x s IH]; [reflexivity|].
  rewrite append_cons. simpl. rewrite IH.
  destruct (s +:+ String c "") eqn:E; [|reflexivity].
  destruct s; discriminate.
Qed.

Lemma clean_no_newline_end (s : string) : clean s -> endswith_newline s = false.
Proof.
  unfold clean, endswith_newline. induction s as [|x s IH]; intros H; [reflexivity|].
  simpl in H. apply andb_prop in H as [Hx Hs]. simpl.
  destruct s as [|y s].
  - destruct (Ascii.eqb_spec x LF) as [-> |]; [discriminate|reflexivity].
  - apply IH, Hs.
Qed.

Lemma upto_minus_one (s : string) (c : ascii) :
  str_upto (s +:+ String c "") (-1) = s.
Proof.
  unfold str_upto, len. change (-1 <? 0) with true. cbv iota.
  rewrite length_append. simpl String.length.
  replace (Z.to_nat (Z.of_nat (String.length s + 1) + -1)) with (String.length s + 0)%nat
    by lia.
  rewrite take_append. simpl. apply append_nil_r.
Qed.

Lemma splitlines_not_nil (s : string) : s <> "" -> splitlines s <> [].
Proof.
  destruct s as [|c s]; [congruence|]. intros _. simpl.
  destruct (is_linebreak c); [congruence|].
  destruct (splitlines s); congruence.
Qed.

(** A newline ends a line whatever follows it. *)
Lemma splitlines_break (y z : string) :
  splitlines (y +:+ NEWLINE +:+ z) = (splitlines (y +:+ NEWLINE) ++ splitlines z)%list.
Proof.
  assert (H : forall n y, (String.length y <= n)%nat ->
            splitlines (y +:+ NEWLINE +:+ z)
            = (splitlines (y +:+ NEWLINE) ++ splitlines z)%list).
  { clear y. induction n as [|n IH]; intros y Hn.
    - destruct y; simpl in Hn; [|lia].
      change ("" +:+ NEWLINE +:+ z) with (String LF z).
      change ("" +:+ NEWLINE) with (String LF "").
      simpl. destruct z; reflexivity.
    - destruct y as [|c y].
      { change ("" +:+ NEWLINE +:+ z) with (String LF z).
        change ("" +:+ NEWLINE) with (String LF "").
        simpl. destruct z; reflexivity. }
      simpl in Hn. rewrite !append_cons.
      cbn [splitlines]. destruct (is_linebreak c) eqn:Hc.
      + destruct y as [|c' y].
        * change ("" +:+ NEWLINE +:+ z) with (String LF z).
          change ("" +:+ NEWLINE) with (String LF "").
          destruct (Ascii.eqb_spec c CR) as [-> | Hne]; cbn [andb].
          -- change (Ascii.eqb LF LF) with true. cbv iota. reflexivity.
          -- change (splitlines (String LF "")) with [""].
             change (splitlines (String LF z)) with
               ("" :: match z with
                      | String c' s'' =>
                          if (Ascii.eqb LF CR && Ascii.eqb c' LF)%bool
                          then splitlines s'' else splitlines z
                      | EmptyString => splitlines z
                      end).
             change (Ascii.eqb LF CR) with false. cbn [andb].
             destruct z; reflexivity.
        * rewrite !append_cons.
          destruct (Ascii.eqb c CR && Ascii.eqb c' LF)%bool.
          -- rewrite (IH y) by (simpl in Hn; lia). reflexivity.
          -- rewrite <- !append_cons. rewrite (IH (String c' y)) by lia. reflexivity.
      + rewrite (IH y) by lia.
        pose proof (splitlines_not_nil (y +:+ NEWLINE)) as Hnn.
        destruct (splitlines (y +:+ NEWLINE)) as [|l ls].
        * exfalso. apply Hnn; [|reflexivity]. destruct y; discriminate.
        * reflexivity. }
  apply (H (String.length y)). lia.
Qed.

Lemma splitlines_lines (ls : list string) : Forall clean ls -> splitlines (flat ls) = ls.
Proof.
  intros H. rewrite <- (append_nil_r (flat ls)), splitlines_flat by exact H.
  simpl. apply app_nil_r.
Qed.

(** ** The text around a line *)

Lemma offset_in_line (d : TextDocument) (k : nat) (l : string) (ch : Z) :
  lines d !! k = Some l ->
  offset d (mk_Position (Z.of_nat k) ch)
  = Ret (len (flat (take k (lines d))) + Z.min (len l + 1) ch).
Proof.
  intros Hk. pose proof (lookup_lt_Some _ _ _ Hk) as Hlt.
  unfold offset. cbn [line character].
  destruct (Z.geb_spec (Z.of_nat k) (Z.of_nat (length (lines d)))); [lia|].
  unfold getitem.
  destruct (Z.ltb_spec (Z.of_nat k) 0); [lia|].
  destruct (Z.leb_spec 0 (Z.of_nat k)); [|lia].
  destruct (Z.ltb_spec (Z.of_nat k) (Z.of_nat (length (lines d)))); [|lia].
  cbn [andb]. rewrite Nat2Z.id, Hk. cbn [rbind].
  unfold list_upto. destruct (Z.ltb_spec (Z.of_nat k) 0); [lia|].
  rewrite Nat2Z.id. reflexivity.
Qed.

Lemma text_split (d : TextDocument) (k : nat) (l : string) :
  lines d !! k = Some l ->
  text d = flat (take k (lines d)) +:+ (l +:+ NEWLINE) +:+ flat (drop (S k) (lines d)).
Proof.
  intros Hk. pose proof (lookup_lt_Some _ _ _ Hk) as Hlt.
  rewrite text_flat by (intros E; rewrite E in Hlt; simpl in Hlt; lia).
  rewrite <- (take_drop_middle (lines d) k l Hk) at 1.
  rewrite flat_app, flat_cons, !append_assoc. reflexivity.
Qed.

Lemma clip_inside (n : Z) (i : nat) : Z.of_nat i <= n -> clip n (Z.of_nat i) = i.
Proof.
  intros H. unfold clip. destruct (Z.ltb_spec (Z.of_nat i) 0); lia.
Qed.

Lemma len_text_split (d : TextDocument) (k : nat) (l : string) :
  lines d !! k = Some l ->
  String.length (text d)
  = (String.length (flat (take k (lines d))) + (String.length l + 1)
     + String.length (flat (drop (S k) (lines d))))%nat.
Proof.
  intros Hk. rewrite (text_split d k l Hk), !length_append. simpl. lia.
Qed.

(** [text[:offset]] for an offset on line [k]. *)
Lemma upto_in_line (d : TextDocument) (k a : nat) (l : string) :
  lines d !! k = Some l ->
  (a <= String.length l + 1)%nat ->
  str_upto (text d) (len (flat (take k (lines d))) + Z.of_nat a)
  = flat (take k (lines d)) +:+ str_take a (l +:+ NEWLINE).
Proof.
  intros Hk Ha. unfold str_upto, len.
  destruct (Z.ltb_spec (Z.of_nat (String.length (flat (take k (lines d)))) + Z.of_nat a) 0);
    [lia|].
  rewrite <- Nat2Z.inj_add, Nat2Z.id, (text_split d k l Hk), take_append.
  rewrite take_within by (rewrite length_append; simpl; lia). reflexivity.
Qed.

(** [text[offset:]] for an offset on line [k]. *)
Lemma from_in_line (d : TextDocument) (k b : nat) (l : string) :
  lines d !! k = Some l ->
  (b <= String.length l + 1)%nat ->
  str_from (text d) (len (flat (take k (lines d))) + Z.of_nat b)
  = str_drop b (l +:+ NEWLINE) +:+ flat (drop (S k) (lines d)).
Proof.
  intros Hk Hb. unfold str_from, len.
  rewrite <- Nat2Z.inj_add, clip_inside
    by (rewrite (len_text_split d k l Hk); lia).
  rewrite (text_split d k l Hk), drop_append.
  rewrite drop_within by (rewrite length_append; simpl; lia). reflexivity.
Qed.

(** [text[a:b]] for two offsets on line [k]. *)
Lemma slice_in_line (d : TextDocument) (k a b : nat) (l : string) :
  lines d !! k = Some l ->
  (a <= String.length l + 1)%nat ->
  (b <= String.length l + 1)%nat ->
  str_slice (text d) (len (flat (take k (lines d))) + Z.of_nat a)
                     (len (flat (take k (lines d))) + Z.of_nat b)
  = str_take (b - a) (str_drop a (l +:+ NEWLINE)).
Proof.
  intros Hk Ha Hb. unfold str_slice, len.
  rewrite <- !Nat2Z.inj_add, !clip_inside
    by (rewrite (len_text_split d k l Hk); lia).
  rewrite (text_split d k l Hk), drop_append.
  rewrite drop_within by (rewrite length_append; simpl; lia).
  replace (String.length (flat (take k (lines d))) + b
           - (String.length (flat (take k (lines d))) + a))%nat with (b - a)%nat by lia.
  apply take_within. rewrite length_drop, length_append. simpl. lia.
Qed.

(** The slice [get] takes out of one line, after the trailing newline
    is trimmed: Python's [l[a:b]]. *)
Lemma trimmed_slice (l : string) (a b : nat) :
  clean l ->
  let a' := Nat.min (String.length l + 1) a in
  let b' := Nat.min (String.length l + 1) b in
  let t := str_take (b' - a') (str_drop a' (l +:+ NEWLINE)) in
  (if endswith_newline t && negb (Z.of_nat b =? 0) then str_upto t (-1) else t)
  = str_take (b - a) (str_drop a l).
Proof.
  intros Hl a' b' t. subst a' b' t.
  destruct (le_lt_dec b (String.length l)) as [Hb | Hb].
  - (* the end lies on the line *)
    replace (Nat.min (String.length l + 1) b) with b by lia.
    destruct (le_lt_dec a b) as [Hab | Hab].
    + replace (Nat.min (String.length l + 1) a) with a by lia.
      rewrite drop_within by lia.
      rewrite take_within by (rewrite length_drop; lia).
      rewrite clean_no_newline_end by (apply clean_take, clean_drop, Hl).
      reflexivity.
    + replace (b - Nat.min (String.length l + 1) a)%nat with 0%nat by lia.
      replace (b - a)%nat with 0%nat by lia.
      destruct (str_drop _ _), (str_drop _ _); reflexivity.
  - (* the end lies behind the line *)
    replace (Nat.min (String.length l + 1) b) with (String.length l + 1)%nat by lia.
    destruct (le_lt_dec a (String.length l)) as [Ha | Ha].
    + replace (Nat.min (String.length l + 1) a) with a by lia.
      rewrite drop_within by lia.
      rewrite (take_all (str_drop a l +:+ NEWLINE))
        by (rewrite length_append, length_drop; simpl; lia).
      unfold endswith_newline, NEWLINE. rewrite last_char_snoc.
      change (Ascii.eqb LF LF) with true.
      destruct (Z.eqb_spec (Z.of_nat b) 0); [lia|]. cbn [andb negb].
      rewrite upto_minus_one.
      symmetry. apply take_all. rewrite length_drop. lia.
    + replace (Nat.min (String.length l + 1) a) with (String.length l + 1)%nat by lia.
      rewrite Nat.sub_diag.
      rewrite (drop_all l a) by lia.
      destruct (str_drop _ _), (b - a)%nat; reflexivity.
Qed.

(** ** Reading *)

(** X4: the text of a document is a fixed point of the line buffer:
    storing [text] back with [_set_text] gives the same text again, and
    the same lines unless there were none, in which case the buffer
    gets one empty line. *)
Theorem text_round_trip (d : TextDocument) :
  Forall clean (lines d) ->
  lines (_set_text (text d) d)
  = match lines d with [] => [""] | _ => lines d end /\
  text (_set_text (text d) d) = text d.
Proof.
  intros Hclean.
  assert (Hl : lines (_set_text (text d) d)
               = match lines d with [] => [""] | _ => lines d end).
  { unfold _set_text. cbn [lines]. destruct (lines d) as [|l ls] eqn:E.
    { unfold text. rewrite E. reflexivity. }
    rewrite text_flat by congruence. rewrite E.
    apply splitlines_lines. exact Hclean. }
  split; [exact Hl|].
  unfold text at 1. rewrite Hl. unfold text.
  destruct (lines d); reflexivity.
Qed.

Lemma text_round_trip_witness :
  lines (_set_text (text two_lines) two_lines) = ["ab"; "cd"].
Proof.
  destruct (text_round_trip two_lines) as [H _]; [apply new_document_clean|].
  exact H.
Defined.

(** [get] on a range within one line. *)
Lemma doc_get_slice (d : TextDocument) (k a b : nat) (l : string) :
  Forall clean (lines d) ->
  lines d !! k = Some l ->
  doc_get d (Some (mk_Range (mk_Position (Z.of_nat k) (Z.of_nat a))
                            (mk_Position (Z.of_nat k) (Z.of_nat b))))
  = Ret (str_take (b - a) (str_drop a l)).
Proof.
  intros Hclean Hk. pose proof (lookup_lt_Some _ _ _ Hk) as Hlt.
  assert (Hl : clean l).
  { eapply Forall_forall in Hclean; [exact Hclean|].
    apply list_elem_of_In, list_elem_of_lookup. eauto. }
  unfold doc_get. cbn [start end_ line character].
  rewrite !(offset_in_line d k l _ Hk). cbn [rbind].
  replace (Z.min (len l + 1) (Z.of_nat a))
    with (Z.of_nat (Nat.min (String.length l + 1) a)) by (unfold len; lia).
  replace (Z.min (len l + 1) (Z.of_nat b))
    with (Z.of_nat (Nat.min (String.length l + 1) b)) by (unfold len; lia).
  rewrite (slice_in_line d k _ _ l Hk) by lia.
  destruct (Z.ltb_spec (Z.of_nat k) (Z.of_nat (length (lines d)))); [|lia].
  rewrite andb_true_r.
  pose proof (trimmed_slice l a b Hl) as Ht. cbv zeta in Ht.
  destruct (endswith_newline _ && negb (Z.of_nat b =? 0)); rewrite Ht; reflexivity.
Qed.

(** X5: [get] on a range within one line [l] of the buffer returns the
    slice [l[a:b]], for any two columns [a] and [b]: columns behind the
    end of the line are clipped, the newline of the line is not
    returned, and a range that ends before it starts gives the empty
    text. *)
Theorem get_within_line (d : TextDocument) (k a b : nat) (l : string) :
  Forall clean (lines d) ->
  lines d !! k = Some l ->
  doc_get d (Some (mk_Range (mk_Position (Z.of_nat k) (Z.of_nat a))
                            (mk_Position (Z.of_nat k) (Z.of_nat b))))
  = Ret (str_take (b - a) (str_drop a l)).
Proof. apply doc_get_slice. Qed.

Lemma get_within_line_witness :
  doc_get two_lines (Some (mk_Range (mk_Position 1 0) (mk_Position 1 9))) = Ret "cd".
Proof.
  apply (get_within_line two_lines 1 0 9 "cd");
    [apply new_document_clean | reflexivity].
Defined.

(** ** Editing *)

(** X6: [replace] with a range from column [a] of line [k1] to column
    [b] of line [k2], both columns on their lines, keeps the lines
    before [k1] and after [k2], and puts between them the lines of
    [l1[:a] + text + l2[b:]]: one line when [text] holds no line
    boundary.  The buffer is marked modified; its version and identifier
    stay. *)
Theorem replace_splices (d : TextDocument) (t : string)
    (k1 a k2 b : nat) (l1 l2 : string) :
  Forall clean (lines d) ->
  lines d !! k1 = Some l1 ->
  lines d !! k2 = Some l2 ->
  (a <= String.length l1)%nat ->
  (b <= String.length l2)%nat ->
  let mid := str_take a l1 +:+ t +:+ str_drop b l2 in
  exists d',
    doc_replace t (Some (mk_Range (mk_Position (Z.of_nat k1) (Z.of_nat a))
                                  (mk_Position (Z.of_nat k2) (Z.of_nat b)))) d
    = Ret d' /\
    lines d' = (take k1 (lines d) ++ splitlines (mid +:+ NEWLINE)
                  ++ drop (S k2) (lines d))%list /\
    (clean t ->
     lines d' = (take k1 (lines d) ++ mid :: drop (S k2) (lines d))%list) /\
    modified d' = true /\
    doc_version d' = doc_version d /\
    doc_uri d' = doc_uri d.
Proof.
  intros Hclean Hk1 Hk2 Ha Hb mid.
  pose proof (lookup_lt_Some _ _ _ Hk1) as Hlt.
  assert (Hl1 : clean l1).
  { eapply Forall_forall in Hclean; [exact Hclean|].
    apply list_elem_of_In, list_elem_of_lookup. eauto. }
  assert (Hl2 : clean l2).
  { eapply Forall_forall in Hclean; [exact Hclean|].
    apply list_elem_of_In, list_elem_of_lookup. eauto. }
  assert (Hnew :
            str_upto (text d) (len (flat (take k1 (lines d))) + Z.min (len l1 + 1) (Z.of_nat a))
            +:+ t
            +:+ str_from (text d)
                  (len (flat (take k2 (lines d))) + Z.min (len l2 + 1) (Z.of_nat b))
            = flat (take k1 (lines d)) +:+ mid +:+ NEWLINE
              +:+ flat (drop (S k2) (lines d))).
  { replace (Z.min (len l1 + 1) (Z.of_nat a)) with (Z.of_nat a) by (unfold len; lia).
    replace (Z.min (len l2 + 1) (Z.of_nat b)) with (Z.of_nat b) by (unfold len; lia).
    rewrite (upto_in_line d k1 a l1 Hk1) by lia.
    rewrite (from_in_line d k2 b l2 Hk2) by lia.
    rewrite take_within by lia. rewrite drop_within by lia.
    subst mid. rewrite !append_assoc. reflexivity. }
  assert (Hlines :
            splitlines (flat (take k1 (lines d)) +:+ mid +:+ NEWLINE
                        +:+ flat (drop (S k2) (lines d)))
            = (take k1 (lines d) ++ splitlines (mid +:+ NEWLINE)
                 ++ drop (S k2) (lines d))%list).
  { rewrite splitlines_flat by (apply Forall_take, Hclean).
    rewrite splitlines_break, splitlines_lines by (apply Forall_drop, Hclean).
    reflexivity. }
  eexists. split.
  - unfold doc_replace.
    destruct (Z.ltb_spec 0 (Z.of_nat (length (lines d)))); [|lia].
    cbn [start end_]. rewrite (offset_in_line d k1 l1 _ Hk1), (offset_in_line d k2 l2 _ Hk2).
    cbn [rbind]. rewrite Hnew. reflexivity.
  - unfold set_modified, _set_text. cbn [lines modified doc_version doc_uri].
    repeat split; try exact Hlines.
    intros Ht. rewrite Hlines. f_equal.
    rewrite <- (append_nil_r (mid +:+ NEWLINE)), append_assoc.
    rewrite splitlines_line; [reflexivity|].
    subst mid. auto using clean_append, clean_take, clean_drop.
Qed.

Lemma replace_splices_witness :
  exists d',
    doc_replace "X" (Some (mk_Range (mk_Position 0 1) (mk_Position 1 1))) two_lines
    = Ret d' /\
    lines d' = ["aXd"].
Proof.
  destruct (replace_splices two_lines "X" 0 1 1 1 "ab" "cd")
    as (d' & Hr & _ & Hl & _);
    [apply new_document_clean | reflexivity | reflexivity | simpl; lia | simpl; lia |].
  exists d'. split; [exact Hr|]. rewrite Hl; reflexivity.
Defined.

End DocFacts.

(* ===================================================================== *)
(** * The document store *)
(* ===================================================================== *)

Module StoreFacts.
Import Py Lsp Rpc LspMore PyFacts LspFacts.

(** X7: a buffer given to [open] is what [get] returns for its
    identifier afterwards, whatever the disk holds and whatever
    [create] is, when no backend is registered for the scheme. *)
Theorem open_then_get (fs : FileSystem) (d : TextDocument) (create : bool)
    (st : DocumentStore) :
  _providers st !! scheme (doc_uri d) = None ->
  DocumentStore_get fs (doc_uri d) create (fst (DocumentStore_open d st))
  = (fst (DocumentStore_open d st), Ret (Some d)).
Proof.
  intros Hp. unfold DocumentStore_get, DocumentStore_open, mmodify.
  cbn [fst _providers docs]. rewrite Hp, lookup_insert_eq. reflexivity.
Qed.

Lemma open_then_get_witness :
  DocumentStore_get ∅ (doc_uri two_lines) false
    (fst (DocumentStore_open two_lines empty_store))
  = (fst (DocumentStore_open two_lines empty_store), Ret (Some two_lines)).
Proof. apply (open_then_get ∅ two_lines false empty_store). reflexivity. Defined.

(** What [get] leaves alone. *)
Lemma get_leaves (fs : FileSystem) (u : Uri) (create : bool) (st : DocumentStore) :
  _providers (fst (DocumentStore_get fs u create st)) = _providers st /\
  (forall k, k <> Uri_str u ->
     docs (fst (DocumentStore_get fs u create st)) !! k = docs st !! k) /\
  (create = false -> fst (DocumentStore_get fs u create st) = st).
Proof.
  unfold DocumentStore_get, _from_disk, mbind, mmodify, mret, mraise.
  destruct (_providers st !! scheme u) as [p|]; [cbn; eauto 10|].
  destruct (docs st !! Uri_str u) as [d|]; [cbn; eauto 10|].
  destruct create; [|cbn; eauto 10].
  destruct (fs !! path u) as [content|]; cbn [fst snd is_EnvironmentError docs _providers].
  - repeat split; eauto; try discriminate.
    intros k Hk. apply lookup_insert_ne. congruence.
  - repeat split; eauto; discriminate.
Qed.

(** X8: [get] never touches the backends nor the buffer stored under
    another identifier, whatever comes of reading the disk; with
    [create] false it does not read the disk: it leaves the store as
    it is and, when no backend is registered for the scheme, returns
    the buffer stored for the identifier, or [None], without
    raising. *)
Theorem get_frame (fs : FileSystem) (u : Uri) (create : bool) (st : DocumentStore) :
  _providers (fst (DocumentStore_get fs u create st)) = _providers st /\
  (forall k, k <> Uri_str u ->
     docs (fst (DocumentStore_get fs u create st)) !! k = docs st !! k) /\
  (create = false ->
   fst (DocumentStore_get fs u create st) = st /\
   (_providers st !! scheme u = None ->
    DocumentStore_get fs u create st = (st, Ret (docs st !! Uri_str u)))).
Proof.
  destruct (get_leaves fs u create st) as (Hp & Hd & Hst).
  split; [exact Hp|]. split; [exact Hd|].
  intros ->. split; [apply Hst; reflexivity|].
  intros Hnone. unfold DocumentStore_get. rewrite Hnone.
  destruct (docs st !! Uri_str u); reflexivity.
Qed.

Lemma get_frame_witness :
  DocumentStore_get conf_disk (Uri_file "/prj.conf") false empty_store
  = (empty_store, Ret None).
Proof.
  destruct (get_frame conf_disk (Uri_file "/prj.conf") false empty_store)
    as (_ & _ & H).
  destruct (H eq_refl) as [_ H']. apply H'. reflexivity.
Defined.

(** X9: once [get] has returned a buffer for an identifier without
    backend, every later [get] for it returns that same buffer and
    leaves the store alone, whatever the disk holds by then. *)
Theorem get_stable (fs fs' : FileSystem) (u : Uri) (create create' : bool)
    (st st1 : DocumentStore) (d : TextDocument) :
  _providers st !! scheme u = None ->
  DocumentStore_get fs u create st = (st1, Ret (Some d)) ->
  DocumentStore_get fs' u create' st1 = (st1, Ret (Some d)).
Proof.
  intros Hp. unfold DocumentStore_get at 1. rewrite Hp.
  destruct (docs st !! Uri_str u) as [d0|] eqn:Hd.
  - intros [= <- <-]. unfold DocumentStore_get. rewrite Hp, Hd. reflexivity.
  - destruct create; [|discriminate].
    unfold _from_disk, mbind, mmodify, mret, mraise.
    destruct (fs !! path u) as [content|]; cbn [is_EnvironmentError]; [|discriminate].
    intros [= <- <-]. unfold DocumentStore_get.
    cbn [_providers docs]. rewrite Hp, lookup_insert_eq. reflexivity.
Qed.

Lemma get_stable_witness :
  DocumentStore_get ∅ (Uri_file "/prj.conf") false
    (fst (DocumentStore_get conf_disk (Uri_file "/prj.conf") true empty_store))
  = (fst (DocumentStore_get conf_disk (Uri_file "/prj.conf") true empty_store),
     Ret (Some (TextDocument_new (Uri_file "/prj.conf") (Some "CONFIG_A=y") None None))).
Proof.
  apply (get_stable conf_disk ∅ (Uri_file "/prj.conf") true false empty_store);
    reflexivity.
Defined.

(** X10: [create] returns what [get] returns when that is a buffer;
    but for a file that cannot be read, where [get] returns [None],
    [create] raises the error of the second, unguarded attempt to
    read it, and stores nothing. *)
Theorem create_missing_raises (fs : FileSystem) (u : Uri) (st : DocumentStore) :
  (forall st' d, DocumentStore_get fs u true st = (st', Ret (Some d)) ->
     DocumentStore_create fs u st = (st', Ret (Some d))) /\
  (_providers st !! scheme u = None ->
   docs st !! Uri_str u = None ->
   fs !! path u = None ->
   DocumentStore_get fs u true st = (st, Ret None) /\
   exists msg, DocumentStore_create fs u st = (st, Raise (OSError msg))).
Proof.
  split.
  - intros st' d H. unfold DocumentStore_create, mbind. rewrite H. reflexivity.
  - intros Hp Hd Hfs.
    assert (Hget : DocumentStore_get fs u true st = (st, Ret None)).
    { unfold DocumentStore_get, _from_disk, mraise. rewrite Hp, Hd, Hfs. reflexivity. }
    split; [exact Hget|].
    unfold DocumentStore_create, mbind. rewrite Hget.
    unfold _from_disk, mraise. rewrite Hfs. eauto.
Qed.

Lemma create_missing_raises_witness :
  exists msg,
    DocumentStore_create conf_disk (Uri_file "/other.conf") empty_store
    = (empty_store, Raise (OSError msg)).
Proof.
  destruct (create_missing_raises conf_disk (Uri_file "/other.conf") empty_store)
    as [_ H].
  destruct H as [_ H]; [reflexivity | reflexivity | reflexivity |].
  exact H.
Defined.

(** ** Backends *)

(** The calls a store offers, with the backend class the module
    defines. *)
Inductive StoreCall : Type :=
  | CallOpen (d : TextDocument)
  | CallClose (u : Uri)
  | CallProvider (sch : string)
  | CallGet (u : Uri) (create : bool)
  | CallCreate (u : Uri).

Definition call (fs : FileSystem) (c : StoreCall) (st : DocumentStore) : DocumentStore :=
  match c with
  | CallOpen d => fst (DocumentStore_open d st)
  | CallClose u => fst (DocumentStore_close u st)
  | CallProvider sch => fst (DocumentStore_provider (DocProvider_new sch) st)
  | CallGet u create => fst (DocumentStore_get fs u create st)
  | CallCreate u => fst (DocumentStore_create fs u st)
  end.

Lemma call_providers (fs : FileSystem) (c : StoreCall) (st : DocumentStore) :
  _providers (call fs c st) = _providers st.
Proof.
  destruct c as [d|u|sch|u create|u]; try reflexivity.
  - apply (get_leaves fs u create st).
  - unfold call, DocumentStore_create, mbind.
    pose proof (get_leaves fs u true st) as (Hp & _).
    destruct (DocumentStore_get fs u true st) as [st' [[d|]|e]]; cbn [fst] in *;
      try exact Hp.
    unfold _from_disk, mbind, mmodify, mret, mraise.
    destruct (fs !! path u); cbn [fst _providers]; exact Hp.
Qed.

(** X11: registering a [DocProvider] always raises [AttributeError]
    and registers nothing: [provider()] reads [provider.uri], which
    the class does not set.  So a store that starts without backends
    has none after any sequence of calls, and its [get] returns the
    buffer stored for an identifier whenever there is one. *)
Theorem no_backend_registers (fs : FileSystem) (calls : list StoreCall)
    (st : DocumentStore) :
  (forall sch, exists msg,
     DocumentStore_provider (DocProvider_new sch) st = (st, Raise (AttributeError msg))) /\
  (_providers st = ∅ ->
   _providers (foldl (fun st c => call fs c st) st calls) = ∅ /\
   forall u create d,
     docs (foldl (fun st c => call fs c st) st calls) !! Uri_str u = Some d ->
     DocumentStore_get fs u create (foldl (fun st c => call fs c st) st calls)
     = (foldl (fun st c => call fs c st) st calls, Ret (Some d))).
Proof.
  split.
  - intros sch. unfold DocumentStore_provider, DocProvider_new, mraise.
    cbn [provider_uri]. eauto.
  - intros Hp.
    assert (H : _providers (foldl (fun st c => call fs c st) st calls) = ∅).
    { revert st Hp. induction calls as [|c calls IH]; intros st Hp; [exact Hp|].
      cbn [foldl]. apply IH. rewrite call_providers. exact Hp. }
    split; [exact H|].
    intros u create d Hd. unfold DocumentStore_get.
    rewrite H, lookup_empty, Hd. reflexivity.
Qed.

Lemma no_backend_registers_witness :
  _providers (foldl (fun st c => call conf_disk c st) empty_store
                [CallProvider "virt"; CallOpen virt_doc; CallGet virt_uri true]) = ∅.
Proof.
  destruct (no_backend_registers conf_disk
              [CallProvider "virt"; CallOpen virt_doc; CallGet virt_uri true]
              empty_store) as [_ H].
  destruct H as [H _]; [reflexivity|]. exact H.
Defined.

End StoreFacts.

(* ===================================================================== *)
(** * The dispatcher *)
(* ===================================================================== *)

Module RpcFacts.
Import Py Lsp Rpc LspMore.

Section Server.

Variable X : Type.
Variable P : Type.
Variable none : P.
Variable encode_json : P -> result unit.

(** The server after one response is written and the pending request
    dropped. *)
Definition reply (id : value) (result : P) (error : option exn) (s : RPCServer X P)
  : RPCServer X P :=
  mk_RPCServer None (running s) (trace s)
    (sent s ++ [SentResponse id result error])%list (ext s).

Lemma rsp_sends (r : RPCRequest) (result : P) (error : option exn) (s : RPCServer X P) :
  _req s = Some r ->
  trace s = "off" ->
  encode_json result = Ret tt ->
  rsp X P encode_json result error s = (reply (req_id r) result error s, Ret tt).
Proof.
  destruct s as [rq run tr snt x]. cbn [_req trace]. intros -> -> Henc.
  unfold rsp, mbind, mget, _send, mlift, dbg, mmodify, reply.
  cbn [_req trace running sent ext]. rewrite Henc.
  change (String.eqb "off" "off") with true. reflexivity.
Qed.

Lemma dbg_off (s : RPCServer X P) : trace s = "off" -> dbg X P s = (s, Ret tt).
Proof. intros H. unfold dbg. rewrite H. reflexivity. Qed.

(** X12: a request of a method without handler is answered with
    exactly one response, carrying the identifier of the request and
    the error code METHOD_NOT_FOUND, and the request is no longer
    pending; a notification of such a method changes nothing. *)
Theorem unknown_method_reply (hs : gmap string (Handler X P)) (r : RPCRequest)
    (method : string) (params : Params) (s : RPCServer X P) :
  trace s = "off" ->
  encode_json none = Ret tt ->
  (hs !! req_method r = None ->
   exists msg,
     handle none encode_json hs (MsgRequest r) (received (MsgRequest r) s)
     = (reply (req_id r) none (Some (RPCError METHOD_NOT_FOUND msg)) s, Ret tt)) /\
  (hs !! method = None ->
   _req s = None ->
   handle none encode_json hs (MsgNotification method params)
     (received (MsgNotification method params) s)
   = (s, Ret tt)).
Proof.
  intros Htr Henc. split.
  - intros Hh. eexists. unfold handle, dispatch.
    match goal with
    | |- context [@lookup ?a ?b ?c ?d (req_method r) hs] =>
        replace (@lookup a b c d (req_method r) hs) with (@None (Handler X P))
          by (symmetry; exact Hh)
    end.
    unfold mbind. rewrite !dbg_off by exact Htr.
    unfold respond_if_request, mbind, mget. cbn [received set_req _req].
    rewrite (rsp_sends r) by (try reflexivity; assumption).
    reflexivity.
  - intros Hh Hreq. unfold handle, dispatch.
    match goal with
    | |- context [@lookup ?a ?b ?c ?d method hs] =>
        replace (@lookup a b c d method hs) with (@None (Handler X P))
          by (symmetry; exact Hh)
    end.
    unfold mbind. cbn [received]. rewrite !dbg_off by exact Htr.
    unfold respond_if_request, mbind, mget, mret. rewrite Hreq. reflexivity.
Qed.

(** X13: when the handler of a request returns a result that can be
    encoded, exactly one response is written after whatever the
    handler wrote: it carries the identifier of the request, the
    result and no error.  When the handler of a notification returns,
    nothing is written. *)
Theorem result_reply (hs : gmap string (Handler X P)) (h : Handler X P)
    (r : RPCRequest) (method : string) (params : Params)
    (s s1 : RPCServer X P) (p : P) :
  trace s = "off" ->
  trace s1 = "off" ->
  (hs !! req_method r = Some h ->
   h (req_params r) (received (MsgRequest r) s) = (s1, Ret p) ->
   _req s1 = Some r ->
   encode_json p = Ret tt ->
   handle none encode_json hs (MsgRequest r) (received (MsgRequest r) s)
   = (reply (req_id r) p None s1, Ret tt)) /\
  (hs !! method = Some h ->
   h params s = (s1, Ret p) ->
   _req s1 = None ->
   handle none encode_json hs (MsgNotification method params)
     (received (MsgNotification method params) s)
   = (s1, Ret tt)).
Proof.
  intros Htr Htr1. split.
  - intros Hh Hrun Hreq Henc. unfold handle, dispatch.
    match goal with
    | |- context [@lookup ?a ?b ?c ?d (req_method r) hs] =>
        replace (@lookup a b c d (req_method r) hs) with (Some h)
          by (symmetry; exact Hh)
    end.
    unfold mbind at 1. rewrite dbg_off by exact Htr. rewrite Hrun.
    unfold mbind. rewrite dbg_off by exact Htr1.
    unfold respond_if_request, mbind, mget. rewrite Hreq.
    apply rsp_sends; assumption.
  - intros Hh Hrun Hreq. unfold handle, dispatch.
    match goal with
    | |- context [@lookup ?a ?b ?c ?d method hs] =>
        replace (@lookup a b c d method hs) with (Some h)
          by (symmetry; exact Hh)
    end.
    cbn [received]. unfold mbind at 1. rewrite dbg_off by exact Htr. rewrite Hrun.
    unfold mbind. rewrite dbg_off by exact Htr1.
    unfold respond_if_request, mbind, mget, mret. rewrite Hreq. reflexivity.
Qed.

(** A result that cannot be encoded is not sent: the exception of the
    encoder leaves [handle]. *)
Lemma dispatch_unencodable (hs : gmap string (Handler X P)) (h : Handler X P)
    (method : string) (params : Params) (r : RPCRequest)
    (s s1 : RPCServer X P) (p : P) (e : exn) :
  trace s = "off" ->
  trace s1 = "off" ->
  hs !! method = Some h ->
  h params s = (s1, Ret p) ->
  _req s1 = Some r ->
  encode_json p = Raise e ->
  dispatch X P none encode_json hs method params s = (s1, Raise e).
Proof.
  intros Htr Htr1 Hh Hrun Hreq Henc. unfold dispatch.
  match goal with
  | |- context [@lookup ?a ?b ?c ?d method hs] =>
      replace (@lookup a b c d method hs) with (Some h) by (symmetry; exact Hh)
  end.
  unfold mbind at 1. rewrite dbg_off by exact Htr. rewrite Hrun.
  unfold mbind at 1. rewrite dbg_off by exact Htr1.
  unfold respond_if_request, mbind at 1. unfold mget at 1. rewrite Hreq.
  unfold rsp, mbind at 1. unfold mget at 1. rewrite Hreq.
  unfold mbind, _send, mlift. rewrite Henc. reflexivity.
Qed.

(** An exception of the handler leaves [handle] too. *)
Lemma dispatch_raises (hs : gmap string (Handler X P)) (h : Handler X P)
    (method : string) (params : Params) (s s1 : RPCServer X P) (e : exn) :
  trace s = "off" ->
  trace s1 = "off" ->
  hs !! method = Some h ->
  h params s = (s1, Raise e) ->
  dispatch X P none encode_json hs method params s = (s1, Raise e).
Proof.
  intros Htr Htr1 Hh Hrun. unfold dispatch.
  match goal with
  | |- context [@lookup ?a ?b ?c ?d method hs] =>
      replace (@lookup a b c d method hs) with (Some h) by (symmetry; exact Hh)
  end.
  unfold mbind at 1. rewrite dbg_off by exact Htr. rewrite Hrun.
  destruct (is_Exception e); [|reflexivity].
  unfold mbind. rewrite dbg_off by exact Htr1. reflexivity.
Qed.

(** X14: whenever [handle] returns from a request or a notification,
    no request is pending any more: either there was none, or [rsp]
    has answered it. *)
Theorem handled_request_cleared (hs : gmap string (Handler X P))
    (method : string) (params : Params) (s s' : RPCServer X P) :
  dispatch X P none encode_json hs method params s = (s', Ret tt) ->
  _req s' = None.
Proof.
  assert (Hrsp : forall result error s0 s2,
             respond_if_request X P encode_json result error s0 = (s2, Ret tt) ->
             _req s2 = None).
  { intros result error s0 s2.
    cbv beta iota zeta delta
      [respond_if_request rsp mbind mget _send mlift dbg mmodify mret mraise].
    destruct (_req s0) as [r|] eqn:Hr.
    - cbv beta iota zeta delta
        [respond_if_request rsp mbind mget _send mlift dbg mmodify mret mraise].
      rewrite ?Hr.
      destruct (encode_json result) as [[]|e]; [|discriminate].
      destruct (String.eqb (trace s0) "off"); [|discriminate].
      intros [= <-]. reflexivity.
    - intros [= <-]. exact Hr. }
  unfold dispatch, mbind at 1.
  destruct (dbg X P s) as [s0 [[]|e]] eqn:Hd; [|discriminate].
  destruct (hs !! method) as [h|].
  - destruct (h params s0) as [s1 [result|e]].
    + unfold mbind. destruct (dbg X P s1) as [s2 [[]|e]]; [|discriminate].
      apply Hrsp.
    + destruct (is_Exception e); [|discriminate].
      unfold mbind, mraise. destruct (dbg X P s1) as [s2 [[]|e2]]; discriminate.
  - unfold mbind. destruct (dbg X P s0) as [s2 [[]|e]]; [|discriminate].
    apply Hrsp.
Qed.

(** An object [_recv] can decode is handled as the message it
    stands for. *)
Lemma recv_decoded (hs : gmap string (Handler X P)) (obj : JsonObject) (msg : RPCMsg)
    (s : RPCServer X P) :
  trace s = "off" ->
  decode obj = Ret msg ->
  mbind (_recv obj) (handle none encode_json hs) s
  = handle none encode_json hs msg (received msg s).
Proof.
  intros Htr Hdec. unfold _recv, mbind at 1 2. rewrite dbg_off by exact Htr.
  unfold mlift, mbind, mmodify, mret. rewrite Hdec. reflexivity.
Qed.

(** An object [_recv] cannot decode ends the loop with the exception
    of the decoding; nothing is sent. *)
Lemma recv_undecodable (hs : gmap string (Handler X P)) (obj : JsonObject) (e : exn)
    (s : RPCServer X P) :
  trace s = "off" ->
  decode obj = Raise e ->
  mbind (_recv obj) (handle none encode_json hs) s = (s, Raise e).
Proof.
  intros Htr Hdec. unfold _recv, mbind at 1 2. rewrite dbg_off by exact Htr.
  unfold mlift, mbind. rewrite Hdec. reflexivity.
Qed.

(** X15: a [shutdown] request that carries [params] is answered with
    an empty result and ends the loop at once: the objects that
    follow it are never read.  A [shutdown] request without [params]
    is not answered: [_recv] raises [KeyError] on it and the loop ends
    with that exception, the server still marked as running. *)
Theorem shutdown_stops_loop (hs : gmap string (Handler X P)) (id : value)
    (error : option (gmap string value)) (rest : list JsonObject) (s : RPCServer X P) :
  hs !! "shutdown" = Some (handle_shutdown none) ->
  running s = true ->
  trace s = "off" ->
  encode_json none = Ret tt ->
  (forall params,
     loop_recv none encode_json hs
       (mk_JsonObject (Some id) (Some "shutdown") (Some params) error :: rest) s
     = (mk_RPCServer None false (trace s) (sent s ++ [SentResponse id none None])%list
          (ext s), Ret tt)) /\
  (loop_recv none encode_json hs
     (mk_JsonObject (Some id) (Some "shutdown") None error :: rest) s
   = (s, Raise (KeyError "params"))).
Proof.
  intros Hh Hrun Htr Henc. split.
  - intros params.
    assert (Hhandle :
              handle none encode_json hs (MsgRequest (mk_RPCRequest id "shutdown" params))
                (received (MsgRequest (mk_RPCRequest id "shutdown" params)) s)
              = (mk_RPCServer None false (trace s)
                   (sent s ++ [SentResponse id none None])%list (ext s), Ret tt)).
    { unfold handle, dispatch. cbn [req_method req_params].
      match goal with
      | |- context [@lookup ?a ?b ?c ?d "shutdown" hs] =>
          replace (@lookup a b c d "shutdown" hs) with (Some (@handle_shutdown X P none))
            by (symmetry; exact Hh)
      end.
      unfold mbind at 1. rewrite dbg_off by exact Htr.
      unfold handle_shutdown at 1. unfold mbind.
      rewrite dbg_off by exact Htr.
      unfold respond_if_request, mbind, mget. cbn [received set_req _req].
      rewrite (rsp_sends (mk_RPCRequest id "shutdown" params))
        by first [reflexivity | exact Htr | exact Henc].
      reflexivity. }
    cbn [loop_recv]. rewrite Hrun.
    rewrite (recv_decoded hs _ (MsgRequest (mk_RPCRequest id "shutdown" params)))
      by first [exact Htr | reflexivity].
    rewrite Hhandle. destruct rest; reflexivity.
  - cbn [loop_recv]. rewrite Hrun.
    rewrite (recv_undecodable hs _ (KeyError "params")) by first [exact Htr | reflexivity].
    reflexivity.
Qed.

End Server.

(** A server without attributes of its own whose handlers return
    nothing. *)
Definition plain_server : RPCServer unit unit := mk_RPCServer None true "off" [] tt.

Definition plain_handlers : gmap string (Handler unit unit) :=
  {[ "shutdown" := handle_shutdown tt; "$/cancelRequest" := handle_cancel tt ]}.

Definition always_encoded (p : unit) : result unit := Ret tt.

Lemma unknown_method_reply_witness :
  exists msg,
    handle tt always_encoded plain_handlers (MsgRequest (mk_RPCRequest (VInt 4) "no/such" ∅))
      (received (MsgRequest (mk_RPCRequest (VInt 4) "no/such" ∅)) plain_server)
    = (reply unit unit (VInt 4) tt (Some (RPCError METHOD_NOT_FOUND msg)) plain_server,
       Ret tt).
Proof.
  destruct (unknown_method_reply unit unit tt always_encoded plain_handlers
              (mk_RPCRequest (VInt 4) "no/such" ∅) "no/such" ∅ plain_server)
    as [H _]; [reflexivity | reflexivity |].
  apply H. reflexivity.
Defined.

Lemma result_reply_witness :
  handle tt always_encoded plain_handlers
    (MsgRequest (mk_RPCRequest (VInt 5) "$/cancelRequest" ∅))
    (received (MsgRequest (mk_RPCRequest (VInt 5) "$/cancelRequest" ∅)) plain_server)
  = (reply unit unit (VInt 5) tt None
       (received (MsgRequest (mk_RPCRequest (VInt 5) "$/cancelRequest" ∅)) plain_server),
     Ret tt).
Proof.
  destruct (result_reply unit unit tt always_encoded plain_handlers (handle_cancel tt)
              (mk_RPCRequest (VInt 5) "$/cancelRequest" ∅) "$/cancelRequest" ∅
              plain_server
              (received (MsgRequest (mk_RPCRequest (VInt 5) "$/cancelRequest" ∅))
                 plain_server) tt)
    as [H _]; [reflexivity | reflexivity |].
  apply H; reflexivity.
Defined.

Lemma handled_request_cleared_witness :
  _req (fst (dispatch unit unit tt always_encoded plain_handlers "no/such" ∅
               (received (MsgRequest (mk_RPCRequest (VInt 4) "no/such" ∅)) plain_server)))
  = None.
Proof.
  apply (handled_request_cleared unit unit tt always_encoded plain_handlers "no/such" ∅
           (received (MsgRequest (mk_RPCRequest (VInt 4) "no/such" ∅)) plain_server)).
  reflexivity.
Defined.

Lemma shutdown_stops_loop_witness :
  loop_recv tt always_encoded plain_handlers
    [mk_JsonObject (Some (VInt 9)) (Some "shutdown") (Some ∅) None;
     mk_JsonObject (Some (VInt 10)) (Some "no/such") (Some ∅) None] plain_server
  = (mk_RPCServer None false "off" [SentResponse (VInt 9) tt None] tt, Ret tt) /\
  loop_recv tt always_encoded plain_handlers
    [mk_JsonObject (Some (VInt 9)) (Some "shutdown") None None;
     mk_JsonObject (Some (VInt 10)) (Some "no/such") (Some ∅) None] plain_server
  = (plain_server, Raise (KeyError "params")).
Proof.
  destruct (shutdown_stops_loop unit unit tt always_encoded plain_handlers (VInt 9) None
              [mk_JsonObject (Some (VInt 10)) (Some "no/such") (Some ∅) None] plain_server)
    as [Hyes Hno]; try reflexivity.
  split; [apply Hyes | exact Hno].
Defined.

End RpcFacts.

(* ===================================================================== *)
(** * Framing of messages *)
(* ===================================================================== *)

Module FramingFacts.
Import Py Lsp Rpc LspMore PyFacts LspFacts DocFacts.

Lemma concat_cons (x : string) (xs : list string) :
  String.concat "" (x :: xs) = x +:+ String.concat "" xs.
Proof. destruct xs; cbn [String.concat]; [symmetry; apply append_nil_r|reflexivity]. Qed.

(** Reading line by line loses nothing. *)
Lemma concat_stream_lines (s : string) : String.concat "" (stream_lines s) = s.
Proof.
  induction s as [|c s IH]; [reflexivity|]. cbn [stream_lines].
  destruct (Ascii.eqb c LF).
  - rewrite concat_cons, IH. reflexivity.
  - destruct (stream_lines s) as [|l ls].
    + cbn in IH. subst s. reflexivity.
    + rewrite concat_cons in *. rewrite append_cons, IH. reflexivity.
Qed.

Definition no_newline (l : string) : Prop :=
  all_chars (fun c => negb (Ascii.eqb c LF)) l = true.

Lemma stream_lines_line (l s : string) :
  no_newline l ->
  stream_lines (l +:+ String LF s) = (l +:+ NEWLINE) :: stream_lines s.
Proof.
  unfold no_newline. induction l as [|c l IH]; intros H.
  - reflexivity.
  - simpl in H. apply andb_prop in H as [Hc Hl]. apply negb_true_iff in Hc.
    rewrite !append_cons. cbn [stream_lines]. rewrite Hc, (IH Hl). reflexivity.
Qed.

Lemma no_newline_append (a b : string) :
  no_newline a -> no_newline b -> no_newline (a +:+ b).
Proof.
  unfold no_newline. induction a as [|x a IH]; intros Ha Hb; [exact Hb|].
  rewrite append_cons. simpl in *. apply andb_prop in Ha as [Hx Ha].
  rewrite Hx, (IH Ha Hb). reflexivity.
Qed.

Lemma rstrip_spaces (sp : ascii -> bool) (b : string) :
  all_chars sp b = true -> rstrip_by sp b = "".
Proof.
  induction b as [|c b IH]; [reflexivity|]. simpl.
  intros [Hc Hb]%andb_prop. rewrite (IH Hb), Hc. reflexivity.
Qed.

Lemma rstrip_prefix (sp : ascii -> bool) (p q : string) :
  rstrip_by sp q = q -> q <> "" -> rstrip_by sp (p +:+ q) = p +:+ q.
Proof.
  intros Hq Hne. induction p as [|c p IH]; [exact Hq|].
  rewrite append_cons. cbn [rstrip_by]. rewrite IH.
  destruct (p +:+ q) eqn:E; [|reflexivity].
  destruct p; [change ("" +:+ q) with q in E; congruence|].
  rewrite append_cons in E. discriminate.
Qed.

Lemma rstrip_trailing (sp : ascii -> bool) (a b : string) :
  rstrip_by sp a = a -> a <> "" -> all_chars sp b = true ->
  rstrip_by sp (a +:+ b) = a.
Proof.
  intros Ha Hne Hb. induction a as [|c a IH]; [congruence|].
  rewrite append_cons. cbn [rstrip_by] in *.
  destruct a as [|c' a].
  - change ("" +:+ b) with b. rewrite (rstrip_spaces sp b Hb).
    destruct (sp c); [discriminate|reflexivity].
  - assert (Hr : rstrip_by sp (String c' a) = String c' a).
    { destruct (rstrip_by sp (String c' a)) eqn:E.
      - destruct (sp c); discriminate.
      - congruence. }
    rewrite (IH Hr) by discriminate. reflexivity.
Qed.

Lemma is_digit_not_colon (c : ascii) :
  is_digit c = true -> negb (Ascii.eqb c ":") = true.
Proof. destruct c as [[] [] [] [] [] [] [] []]; vm_compute; congruence. Qed.

Lemma is_digit_not_white (c : ascii) : is_digit c = true -> negb (is_space c) = true.
Proof. destruct c as [[] [] [] [] [] [] [] []]; vm_compute; congruence. Qed.

Lemma is_digit_not_newline (c : ascii) :
  is_digit c = true -> negb (Ascii.eqb c LF) = true.
Proof. destruct c as [[] [] [] [] [] [] [] []]; vm_compute; congruence. Qed.

(** The decimal digits [str] writes for a length. *)
Lemma str_of_length (n : nat) :
  all_chars is_digit (str_of_int (Z.of_nat n)) = true /\
  str_of_int (Z.of_nat n) <> "".
Proof.
  unfold str_of_int. destruct n as [|n].
  - split; [reflexivity|discriminate].
  - change (Z.of_nat (S n)) with (Z.pos (Pos.of_succ_nat n)).
    cbn [Z.to_int DecimalString.NilEmpty.string_of_int].
    split; [apply uint_digits|].
    apply uint_nonempty, DecimalPos.Unsigned.to_uint_nonnil.
Qed.

Definition content_type_value : string :=
  String DQUOTE "application/vscode-jsonrpc; charset=utf-8" +:+ String DQUOTE "".

Definition content_type_line : string :=
  "Content-Type: " +:+ content_type_value +:+ String CR "" +:+ NEWLINE.

Lemma read_content_type (rest : list string) (length : Z) (ct : string) :
  read_headers (content_type_line :: rest) length ct
  = read_headers rest length content_type_value.
Proof.
  cbn [read_headers].
  replace (strip content_type_line) with ("Content-Type: " +:+ content_type_value)
    by (vm_compute; reflexivity).
  replace (map strip (split ":" ("Content-Type: " +:+ content_type_value)))
    with ["Content-Type"; content_type_value] by (vm_compute; reflexivity).
  reflexivity.
Qed.

Lemma read_content_length (n : nat) (rest : list string) (length : Z) (ct : string) :
  read_headers
    (("Content-Length: " +:+ str_of_int (Z.of_nat n) +:+ String CR "" +:+ NEWLINE) :: rest)
    length ct
  = read_headers rest (Z.of_nat n) ct.
Proof.
  destruct (str_of_length n) as [Hdig Hne].
  set (ds := str_of_int (Z.of_nat n)) in *.
  assert (Hstrip : strip ("Content-Length: " +:+ ds +:+ String CR "" +:+ NEWLINE)
                   = "Content-Length: " +:+ ds).
  { unfold strip, strip_by.
    change (lstrip_by is_space ("Content-Length: " +:+ ds +:+ String CR "" +:+ NEWLINE))
      with ("Content-Length: " +:+ ds +:+ String CR "" +:+ NEWLINE).
    rewrite <- (append_assoc "Content-Length: " ds).
    apply rstrip_trailing.
    - apply rstrip_prefix; [|exact Hne].
      apply rstrip_no_space.
      eapply all_chars_impl; [apply is_digit_not_white|exact Hdig].
    - discriminate.
    - reflexivity. }
  assert (Hparts : map strip (split ":" ("Content-Length: " +:+ ds))
                   = ["Content-Length"; ds]).
  { change ("Content-Length: " +:+ ds)
      with ("Content-Length" +:+ String ":" (String " " ds)).
    rewrite split_prefix by reflexivity.
    rewrite split_no_sep.
    - cbn [map]. f_equal. f_equal.
      unfold strip, strip_by. change (lstrip_by is_space (String " " ds))
        with (lstrip_by is_space ds).
      apply (strip_no_space is_space).
      eapply all_chars_impl; [apply is_digit_not_white|exact Hdig].
    - cbn [all_chars]. change (negb (Ascii.eqb " " ":")) with true. cbn [andb].
      eapply all_chars_impl; [apply is_digit_not_colon|exact Hdig]. }
  cbn [read_headers]. rewrite Hstrip, Hparts.
  assert (Hnonempty : nonempty ("Content-Length: " +:+ ds) = true) by reflexivity.
  rewrite Hnonempty.
  change (String.eqb "Content-Length" "Content-Length") with true. cbv iota.
  unfold int. subst ds. rewrite int_str. reflexivity.
Qed.

(** X16: what [_send] writes for a message is read back for what it is:
    on a stream that starts with the frame of [raw], [_read_headers]
    finds the length of [raw] and [_recv] takes exactly [raw] off the
    stream, leaving what follows the frame. *)
Theorem frame_round_trip (raw rest : string) :
  read_payload (frame raw +:+ rest) = Ret (raw, rest) /\
  _read_headers (frame raw +:+ rest)
  = Ret (len raw, content_type_value, raw +:+ rest).
Proof.
  assert (Hh : _read_headers (frame raw +:+ rest)
               = Ret (len raw, content_type_value, raw +:+ rest)).
  { unfold _read_headers.
    assert (Hlines :
              stream_lines (frame raw +:+ rest)
              = content_type_line
                  :: ("Content-Length: " +:+ str_of_int (len raw) +:+ String CR ""
                      +:+ NEWLINE)
                  :: (String CR "" +:+ NEWLINE)
                  :: stream_lines (raw +:+ rest)).
    { unfold frame, CRLF. rewrite !append_assoc.
      change ("Content-Type: " +:+ String DQUOTE "application/vscode-jsonrpc; charset=utf-8"
              +:+ String DQUOTE (String CR (String LF ""))
              +:+ "Content-Length: " +:+ str_of_int (len raw)
              +:+ String CR (String LF "") +:+ String CR (String LF "") +:+ raw +:+ rest)
        with (("Content-Type: " +:+ content_type_value +:+ String CR "")
              +:+ String LF
                    ("Content-Length: " +:+ str_of_int (len raw)
                     +:+ String CR (String LF "") +:+ String CR (String LF "")
                     +:+ raw +:+ rest)).
      rewrite stream_lines_line by reflexivity.
      replace ("Content-Length: " +:+ str_of_int (len raw)
               +:+ String CR (String LF "") +:+ String CR (String LF "") +:+ raw +:+ rest)
        with (("Content-Length: " +:+ str_of_int (len raw) +:+ String CR "")
              +:+ String LF (String CR "" +:+ String LF (raw +:+ rest)))
        by (rewrite !append_assoc; reflexivity).
      rewrite stream_lines_line.
      - rewrite stream_lines_line by reflexivity.
        rewrite !append_assoc. reflexivity.
      - apply no_newline_append; [reflexivity|].
        apply no_newline_append; [|reflexivity].
        unfold no_newline, len.
        destruct (str_of_length (String.length raw)) as [Hdig _].
        eapply all_chars_impl; [apply is_digit_not_newline|exact Hdig]. }
    rewrite Hlines, read_content_type. unfold len.
    rewrite read_content_length.
    cbn [read_headers]. change (strip (String CR "" +:+ NEWLINE)) with "".
    cbn [nonempty rbind fst snd]. rewrite concat_stream_lines. reflexivity. }
  split; [|exact Hh].
  unfold read_payload. rewrite Hh. cbn [rbind]. unfold stream_read, len.
  destruct (Z.ltb_spec (Z.of_nat (String.length raw)) 0); [lia|].
  rewrite Nat2Z.id. f_equal. f_equal.
  - rewrite <- (Nat.add_0_r (String.length raw)), take_append.
    destruct rest; apply append_nil_r.
  - rewrite <- (Nat.add_0_r (String.length raw)), drop_append. destruct rest; reflexivity.
Qed.

End FramingFacts.

(* ===================================================================== *)
(** * Node identifiers, both ways *)
(* ===================================================================== *)

Module TokenFacts.
Import Py Lsp Rpc Kconfiglsp PyFacts IdFacts.

Definition no_sep (s : string) : Prop :=
  all_chars (fun c => negb (Ascii.eqb c ID_SEP)) s = true.

Lemma join_SEP_cons (p q : string) (ps : list string) :
  join SEP (p :: q :: ps) = p +:+ String ID_SEP (join SEP (q :: ps)).
Proof. reflexivity. Qed.

(** Fields without separator come back from a joined identifier. *)
Lemma split_join (parts : list string) :
  Forall no_sep parts -> parts <> [] -> split ID_SEP (join SEP parts) = parts.
Proof.
  induction parts as [|p ps IH]; intros Hall Hne; [congruence|].
  inversion Hall as [|? ? Hp Hps]; subst.
  destruct ps as [|q ps].
  - apply split_no_sep, Hp.
  - rewrite join_SEP_cons, split_prefix by exact Hp.
    rewrite IH by (auto; congruence). reflexivity.
Qed.

Lemma index_from_lookup (x : nat) (l : list nat) (i0 i : Z) :
  index_from Nat.eqb x l i0 = Ret i ->
  exists n, i = i0 + Z.of_nat n /\ l !! n = Some x.
Proof.
  revert i0. induction l as [|y l IH]; intros i0 H; [discriminate|].
  cbn [index_from] in H. destruct (Nat.eqb_spec y x) as [-> | Hne].
  - injection H as <-. exists 0%nat. split; [lia|reflexivity].
  - destruct (IH _ H) as (n & Hi & Hn). exists (S n). split; [lia|exact Hn].
Qed.

Lemma index_of_lookup (x : nat) (l : list nat) (i : Z) :
  index_of x l = Ret i -> exists n, i = Z.of_nat n /\ l !! n = Some x.
Proof.
  intros H. destruct (index_from_lookup x l 0 i H) as (n & Hi & Hn).
  exists n. split; [lia|exact Hn].
Qed.

Lemma lookup_map {A B} (f : A -> B) (l : list A) (n : nat) :
  map f l !! n = option_map f (l !! n).
Proof.
  revert n. induction l as [|a l IH]; intros [|n]; try reflexivity. apply IH.
Qed.

Lemma getitem_lookup {A} (l : list A) (n : nat) (a : A) :
  l !! n = Some a -> getitem l (Z.of_nat n) = Ret a.
Proof.
  intros H. pose proof (lookup_lt_Some _ _ _ H) as Hlt. unfold getitem.
  destruct (Z.ltb_spec (Z.of_nat n) 0); [lia|].
  destruct (Z.leb_spec 0 (Z.of_nat n)); [|lia].
  destruct (Z.ltb_spec (Z.of_nat n) (Z.of_nat (length l))); [|lia].
  cbn [andb]. rewrite Nat2Z.id, H. reflexivity.
Qed.

(** A negative index counts from the end. *)
Lemma getitem_from_end {A} (l : list A) (n : nat) (a : A) :
  l !! n = Some a -> getitem l (Z.of_nat n - Z.of_nat (length l)) = Ret a.
Proof.
  intros H. pose proof (lookup_lt_Some _ _ _ H) as Hlt. unfold getitem.
  destruct (Z.ltb_spec (Z.of_nat n - Z.of_nat (length l)) 0); [|lia].
  replace (Z.of_nat n - Z.of_nat (length l) + Z.of_nat (length l)) with (Z.of_nat n) by lia.
  destruct (Z.leb_spec 0 (Z.of_nat n)); [|lia].
  destruct (Z.ltb_spec (Z.of_nat n) (Z.of_nat (length l))); [|lia].
  cbn [andb]. rewrite Nat2Z.id, H. reflexivity.
Qed.

Lemma getitem_outside {A} (l : list A) (i : Z) :
  Z.of_nat (length l) <= i \/ i < - Z.of_nat (length l) ->
  getitem l i = Raise IndexError.
Proof.
  intros H. unfold getitem.
  destruct (Z.ltb_spec i 0).
  - destruct (Z.leb_spec 0 (i + Z.of_nat (length l))); [lia|reflexivity].
  - destruct (Z.leb_spec 0 i); [|lia].
    destruct (Z.ltb_spec i (Z.of_nat (length l))); [lia|reflexivity].
Qed.

Lemma int_of_token (z : Z) : int (str_of_int z) = Ret z.
Proof. unfold int. rewrite int_str. reflexivity. Qed.

(** [find_node] on an identifier of the current version, by its kind. *)
Lemma find_node_current (c : KconfigContext) (type : string) (parts : list string) :
  no_sep type -> Forall no_sep parts ->
  find_node c (join SEP (str_of_int (version c) :: type :: parts))
  = if String.eqb type "MENU" then
      rbind (the_kconfig c) (fun k =>
      rbind (getitem parts 0) (fun p0 =>
      rbind (int p0) (fun i =>
      rbind (getitem (menus k) i) (fun n => Ret (Some (TreeNode n))))))
    else if String.eqb type "SYM" then
      rbind (the_kconfig c) (fun k =>
      rbind (getitem parts 0) (fun p0 =>
      rbind (dict_get (syms k) p0) (fun sym =>
      rbind (getitem parts 1) (fun p1 =>
      rbind (int p1) (fun i =>
      rbind (getitem (nodes sym) i) (fun n => Ret (Some (TreeNode n))))))))
    else if String.eqb type "CHOICE" then
      rbind (the_kconfig c) (fun k =>
      rbind (getitem parts 0) (fun p0 =>
      rbind (int p0) (fun i =>
      rbind (getitem (choices k) i) (fun a => Ret (Some (TreeChoice a))))))
    else if String.eqb type "COMMENT" then
      rbind (the_kconfig c) (fun k =>
      rbind (getitem parts 0) (fun p0 =>
      rbind (int p0) (fun i =>
      rbind (getitem (comments k) i) (fun n => Ret (Some (TreeNode n))))))
    else if String.eqb type "MAINMENU" then
      rbind (the_kconfig c) (fun k => Ret (Some (TreeNode (top_node k))))
    else Ret None.
Proof.
  intros Ht Hp. unfold find_node.
  rewrite split_join;
    [|constructor; [apply str_of_int_no_sep|constructor; assumption]|discriminate].
  rewrite int_of_token. cbn [rbind]. rewrite Z.eqb_refl. reflexivity.
Qed.

(** X17: an identifier [_node_id] returns for a node is resolved by
    [find_node], in the same Session at the same version, to a node at
    the same address: the main menu, a menu by its position in
    [menus], a symbol node by the name of its symbol and its position
    among the nodes of that symbol. *)
Theorem token_round_trip (c : KconfigContext) (k : Kconfig) (node : MenuNode)
    (tok : string) :
  _kconfig c = Some k ->
  _node_id c node = Ret tok ->
  (forall name item_nodes, item node = ItemSymbol name item_nodes ->
     no_sep name /\
     exists sym, syms k !! name = Some sym /\ map node_addr (nodes sym) = item_nodes) ->
  exists n, find_node c tok = Ret (Some (TreeNode n)) /\ node_addr n = node_addr node.
Proof.
  intros Hk Hid Hsym. unfold _node_id in Hid. rewrite Hk in Hid.
  unfold MenuNode_is in Hid.
  destruct (Nat.eqb_spec (node_addr node) (node_addr (top_node k))) as [Htop | Hnot].
  - cbn in Hid. injection Hid as <-.
    exists (top_node k). split; [|congruence].
    change (str_of_int (version c) +:+ String ID_SEP "" +:+ "MAINMENU")
      with (join SEP [str_of_int (version c); "MAINMENU"]).
    rewrite find_node_current by (try reflexivity; constructor).
    unfold the_kconfig. rewrite Hk. reflexivity.
  - destruct (item node) as [| |name item_nodes|a|] eqn:Hitem.
    + (* a menu *)
      apply rbind_Ret in Hid as (parts & Hparts & Hjoin).
      apply rbind_Ret in Hparts as (i & Hi & Hp). injection Hp as <-.
      destruct (index_of_lookup _ _ _ Hi) as (n & -> & Hn).
      rewrite lookup_map in Hn.
      destruct (menus k !! n) as [m|] eqn:Hm; [|discriminate].
      injection Hn as Hn.
      cbn in Hjoin. injection Hjoin as <-.
      exists m. split; [|exact Hn].
      change (str_of_int (version c) +:+ String ID_SEP "" +:+ "MENU"
              +:+ String ID_SEP "" +:+ str_of_int (Z.of_nat n))
        with (join SEP [str_of_int (version c); "MENU"; str_of_int (Z.of_nat n)]).
      rewrite find_node_current;
        [|reflexivity|constructor; [apply str_of_int_no_sep|constructor]].
      unfold the_kconfig. rewrite Hk. cbn [String.eqb Ascii.eqb Bool.eqb rbind].
      change (getitem [str_of_int (Z.of_nat n)] 0) with (Ret (str_of_int (Z.of_nat n))).
      cbn [rbind]. rewrite int_of_token. cbn [rbind].
      rewrite (getitem_lookup _ _ _ Hm). reflexivity.
    + (* a comment: the ordinal is not a text *)
      apply rbind_Ret in Hid as (parts & Hparts & Hjoin).
      apply rbind_Ret in Hparts as (i & Hi & Hp). injection Hp as <-.
      discriminate Hjoin.
    + (* a symbol *)
      destruct (Hsym name item_nodes eq_refl) as (Hname & sym & Hs & Hnodes).
      apply rbind_Ret in Hid as (parts & Hparts & Hjoin).
      apply rbind_Ret in Hparts as (i & Hi & Hp). injection Hp as <-.
      destruct (index_of_lookup _ _ _ Hi) as (n & -> & Hn).
      rewrite <- Hnodes, lookup_map in Hn.
      destruct (nodes sym !! n) as [m|] eqn:Hm; [|discriminate].
      injection Hn as Hn.
      cbn in Hjoin. injection Hjoin as <-.
      exists m. split; [|exact Hn].
      change (str_of_int (version c) +:+ String ID_SEP "" +:+ "SYM"
              +:+ String ID_SEP "" +:+ name
              +:+ String ID_SEP "" +:+ str_of_int (Z.of_nat n))
        with (join SEP [str_of_int (version c); "SYM"; name; str_of_int (Z.of_nat n)]).
      rewrite find_node_current;
        [|reflexivity
         |constructor; [exact Hname|constructor; [apply str_of_int_no_sep|constructor]]].
      unfold the_kconfig. rewrite Hk. cbn [String.eqb Ascii.eqb Bool.eqb rbind].
      change (getitem [name; str_of_int (Z.of_nat n)] 0) with (Ret name).
      change (getitem [name; str_of_int (Z.of_nat n)] 1)
        with (Ret (str_of_int (Z.of_nat n))).
      cbn [rbind]. unfold dict_get. rewrite Hs. cbn [rbind].
      rewrite int_of_token. cbn [rbind].
      rewrite (getitem_lookup _ _ _ Hm). reflexivity.
    + (* a choice *)
      apply rbind_Ret in Hid as (parts & Hparts & Hjoin).
      apply rbind_Ret in Hparts as (i & Hi & Hp). injection Hp as <-.
      discriminate Hjoin.
    + (* anything else *)
      apply rbind_Ret in Hid as (parts & Hparts & Hjoin).
      injection Hparts as <-. discriminate Hjoin.
Qed.

Lemma token_round_trip_witness :
  exists n,
    find_node (ctx_at 3) "3@SYM@FOO@0" = Ret (Some (TreeNode n)) /\
    node_addr n = node_addr foo_node.
Proof.
  apply (token_round_trip (ctx_at 3) (install (Kconfig_new "Kconfig") tree true)
           foo_node "3@SYM@FOO@0"); [reflexivity | reflexivity |].
  intros name item_nodes [= <- <-]. split; [reflexivity|].
  exists FOO. split; reflexivity.
Defined.

(** X18: [_node_id] returns no identifier for a choice, a comment or a
    node of another kind, unless it is the main menu: it raises
    [ValueError] when the node is not in the list searched, and
    otherwise [TypeError], from joining the number it found with the
    texts. *)
Theorem node_id_needs_texts (c : KconfigContext) (k : Kconfig) (node : MenuNode) :
  _kconfig c = Some k ->
  MenuNode_is node (top_node k) = false ->
  item node = COMMENT \/ (exists a, item node = ItemChoice a) \/ item node = ItemOther ->
  (exists msg, _node_id c node = Raise (TypeError msg)) \/
  (exists msg, _node_id c node = Raise (ValueError msg) /\ item node <> ItemOther).
Proof.
  intros Hk Htop Hitem. unfold _node_id. rewrite Hk, Htop.
  destruct Hitem as [-> | [[a ->] | ->]].
  - destruct (index_of _ _) as [i|e] eqn:Hi.
    + left. cbn. eauto.
    + right. unfold index_of, index in Hi.
      revert Hi. generalize 0.
      induction (map node_addr (comments k)) as [|y l IH]; intros z Hi.
      * injection Hi as <-. cbn. eexists. split; [reflexivity|discriminate].
      * cbn [index_from] in Hi. destruct (Nat.eqb y (node_addr node)); [discriminate|].
        apply (IH _ Hi).
  - destruct (index_of _ _) as [i|e] eqn:Hi.
    + left. cbn. eauto.
    + right. unfold index_of, index in Hi.
      revert Hi. generalize 0.
      induction (choices k) as [|y l IH]; intros z Hi.
      * injection Hi as <-. cbn. eexists. split; [reflexivity|discriminate].
      * cbn [index_from] in Hi. destruct (Nat.eqb y (node_addr node)); [discriminate|].
        apply (IH _ Hi).
  - left. cbn. eauto.
Qed.

Lemma node_id_needs_texts_witness :
  exists msg, _node_id (ctx_at 3) a_comment = Raise (TypeError msg).
Proof.
  destruct (node_id_needs_texts (ctx_at 3) (install (Kconfig_new "Kconfig") tree true)
              a_comment) as [H | (msg & H & _)];
    [reflexivity | reflexivity | left; reflexivity | exact H | discriminate H].
Defined.

(** X19: an identifier [find_node] cannot take apart is not answered
    with [None] but raises: [ValueError] when it holds no separator or
    when its first field is no number, [IndexError] when it is of the
    current version and names a kind without the fields the kind
    needs. *)
Theorem malformed_token_raises (c : KconfigContext) (k : Kconfig) :
  (forall id, no_sep id -> exists msg, find_node c id = Raise (ValueError msg)) /\
  (forall id ver type parts,
     split ID_SEP id = ver :: type :: parts -> int_of_str ver = None ->
     exists msg, find_node c id = Raise (ValueError msg)) /\
  (_kconfig c = Some k ->
   forall kind, kind <> MainMenu ->
     find_node c (join SEP [str_of_int (version c); kind_tag kind]) = Raise IndexError).
Proof.
  split; [|split].
  - intros id Hid. unfold find_node. rewrite (split_no_sep _ _ Hid). eauto.
  - intros id ver type parts Hs Hv. unfold find_node, int. rewrite Hs, Hv. cbn. eauto.
  - intros Hk kind Hkind.
    rewrite find_node_current by (try constructor; destruct kind; reflexivity).
    unfold the_kconfig. rewrite Hk.
    destruct kind; try reflexivity. contradiction.
Qed.

Lemma malformed_token_raises_witness :
  find_node (ctx_at 3) "3@MENU" = Raise IndexError.
Proof.
  destruct (malformed_token_raises (ctx_at 3) (install (Kconfig_new "Kconfig") tree true))
    as (_ & _ & H).
  apply (H eq_refl Menu). discriminate.
Defined.

(** X20: the ordinal of a menu identifier is a Python index: [n]
    resolves to the menu at position [n], [n - len(menus)] resolves to
    that same menu, counted from the end, and an ordinal outside
    [-len(menus), len(menus)) raises [IndexError]. *)
Theorem menu_ordinal (c : KconfigContext) (k : Kconfig) :
  _kconfig c = Some k ->
  (forall n m, menus k !! n = Some m ->
     find_node c (join SEP [str_of_int (version c); "MENU"; str_of_int (Z.of_nat n)])
     = Ret (Some (TreeNode m)) /\
     find_node c (join SEP [str_of_int (version c); "MENU";
                            str_of_int (Z.of_nat n - Z.of_nat (length (menus k)))])
     = Ret (Some (TreeNode m))) /\
  (forall i, Z.of_nat (length (menus k)) <= i \/ i < - Z.of_nat (length (menus k)) ->
     find_node c (join SEP [str_of_int (version c); "MENU"; str_of_int i])
     = Raise IndexError).
Proof.
  intros Hk.
  assert (H : forall i,
             find_node c (join SEP [str_of_int (version c); "MENU"; str_of_int i])
             = rbind (getitem (menus k) i) (fun n => Ret (Some (TreeNode n)))).
  { intros i.
    rewrite find_node_current;
      [|reflexivity|constructor; [apply str_of_int_no_sep|constructor]].
    unfold the_kconfig. rewrite Hk. cbn [String.eqb Ascii.eqb Bool.eqb rbind].
    change (getitem [str_of_int i] 0) with (Ret (str_of_int i)).
    cbn [rbind]. rewrite int_of_token. reflexivity. }
  split.
  - intros n m Hm. rewrite !H, (getitem_lookup _ _ _ Hm), (getitem_from_end _ _ _ Hm).
    split; reflexivity.
  - intros i Hi. rewrite H, getitem_outside by exact Hi. reflexivity.
Qed.

Lemma menu_ordinal_witness :
  find_node (ctx_at 3) "3@MENU@-1" = Ret (Some (TreeNode net_menu)) /\
  find_node (ctx_at 3) "3@MENU@1" = Raise IndexError.
Proof.
  destruct (menu_ordinal (ctx_at 3) (install (Kconfig_new "Kconfig") tree true) eq_refl)
    as [H1 H2].
  split.
  - apply (H1 0%nat net_menu eq_refl).
  - apply (H2 1). left. simpl. lia.
Defined.

Lemma get_menu_not_some (c : KconfigContext) (id : value) (m : KconfigMenu) :
  get_menu c id <> Ret (Some m).
Proof.
  unfold get_menu, KconfigMenu_call2.
  assert (H : forall i,
             match i with
             | VStr s =>
                 rbind (find_node c s) (fun node =>
                 match node with
                 | None => Ret None
                 | Some n =>
                     rbind (Raise (TypeError
                        "__init__() missing 1 required positional argument: 'id'"))
                       (fun m0 : KconfigMenu => Ret (Some m0))
                 end)
             | _ => Raise (AttributeError "object has no attribute 'split'")
             end <> Ret (Some m)).
  { intros [| | |s]; try discriminate.
    destruct (find_node c s) as [[n|]|e]; discriminate. }
  destruct (truthy id); [apply H|].
  destruct (truthy (menu c)); [apply H|discriminate].
Qed.

(** X21: [get_menu] never returns a menu.  Whenever [find_node]
    resolves the identifier, the call [KconfigMenu(node, id)] lacks
    an argument of the constructor and raises [TypeError]; in every
    other case [get_menu] returns [None] or raises what [find_node]
    raised. *)
Theorem get_menu_never_builds (c : KconfigContext) (id : value) :
  (forall m, get_menu c id <> Ret (Some m)) /\
  (forall s n, id = VStr s -> find_node c s = Ret (Some n) ->
     exists msg, get_menu c id = Raise (TypeError msg)).
Proof.
  split.
  - intros m. apply get_menu_not_some.
  - intros s n -> Hf. unfold get_menu, KconfigMenu_call2.
    assert (Hs : truthy (VStr s) = true).
    { destruct s; [discriminate Hf|reflexivity]. }
    rewrite Hs, Hf. cbn. eauto.
Qed.

Lemma get_menu_never_builds_witness :
  exists msg, get_menu (ctx_at 3) (VStr "3@SYM@FOO@0") = Raise (TypeError msg).
Proof.
  destruct (get_menu_never_builds (ctx_at 3) (VStr "3@SYM@FOO@0")) as [_ H].
  apply (H "3@SYM@FOO@0" (TreeNode foo_node)); reflexivity.
Defined.

End TokenFacts.

(* ===================================================================== *)
(** * More facts about the lint checks *)
(* ===================================================================== *)

Module LintMoreFacts.
Import Py Lsp Rpc Kconfiglsp PyFacts IdFacts LintFacts.

(** ** Types *)

Lemma entry_type_not_tristate (e : ConfEntry) :
  String.eqb (TYPE_TO_STR TRISTATE) (entry_type e) = false.
Proof.
  unfold entry_type.
  destruct (is_string e), (is_hex e), (is_int e), (is_bool e); reflexivity.
Qed.

(** X22: every assignment to a tristate symbol is reported as a type
    error, whatever value it assigns: the type of an entry is read off
    its text and is never tristate.  The checks after [check_type] are
    not run. *)
Theorem tristate_never_matches (fs : FileSystem) (i : nat) (file : ConfFile)
    (entry : ConfEntry) (sym : Symbol) (all : list ConfEntry) (st : CtxState) :
  sym_type sym = TRISTATE ->
  well_indexed i st ->
  exists st',
    lint_checks fs i file entry sym all st = (st', Ret tt) /\
    world st' = world st /\
    file_diags i st'
    = (file_diags i st
       ++ [Diagnostic_err "Invalid type. Expected tristate" (full_range entry)])%list.
Proof.
  intros Hty Hi.
  destruct (append_diag_spec i
              (Diagnostic_err "Invalid type. Expected tristate" (full_range entry)) st Hi)
    as (st' & Happ & Hw & Hd).
  exists st'. split; [|split; assumption].
  unfold lint_checks, check_undefined, check_type. rewrite Hty.
  rewrite entry_type_not_tristate.
  cbn [SymType_eqb negb orb andb TYPE_TO_STR].
  unfold mbind, mret. unfold mbind, mret in Happ.
  change ("Invalid type. Expected " +:+ "tristate") with "Invalid type. Expected tristate".
  rewrite Happ. reflexivity.
Qed.

Lemma tristate_never_matches_witness :
  exists st',
    lint_checks disk 0 (ConfFile_new prj) (entry_at 0 1 "FOO" "y")
      (mk_Symbol "FOO" TRISTATE "y" (VInt 2) [foo_node] [] "n") []
      (mk_CtxState fresh_world (lint_ctx tree))
    = (st', Ret tt) /\
    file_diags 0 st'
    = [Diagnostic_err "Invalid type. Expected tristate"
         (full_range (entry_at 0 1 "FOO" "y"))].
Proof.
  destruct (tristate_never_matches disk 0 (ConfFile_new prj) (entry_at 0 1 "FOO" "y")
              (mk_Symbol "FOO" TRISTATE "y" (VInt 2) [foo_node] [] "n") []
              (mk_CtxState fresh_world (lint_ctx tree)))
    as (st' & H & _ & Hd); [reflexivity | unfold well_indexed; simpl; lia |].
  exists st'. split; [exact H | exact Hd].
Defined.

(** ** Values that are no numbers *)

Lemma rstrip_keep (sp : ascii -> bool) (a : string) (c : ascii) (r : string) :
  sp c = false ->
  rstrip_by sp (a +:+ String c r) = a +:+ String c (rstrip_by sp r).
Proof.
  intros Hc. induction a as [|x a IH].
  - change ("" +:+ String c r) with (String c r).
    change ("" +:+ String c (rstrip_by sp r)) with (String c (rstrip_by sp r)).
    cbn [rstrip_by]. destruct (rstrip_by sp r); [rewrite Hc|]; reflexivity.
  - rewrite !LspFacts.append_cons. cbn [rstrip_by]. rewrite IH.
    destruct (a +:+ String c (rstrip_by sp r)) eqn:E; [|reflexivity].
    destruct a; [discriminate E|rewrite LspFacts.append_cons in E; discriminate E].
Qed.

Lemma ungroup_junk (ds : string) (c : ascii) (r : string) (b : bool) :
  all_chars is_digit ds = true ->
  is_digit c = false ->
  c <> "_"%char ->
  ungroup is_digit b (ds +:+ String c r) = None.
Proof.
  intros Hds Hc Hu. revert b. induction ds as [|d ds IH]; intros b.
  - change ("" +:+ String c r) with (String c r). cbn [ungroup]. rewrite Hc.
    destruct (Ascii.eqb_spec c "_"); [contradiction|reflexivity].
  - simpl in Hds. apply andb_prop in Hds as [Hd Hds].
    rewrite LspFacts.append_cons. cbn [ungroup]. rewrite Hd, (IH Hds). reflexivity.
Qed.

Lemma is_word_not_int_space (c : ascii) : is_word c = true -> is_int_space c = false.
Proof. destruct c as [[] [] [] [] [] [] [] []]; vm_compute; congruence. Qed.

(** Digits followed by a letter are no decimal number. *)
Lemma int_of_str_junk (ds : string) (c : ascii) (r : string) :
  all_chars is_digit ds = true ->
  ds <> "" ->
  is_word c = true ->
  is_digit c = false ->
  c <> "_"%char ->
  int_of_str (ds +:+ String c r) = None.
Proof.
  intros Hds Hne Hw Hc Hu. unfold int_of_str, strip_by.
  destruct ds as [|d ds]; [congruence|].
  pose proof Hds as Hall. simpl in Hds. apply andb_prop in Hds as [Hd Hds].
  assert (Hsp : is_int_space d = false).
  { pose proof (is_digit_not_space d Hd) as H. now apply negb_true_iff in H. }
  rewrite LspFacts.append_cons. cbn [lstrip_by]. rewrite Hsp.
  rewrite <- LspFacts.append_cons, rstrip_keep by (apply is_word_not_int_space, Hw).
  rewrite LspFacts.append_cons.
  destruct (is_digit_not_sign d Hd) as [-> ->].
  rewrite <- LspFacts.append_cons, ungroup_junk by assumption.
  reflexivity.
Qed.

(** X23: for a hex symbol assigned digits followed by a letter, as in
    [CONFIG_FOO=1f], [check_type] raises [ValueError] and reports
    nothing: the text counts as an int because it starts with a
    digit, and building the action that converts it calls [int] on
    it. *)
Theorem conversion_raises (i : nat) (file : ConfFile) (entry : ConfEntry)
    (sym : Symbol) (st : CtxState) (ds : string) (c : ascii) (r : string) :
  sym_type sym = HEX ->
  raw entry = ds +:+ String c r ->
  all_chars is_digit ds = true ->
  ds <> "" ->
  is_word c = true ->
  is_digit c = false ->
  c <> "_"%char ->
  is_hex entry = false ->
  entry_type entry = "int" /\
  exists msg, check_type i file entry sym st = (st, Raise (ValueError msg)).
Proof.
  intros Hty Hraw Hds Hne Hw Hc Hu Hhex.
  pose proof (int_of_str_junk ds c r Hds Hne Hw Hc Hu) as Hint.
  destruct ds as [|d ds]; [congruence|].
  simpl in Hds. apply andb_prop in Hds as [Hd Hds].
  assert (Hq : Ascii.eqb d DQUOTE = false).
  { destruct d as [[] [] [] [] [] [] [] []]; vm_compute in Hd |- *; congruence. }
  assert (Hstr : is_string entry = false).
  { unfold is_string, startswith, QUOTE. rewrite Hraw, LspFacts.append_cons.
    cbn [String.prefix].
    destruct (Ascii.ascii_dec DQUOTE d) as [E|_]; [|reflexivity].
    subst d. discriminate Hq. }
  assert (Hisint : is_int entry = true).
  { unfold is_int. rewrite Hraw, LspFacts.append_cons. exact Hd. }
  assert (Hbool : is_bool entry = false).
  { unfold is_bool. rewrite Hraw, LspFacts.append_cons.
    destruct ds; rewrite ?LspFacts.append_cons;
      destruct d as [[] [] [] [] [] [] [] []]; try discriminate Hd; reflexivity. }
  assert (Htype : entry_type entry = "int").
  { unfold entry_type. rewrite Hstr, Hhex, Hisint. reflexivity. }
  split; [exact Htype|].
  unfold check_type. rewrite Hty, Htype, Hhex, Hisint.
  cbn [TYPE_TO_STR String.eqb Ascii.eqb Bool.eqb negb SymType_eqb orb andb].
  unfold entry_value. rewrite Hstr, Hbool, Hhex, Hisint.
  unfold int. rewrite Hraw, Hint.
  unfold mbind, mlift. cbn [rbind]. eauto.
Qed.

Lemma conversion_raises_witness :
  exists msg,
    check_type 0 (ConfFile_new prj) (entry_at 0 1 "FOO" "1f")
      (mk_Symbol "FOO" HEX "0x0" (VStr "1f") [foo_node] [] "0x0")
      (mk_CtxState fresh_world (lint_ctx tree))
    = (mk_CtxState fresh_world (lint_ctx tree), Raise (ValueError msg)).
Proof.
  destruct (conversion_raises 0 (ConfFile_new prj) (entry_at 0 1 "FOO" "1f")
              (mk_Symbol "FOO" HEX "0x0" (VStr "1f") [foo_node] [] "0x0")
              (mk_CtxState fresh_world (lint_ctx tree)) "1" "f" "")
    as [_ H]; try reflexivity; try discriminate.
  exact H.
Defined.

(** ** The action that enables dependencies *)

Lemma fold_edits (u : Uri) (l : list DepEdit) (xs : list TextEdit) (a : CodeAction) :
  changes (edit a) = {[ Uri_str u := xs ]} ->
  changes (edit (fold_left (fun a e => CodeAction_add_edit a u (dep_edit e)) l a))
  = {[ Uri_str u := (xs ++ map dep_edit l)%list ]} /\
  title (fold_left (fun a e => CodeAction_add_edit a u (dep_edit e)) l a) = title a.
Proof.
  revert xs a. induction l as [|e l IH]; intros xs a Ha.
  - cbn. rewrite app_nil_r. auto.
  - cbn [fold_left map].
    destruct (IH (xs ++ [dep_edit e])%list (CodeAction_add_edit a u (dep_edit e)))
      as [Hc Ht].
    + unfold CodeAction_add_edit, WorkspaceEdit_add. cbn [edit changes].
      rewrite Ha, lookup_singleton_eq, insert_singleton_eq. reflexivity.
    + rewrite Hc, Ht, <- app_assoc. split; reflexivity.
Qed.

Lemma first_edit (u : Uri) (e : DepEdit) (t : string) :
  changes (edit (CodeAction_add_edit (CodeAction_new t) u (dep_edit e)))
  = {[ Uri_str u := [dep_edit e] ]}.
Proof.
  unfold CodeAction_add_edit, WorkspaceEdit_add, CodeAction_new. cbn [edit changes].
  rewrite lookup_empty, insert_empty. reflexivity.
Qed.

(** X24: from the edits found for the missing dependencies
    [check_assignment] builds no action when there are none, and
    otherwise exactly one action; that action changes only the file
    itself, and applies the edits in the reverse of the order in
    which the dependencies were found. *)
Theorem dependency_actions_edits (file : ConfFile) (edits : list DepEdit) :
  dependency_actions file [] = [] /\
  (edits <> [] ->
   exists a,
     dependency_actions file edits = [a] /\
     changes (edit a) = {[ Uri_str (cf_uri file) := map dep_edit (rev edits) ]}).
Proof.
  split; [reflexivity|]. intros Hne.
  destruct edits as [|e1 [|e2 rest]]; [congruence| |].
  - eexists. split; [reflexivity|]. apply first_edit.
  - eexists. split; [reflexivity|].
    destruct (rev (e1 :: e2 :: rest)) as [|x l] eqn:E.
    + apply (f_equal (@length _)) in E. rewrite length_rev in E. discriminate E.
    + cbn [fold_left].
      destruct (fold_edits (cf_uri file) l [dep_edit x]
                  (CodeAction_add_edit
                     (CodeAction_new
                        ("Enable " +:+ str_of_int (Z.of_nat (length (e1 :: e2 :: rest)))
                         +:+ " entries to resolve dependencies"))
                     (cf_uri file) (dep_edit x))) as [Hc _]; [apply first_edit|].
      rewrite Hc. reflexivity.
Qed.

Lemma dependency_actions_edits_witness :
  exists a,
    dependency_actions (ConfFile_new prj)
      [mk_DepEdit "A" (mk_TextEdit origin "1"); mk_DepEdit "B" (mk_TextEdit origin "2")]
    = [a] /\
    changes (edit a)
    = {[ Uri_str prj := [mk_TextEdit origin "2"; mk_TextEdit origin "1"] ]}.
Proof.
  destruct (dependency_actions_edits (ConfFile_new prj)
              [mk_DepEdit "A" (mk_TextEdit origin "1");
               mk_DepEdit "B" (mk_TextEdit origin "2")]) as [_ H].
  destruct H as (a & Ha & Hc); [discriminate|].
  exists a. split; [exact Ha | exact Hc].
Defined.

(** ** What lint leaves alone *)

(** [f'] is [f] with diagnostics added at the end. *)
Definition file_grows (f f' : ConfFile) : Prop :=
  cf_uri f' = cf_uri f /\ exists more, cf_diags f' = (cf_diags f ++ more)%list.

(** [c'] is [c] with diagnostics added to its files and nothing else
    changed. *)
Definition grows (c c' : KconfigContext) : Prop :=
  uri c' = uri c /\ env c' = env c /\ board c' = board c /\
  version c' = version c /\ _root c' = _root c /\ _kconfig c' = _kconfig c /\
  menu c' = menu c /\ modified c' = modified c /\
  cmd_diags c' = cmd_diags c /\ kconfig_diags c' = kconfig_diags c /\
  Forall2 file_grows (conf_files c) (conf_files c').

Lemma file_grows_refl (f : ConfFile) : file_grows f f.
Proof. split; [reflexivity|]. exists []. now rewrite app_nil_r. Qed.

Lemma file_grows_trans (f g h : ConfFile) :
  file_grows f g -> file_grows g h -> file_grows f h.
Proof.
  intros [Hu1 [m1 H1]] [Hu2 [m2 H2]]. split; [congruence|].
  exists (m1 ++ m2)%list. rewrite H2, H1, app_assoc. reflexivity.
Qed.

Lemma files_grow_refl (l : list ConfFile) : Forall2 file_grows l l.
Proof. induction l; constructor; auto using file_grows_refl. Qed.

Lemma files_grow_trans (l1 l2 l3 : list ConfFile) :
  Forall2 file_grows l1 l2 -> Forall2 file_grows l2 l3 -> Forall2 file_grows l1 l3.
Proof.
  intros H12. revert l3. induction H12 as [|f g l1 l2 Hfg _ IH]; intros l3 H23.
  - inversion H23; subst. constructor.
  - inversion H23 as [|? h ? l3' Hgh H23']; subst.
    constructor; [eapply file_grows_trans; eassumption|]. apply IH, H23'.
Qed.

Lemma grows_refl (c : KconfigContext) : grows c c.
Proof. unfold grows. repeat split; try reflexivity. apply files_grow_refl. Qed.

Lemma grows_trans (a b c : KconfigContext) : grows a b -> grows b c -> grows a c.
Proof.
  unfold grows.
  intros (?&?&?&?&?&?&?&?&?&?&Hf1) (?&?&?&?&?&?&?&?&?&?&Hf2).
  repeat split; try congruence. eapply files_grow_trans; eassumption.
Qed.

(** A computation that only adds diagnostics to the files. *)
Definition appends {A} (m : M CtxState A) : Prop :=
  forall st, grows (self st) (self (fst (m st))).

Lemma appends_ret {A} (a : A) : appends (mret a).
Proof. intros st. apply grows_refl. Qed.

Lemma appends_raise {A} (e : exn) : appends (@mraise CtxState A e).
Proof. intros st. apply grows_refl. Qed.

Lemma appends_lift {A} (r : result A) : appends (mlift r).
Proof. intros st. apply grows_refl. Qed.

Lemma appends_get : appends (@mget CtxState).
Proof. intros st. apply grows_refl. Qed.

Lemma appends_in_world {A} (m : M World A) : appends (in_world m).
Proof. intros st. rewrite in_world_self. apply grows_refl. Qed.

Lemma appends_bind {A B} (m : M CtxState A) (f : A -> M CtxState B) :
  appends m -> (forall a, appends (f a)) -> appends (mbind m f).
Proof.
  intros Hm Hf st. unfold mbind. specialize (Hm st).
  destruct (m st) as [s' [a|e]]; cbn [fst] in *; [|exact Hm].
  eapply grows_trans; [exact Hm|apply Hf].
Qed.

Lemma appends_append_diag (i : nat) (d : Diagnostic) : appends (append_diag i d).
Proof.
  intros st. unfold append_diag, update_self, mmodify. cbn [fst self].
  unfold grows, set_conf_files.
  cbn [uri env board version _root _kconfig menu modified cmd_diags kconfig_diags
       conf_files].
  repeat split; try reflexivity.
  generalize (conf_files (self st)) i. clear.
  induction l as [|f l IH]; intros [|i]; cbn; constructor;
    auto using file_grows_refl, files_grow_refl;
    try (split; [reflexivity|]; cbn; eauto; fail);
    try apply (IH i).
Qed.

Ltac appends :=
  repeat first
    [ apply appends_ret
    | apply appends_raise
    | apply appends_lift
    | apply appends_get
    | apply appends_in_world
    | apply appends_append_diag
    | apply appends_bind; [|intros ?]
    | match goal with
      | |- appends (if ?b then _ else _) => destruct b
      | |- appends (match ?x with _ => _ end) => destruct x
      | |- appends (let '(_, _) := ?x in _) => destruct x
      end ].




End LintMoreFacts.

(* ===================================================================== *)
(** * More facts about the request handlers *)
(* ===================================================================== *)

Module ServerMoreFacts.
Import Py Lsp Rpc Kconfiglsp KconfigMore PyFacts IdFacts LintFacts TokenFacts ServerFacts.

(** ** Search *)

Lemma handle_search_payload (params : Params) (s : Server) :
  fst (handle_search params s) = s /\
  forall p, snd (handle_search params s) = Ret p ->
    exists key q l, p = PSearch key q l.
Proof.
  split; [reflexivity|]. intros p. unfold handle_search. cbn [snd].
  destruct (param params "ctx") as [key|e]; [|discriminate]. cbn [rbind].
  destruct (ctx_lookup s key) as [c|e]; [|discriminate]. cbn [rbind ctx_truthy negb].
  destruct (param params "query") as [q|e]; [|discriminate]. cbn [rbind].
  destruct (symbols c q) as [l|e]; [|discriminate]. cbn [rbind].
  intros [= <-]. eauto.
Qed.

Lemma search_handler set_value unset_value :
  kconfig_handlers set_value unset_value !! "kconfig/search" = Some handle_search.
Proof. reflexivity. Qed.

(** X26: a [kconfig/search] request is never answered.  When the
    handler returns, its result holds the [map] object of
    [symbol_search], which [encode_json] cannot serialise: [_send]
    raises before anything is written.  Whether the handler raises or
    returns, [handle] ends with an exception and no response. *)
Theorem search_never_answered
    (set_value : Symbol -> value -> bool * Symbol) (unset_value : Symbol -> Symbol)
    (r : RPCRequest) (s : Server) :
  req_method r = "kconfig/search" ->
  trace s = "off" ->
  (forall p, snd (handle_search (req_params r) (received (MsgRequest r) s)) = Ret p ->
     exists e, encode_json p = Raise e) /\
  exists e,
    snd (server_handle (kconfig_handlers set_value unset_value) (MsgRequest r)
           (received (MsgRequest r) s)) = Raise e /\
    sent (fst (server_handle (kconfig_handlers set_value unset_value) (MsgRequest r)
                 (received (MsgRequest r) s))) = sent s.
Proof.
  intros Hm Htr.
  destruct (handle_search_payload (req_params r) (received (MsgRequest r) s))
    as [Hfst Hp].
  split.
  - intros p H. destruct (Hp p H) as (key & q & l & ->). cbn. eauto.
  - assert (H : exists e,
               server_handle (kconfig_handlers set_value unset_value) (MsgRequest r)
                 (received (MsgRequest r) s)
               = (received (MsgRequest r) s, Raise e)).
    { unfold server_handle, handle. rewrite Hm.
      destruct (handle_search (req_params r) (received (MsgRequest r) s))
        as [s1 [p|e]] eqn:E; cbn [fst snd] in *; subst s1.
      - destruct (Hp p eq_refl) as (key & q & l & ->).
        eexists.
        eapply (RpcFacts.dispatch_unencodable ServerState Payload PNone encode_json
                  _ handle_search "kconfig/search" (req_params r) r);
          [exact Htr | exact Htr | apply search_handler | exact E | reflexivity
          | reflexivity].
      - exists e.
        apply (RpcFacts.dispatch_raises ServerState Payload PNone encode_json
                 _ handle_search "kconfig/search" (req_params r));
          [exact Htr | exact Htr | apply search_handler | exact E]. }
    destruct H as [e H]. exists e. rewrite H. split; reflexivity.
Qed.

Lemma search_never_answered_witness :
  exists e,
    snd (server_handle (kconfig_handlers only_five forget)
           (MsgRequest (mk_RPCRequest (VInt 1) "kconfig/search"
                          {[ "ctx" := VStr "file:///build"; "query" := VStr "FOO" ]}))
           (received
              (MsgRequest (mk_RPCRequest (VInt 1) "kconfig/search"
                             {[ "ctx" := VStr "file:///build"; "query" := VStr "FOO" ]}))
              one_build)) = Raise e.
Proof.
  destruct (search_never_answered only_five forget
              (mk_RPCRequest (VInt 1) "kconfig/search"
                 {[ "ctx" := VStr "file:///build"; "query" := VStr "FOO" ]})
              one_build eq_refl eq_refl) as [_ (e & H & _)].
  exists e. exact H.
Defined.

(** ** The symbols of a search *)

Lemma startswith_append (p s : string) : startswith p (p +:+ s) = true.
Proof.
  unfold startswith. induction p as [|c p IH]; [destruct s; reflexivity|].
  rewrite LspFacts.append_cons. cbn [String.prefix].
  destruct (Ascii.ascii_dec c c); [exact IH|congruence].
Qed.

(** X27: [symbols(filter)] returns the symbols of the tree whose name
    starts with the filter, and treats a filter with the prefix
    [CONFIG_] as the filter without it. *)
Theorem symbols_filter (c : KconfigContext) (k : Kconfig) (f : string) :
  _kconfig c = Some k ->
  startswith "CONFIG_" f = false ->
  symbols c (VStr ("CONFIG_" +:+ f)) = symbols c (VStr f) /\
  exists l,
    symbols c (VStr f) = Ret l /\
    forall sym, sym ∈ l <->
      (exists n, syms k !! n = Some sym) /\ startswith f (sym_name sym) = true.
Proof.
  intros Hk Hf.
  assert (Hplain : symbols c (VStr f)
                   = Ret (filter (fun sym => negb (nonempty f)
                                             || startswith f (sym_name sym) = true)
                            (snd <$> map_to_list (syms k)))).
  { unfold symbols, the_kconfig. rewrite Hk. cbn [truthy].
    destruct f as [|c0 f0]; [reflexivity|].
    cbn [nonempty]. rewrite Hf. reflexivity. }
  split.
  - rewrite Hplain. unfold symbols, the_kconfig. rewrite Hk.
    replace (truthy (VStr ("CONFIG_" +:+ f))) with true by reflexivity.
    rewrite startswith_append.
    replace (str_drop 7 ("CONFIG_" +:+ f)) with f by reflexivity.
    reflexivity.
  - eexists. split; [exact Hplain|].
    intros sym. rewrite list_elem_of_filter, list_elem_of_fmap.
    split.
    + intros [Hp ([n sym'] & -> & Hin)]. apply elem_of_map_to_list in Hin.
      split; [eauto|]. cbn [snd] in *.
      destruct (nonempty f) eqn:Hn; [exact Hp|].
      destruct f; [|discriminate Hn].
      unfold startswith. destruct (sym_name sym'); reflexivity.
    + intros [[n Hn] Hs]. split.
      * rewrite Hs. apply orb_true_r.
      * exists (n, sym). split; [reflexivity|]. now apply elem_of_map_to_list.
Qed.

Lemma symbols_filter_witness :
  symbols (ctx_at 3) (VStr "CONFIG_FO") = symbols (ctx_at 3) (VStr "FO").
Proof.
  apply (symbols_filter (ctx_at 3) (install (Kconfig_new "Kconfig") tree true) "FO");
    reflexivity.
Defined.

(** ** setMenu *)

(** X28: [kconfig/setMenu] stores the identifier it is given as the
    current menu of the Session before it resolves it, and keeps it
    there whatever comes of resolving it; the handler never returns a
    menu. *)
Theorem set_menu_stores_id (params : Params) (s : Server) (key : string)
    (c : KconfigContext) (id : value) :
  params !! "ctx" = Some (VStr key) ->
  ctx (ext s) !! key = Some c ->
  params !! "id" = Some id ->
  ctx (ext (fst (handle_set_menu params s))) !! key = Some (set_menu id c) /\
  snd (handle_set_menu params s) = rbind (get_menu (set_menu id c) id) (fun _ => Ret PNone) /\
  forall p, snd (handle_set_menu params s) = Ret p -> p = PNone.
Proof.
  intros Hc Hk Hid.
  assert (Hres : snd (handle_set_menu params s)
                 = rbind (get_menu (set_menu id c) id) (fun _ => Ret PNone)).
  { unfold handle_set_menu, param, ctx_lookup. rewrite Hc. cbn [rbind].
    rewrite Hk, Hid. cbn [snd].
    pose proof (get_menu_not_some (set_menu id c) id) as Hnot.
    destruct (get_menu (set_menu id c) id) as [[m|]|e]; try reflexivity.
    exfalso. apply (Hnot m). reflexivity. }
  split; [|split; [exact Hres|]].
  - unfold handle_set_menu, param, ctx_lookup. rewrite Hc. cbn [rbind].
    rewrite Hk, Hid. cbn [fst ctx_store set_ext ext ctx].
    apply lookup_insert_eq.
  - intros p. rewrite Hres.
    destruct (get_menu (set_menu id c) id) as [m|e]; [|discriminate].
    intros [= <-]. reflexivity.
Qed.

Lemma set_menu_stores_id_witness :
  ctx (ext (fst (handle_set_menu
                   {[ "ctx" := VStr "file:///build"; "id" := VStr "1@MAINMENU" ]}
                   one_build))) !! "file:///build"
  = Some (set_menu (VStr "1@MAINMENU") parsed_ctx).
Proof.
  apply (set_menu_stores_id
           {[ "ctx" := VStr "file:///build"; "id" := VStr "1@MAINMENU" ]}
           one_build "file:///build" parsed_ctx (VStr "1@MAINMENU"));
    reflexivity.
Defined.

(** ** Watched files *)

Lemma invalidate_idem (c : KconfigContext) : invalidate (invalidate c) = invalidate c.
Proof. unfold invalidate. destruct (_kconfig c) as [k|] eqn:E; cbn; rewrite ?E; reflexivity. Qed.

Lemma invalidate_keeps (c : KconfigContext) :
  ctx_valid (invalidate c) = false /\
  version (invalidate c) = version c /\
  (forall id, find_node (invalidate c) id = find_node c id).
Proof.
  unfold invalidate, ctx_valid.
  destruct (_kconfig c) as [k|] eqn:E; cbn; rewrite ?E; repeat split; try reflexivity.
  intros id. unfold find_node, the_kconfig. cbn. rewrite E. reflexivity.
Qed.

Lemma set_ctx_twice (m m' : gmap string KconfigContext) (s : Server) :
  set_ctx m (set_ctx m' s) = set_ctx m s.
Proof. reflexivity. Qed.

Lemma set_ctx_same (s : Server) : set_ctx (ctx (ext s)) s = s.
Proof. destruct s as [rq run tr snt [m w]]. reflexivity. Qed.

Lemma invalidate_each_off (keys : list string) (s : Server) :
  trace s = "off" ->
  invalidate_each keys s
  = (set_ctx (foldl (fun m k => alter invalidate k m) (ctx (ext s)) keys) s, Ret tt).
Proof.
  revert s. induction keys as [|k keys IH]; intros s Htr.
  - cbn. rewrite set_ctx_same. reflexivity.
  - cbn [invalidate_each foldl]. unfold mbind at 1. unfold mmodify at 1.
    unfold mbind at 1. unfold dbg at 1.
    cbn [set_ctx set_ext trace]. rewrite Htr.
    change (String.eqb "off" "off") with true. cbv iota.
    rewrite IH by exact Htr. reflexivity.
Qed.

Lemma lookup_alter_each (keys : list string) (m : gmap string KconfigContext)
    (i : string) :
  foldl (fun m k => alter invalidate k m) m keys !! i
  = (if bool_decide (i ∈ keys) then invalidate else id) <$> (m !! i).
Proof.
  revert m. induction keys as [|k keys IH]; intros m.
  - cbn. destruct (m !! i); reflexivity.
  - cbn [foldl]. rewrite IH.
    destruct (decide (k = i)) as [-> | Hne].
    + rewrite lookup_alter_eq.
      rewrite (bool_decide_eq_true_2 (i ∈ i :: keys)) by apply list_elem_of_here.
      destruct (m !! i) as [c|]; [|reflexivity]. cbn.
      destruct (bool_decide (i ∈ keys)); cbn; [rewrite invalidate_idem|]; reflexivity.
    + rewrite lookup_alter_ne by exact Hne.
      destruct (decide (i ∈ keys)) as [Hin | Hout].
      * rewrite !bool_decide_eq_true_2; [reflexivity| |exact Hin].
        now apply list_elem_of_further.
      * rewrite !bool_decide_eq_false_2; [reflexivity| |exact Hout].
        intros [? | ?]%elem_of_cons; [congruence|contradiction].
Qed.

Lemma alter_each_key (m : gmap string KconfigContext) :
  foldl (fun m k => alter invalidate k m) m (map fst (map_to_list m)) = invalidate <$> m.
Proof.
  apply map_eq. intros i. rewrite lookup_alter_each, lookup_fmap.
  destruct (m !! i) as [c|] eqn:E; [|reflexivity].
  rewrite bool_decide_eq_true_2; [reflexivity|].
  apply list_elem_of_In, in_map_iff. exists (i, c). split; [reflexivity|].
  apply list_elem_of_In, elem_of_map_to_list, E.
Qed.

(** X29: when a watched file changes and tracing is off: for a file
    whose name starts with [Kconfig] every Session is invalidated; for
    an [edt.pickle] only the Session of the build directory it lies
    in; for any other file nothing happens.  An invalidated Session
    keeps its version, so the identifiers handed out before still
    resolve as they did. *)
Theorem on_file_change_invalidates (u : Uri) (s : Server) :
  trace s = "off" ->
  (startswith "Kconfig" (basename u) = true ->
   on_file_change u s = (set_ctx (invalidate <$> ctx (ext s)) s, Ret tt)) /\
  (basename u = "edt.pickle" ->
   on_file_change u s
   = (set_ctx (alter invalidate
                 (Uri_str (Uri_file (remove_all "/zephyr/edt.pickle" 0 (path u))))
                 (ctx (ext s))) s, Ret tt)) /\
  (startswith "Kconfig" (basename u) = false -> basename u <> "edt.pickle" ->
   on_file_change u s = (s, Ret tt)) /\
  (forall c, ctx_valid (invalidate c) = false /\
             version (invalidate c) = version c /\
             forall id, find_node (invalidate c) id = find_node c id).
Proof.
  intros Htr. split; [|split; [|split]].
  - intros Hk. unfold on_file_change. rewrite Hk.
    unfold mbind, mget. rewrite invalidate_each_off by exact Htr.
    rewrite alter_each_key. reflexivity.
  - intros Hb. unfold on_file_change. rewrite Hb.
    change (startswith "Kconfig" "edt.pickle") with false.
    change (String.eqb "edt.pickle" "edt.pickle") with true. cbv iota.
    unfold mbind at 1. unfold mget at 1.
    destruct (ctx (ext s) !! _) as [c|] eqn:E.
    + unfold mbind, mmodify, dbg. cbn [set_ctx set_ext trace]. rewrite Htr.
      change (String.eqb "off" "off") with true. cbv iota.
      f_equal. f_equal. f_equal.
      apply map_eq. intros i.
      destruct (decide (Uri_str (Uri_file (remove_all "/zephyr/edt.pickle" 0 (path u))) = i))
        as [<- | Hne].
      * rewrite lookup_insert_eq, lookup_alter_eq, E. reflexivity.
      * rewrite lookup_insert_ne, lookup_alter_ne by exact Hne. reflexivity.
    + unfold mret. f_equal.
      rewrite <- (set_ctx_same s) at 1. f_equal.
      apply map_eq. intros i.
      destruct (decide (Uri_str (Uri_file (remove_all "/zephyr/edt.pickle" 0 (path u))) = i))
        as [<- | Hne].
      * rewrite lookup_alter_eq, E. reflexivity.
      * rewrite lookup_alter_ne by exact Hne. reflexivity.
  - intros Hk Hb. unfold on_file_change. rewrite Hk.
    destruct (String.eqb_spec (basename u) "edt.pickle"); [contradiction|reflexivity].
  - apply invalidate_keeps.
Qed.

Lemma on_file_change_invalidates_witness :
  on_file_change (Uri_file "/zephyr/drivers/Kconfig.gpio") one_build
  = (set_ctx (invalidate <$> ctx (ext one_build)) one_build, Ret tt).
Proof.
  destruct (on_file_change_invalidates (Uri_file "/zephyr/drivers/Kconfig.gpio") one_build)
    as [H _]; [reflexivity|].
  apply H. reflexivity.
Defined.

End ServerMoreFacts.

(* ===================================================================== *)
(** * Entries and the text they come from *)
(* ===================================================================== *)

Module EntryFacts.
Import Py Lsp Rpc LspMore Kconfiglsp PyFacts LspFacts DocFacts.

Lemma span_append (p : ascii -> bool) (s a b : string) :
  span p s = (a, b) -> s = a +:+ b.
Proof.
  revert a b. induction s as [|c s IH]; intros a b H; cbn [span] in H.
  - injection H as <- <-. reflexivity.
  - destruct (p c).
    + destruct (span p s) as [a' b'] eqn:E. injection H as <- <-.
      rewrite append_cons, <- (IH a' b' eq_refl). reflexivity.
    + injection H as <- <-. reflexivity.
Qed.

Lemma span_all (p : ascii -> bool) (s a b : string) :
  span p s = (a, b) -> all_chars p a = true.
Proof.
  revert a b. induction s as [|c s IH]; intros a b H; cbn [span] in H.
  - injection H as <- <-. reflexivity.
  - destruct (p c) eqn:Hc.
    + destruct (span p s) as [a' b'] eqn:E. injection H as <- <-.
      cbn [all_chars]. rewrite Hc, (IH a' b' eq_refl). reflexivity.
    + injection H as <- <-. reflexivity.
Qed.

Lemma span_stop (p : ascii -> bool) (s a : string) (q : ascii) (rest : string) :
  span p s = (a, String q rest) -> p q = false.
Proof.
  revert a. induction s as [|c s IH]; intros a H; cbn [span] in H; [discriminate|].
  destruct (p c) eqn:Hc.
  - destruct (span p s) as [a' b'] eqn:E. injection H as _ Hb. subst b'.
    apply (IH a' eq_refl).
  - injection H as _ Hq _. subst c. exact Hc.
Qed.

Lemma prefix_split (p s : string) :
  String.prefix p s = true -> s = p +:+ str_drop (String.length p) s.
Proof.
  revert s. induction p as [|c p IH]; intros s H; [reflexivity|].
  destruct s as [|c' s]; cbn [String.prefix] in H; [discriminate|].
  destruct (Ascii.ascii_dec c c') as [<- |]; [|discriminate].
  rewrite append_cons. cbn [String.length str_drop]. f_equal. apply IH, H.
Qed.

Lemma is_word_not_white (c : ascii) : is_word c = true -> negb (is_space c) = true.
Proof. destruct c as [[] [] [] [] [] [] [] []]; vm_compute; congruence. Qed.

Lemma rstrip_last (sp : ascii -> bool) (s : string) (c : ascii) :
  last_char s = Some c -> sp c = false -> rstrip_by sp s = s.
Proof.
  intros Hl Hc. induction s as [|x s IH]; [reflexivity|].
  cbn [rstrip_by]. destruct s as [|y s].
  - cbn in Hl. injection Hl as ->. cbn. rewrite Hc. reflexivity.
  - rewrite IH by exact Hl. reflexivity.
Qed.

(** The value the pattern matches starts the text it is matched on,
    and has no white space at its ends. *)
Lemma match_value_prefix (s v : string) :
  match_value s = Some v -> (exists tail, s = v +:+ tail) /\ strip v = v.
Proof.
  unfold match_value. destruct s as [|c r]; [discriminate|].
  destruct (Ascii.eqb_spec c DQUOTE) as [-> | Hc].
  - destruct (span (fun x => negb (Ascii.eqb x DQUOTE)) r) as [body rest] eqn:E.
    destruct body as [|b0 body]; [discriminate|].
    destruct rest as [|q rest]; [discriminate|].
    intros [= <-].
    pose proof (span_append _ _ _ _ E) as Hr.
    assert (Hq : q = DQUOTE).
    { pose proof (span_stop _ _ _ _ _ E) as Hstop.
      apply negb_false_iff in Hstop. now apply Ascii.eqb_eq in Hstop. }
    subst q. split.
    + exists rest. unfold QUOTE. rewrite Hr, !append_assoc. reflexivity.
    + unfold strip, strip_by, QUOTE.
      change (String DQUOTE "" +:+ String b0 body +:+ String DQUOTE "")
        with (String DQUOTE (String b0 body +:+ String DQUOTE "")).
      change (lstrip_by is_space (String DQUOTE (String b0 body +:+ String DQUOTE "")))
        with (String DQUOTE (String b0 body +:+ String DQUOTE "")).
      apply (rstrip_last is_space _ DQUOTE); [|reflexivity].
      rewrite <- append_cons. apply last_char_snoc.
  - destruct (span is_word (String c r)) as [w rest] eqn:E.
    destruct w as [|w0 w]; [discriminate|]. intros [= <-].
    split.
    + exists rest. apply (span_append _ _ _ _ E).
    + apply (strip_no_space is_space).
      eapply all_chars_impl; [apply is_word_not_white|].
      apply (span_all _ _ _ _ E).
Qed.

(** What a matched line is made of, and where the match puts the
    groups. *)
Lemma match_entry_shape (ln : string) (m : EntryMatch) :
  match_entry ln = Some m ->
  exists ws ws2 tail,
    ln = ws +:+ ("CONFIG_" +:+ m_name m) +:+ (ws2 +:+ "=") +:+ m_value m +:+ tail /\
    m_start1 m = len ws /\
    m_end1 m = len (ws +:+ "CONFIG_" +:+ m_name m) /\
    m_start3 m = len (ws +:+ ("CONFIG_" +:+ m_name m) +:+ ws2 +:+ "=") /\
    m_end3 m = len (ws +:+ ("CONFIG_" +:+ m_name m) +:+ (ws2 +:+ "=") +:+ m_value m) /\
    strip (m_value m) = m_value m.
Proof.
  unfold match_entry.
  destruct (span is_space ln) as [ws r0] eqn:E0.
  destruct (startswith "CONFIG_" r0) eqn:Hp; [|discriminate].
  destruct (span is_word (str_drop 7 r0)) as [nm r2] eqn:E1.
  destruct nm as [|n0 n]; [discriminate|].
  destruct (span is_space r2) as [ws2 r3] eqn:E2.
  destruct r3 as [|c r4]; [discriminate|].
  destruct (Ascii.eqb_spec c "=") as [-> |]; [|discriminate].
  destruct (match_value r4) as [v|] eqn:Ev; [|discriminate].
  intros [= <-]. cbn [m_name m_value m_start1 m_end1 m_start3 m_end3].
  destruct (match_value_prefix r4 v Ev) as [[tail Ht] Hs].
  exists ws, ws2, tail.
  pose proof (span_append _ _ _ _ E0) as H0.
  pose proof (prefix_split _ _ Hp) as Hr0. cbn [String.length] in Hr0.
  pose proof (span_append _ _ _ _ E1) as H1.
  pose proof (span_append _ _ _ _ E2) as H2.
  split.
  { rewrite H0, Hr0, H1, H2, Ht.
    change (String "=" (v +:+ tail)) with ("=" +:+ v +:+ tail).
    rewrite !append_assoc. reflexivity. }
  unfold len. rewrite !length_append. cbn [String.length].
  repeat split; try exact Hs; lia.
Qed.

(** Every entry of the loop in [entries] comes from a line that
    matches. *)
Lemma entries_of_lines_from (u : Uri) (ls : list string) (l0 : Z) (a : nat)
    (e : ConfEntry) :
  e ∈ fst (entries_of_lines u ls l0 a) ->
  exists k ln m ad,
    ls !! k = Some ln /\ match_entry ln = Some m /\
    e = ConfEntry_new (m_name m)
          (mk_ref ad (mk_Location u
             (mk_Range (mk_Position (l0 + Z.of_nat k) (m_start1 m))
                       (mk_Position (l0 + Z.of_nat k) (m_end1 m)))))
          (m_value m)
          (mk_Range (mk_Position (l0 + Z.of_nat k) (m_start3 m))
                    (mk_Position (l0 + Z.of_nat k) (m_end3 m))).
Proof.
  revert l0 a. induction ls as [|l ls IH]; intros l0 a H; cbn [entries_of_lines] in H.
  - cbn in H. inversion H.
  - destruct (match_entry l) as [m|] eqn:Em.
    + destruct (entries_of_lines u ls (l0 + 1) (S a)) as [es a'] eqn:E.
      cbn [fst] in H. apply elem_of_cons in H as [-> | H].
      * exists 0%nat, l, m, a. rewrite Z.add_0_r. repeat split; assumption.
      * destruct (IH (l0 + 1) (S a)) as (k & ln & m' & ad & Hk & Hm & ->);
          [rewrite E; exact H|].
        exists (S k), ln, m', ad.
        replace (l0 + Z.of_nat (S k)) with (l0 + 1 + Z.of_nat k) by lia.
        repeat split; assumption.
    + destruct (IH (l0 + 1) a H) as (k & ln & m' & ad & Hk & Hm & ->).
      exists (S k), ln, m', ad.
      replace (l0 + Z.of_nat (S k)) with (l0 + 1 + Z.of_nat k) by lia.
      repeat split; assumption.
Qed.

Lemma middle_slice (a b c : string) :
  str_take (String.length (a +:+ b) - String.length a)
    (str_drop (String.length a) (a +:+ b +:+ c)) = b.
Proof.
  rewrite length_append.
  replace (String.length a + String.length b - String.length a)%nat
    with (String.length b + 0)%nat by lia.
  rewrite <- (Nat.add_0_r (String.length a)) at 1.
  rewrite drop_append. cbn [str_drop].
  rewrite take_append. destruct c; cbn [str_take]; apply append_nil_r.
Qed.

(** X30: the ranges of an entry select, in the document it was read
    from, the texts it was built from: [get(entry.range)] is
    [CONFIG_] followed by the name of the entry, and
    [get(entry.value_range)] is its raw value. *)
Theorem entry_ranges_select (d : TextDocument) (u : Uri) (a : nat) (e : ConfEntry) :
  Forall clean (lines d) ->
  e ∈ fst (entries_of_lines u (lines d) 0 a) ->
  doc_get d (Some (entry_range e)) = Ret ("CONFIG_" +:+ name e) /\
  doc_get d (Some (value_range e)) = Ret (raw e).
Proof.
  intros Hclean He.
  destruct (entries_of_lines_from u (lines d) 0 a e He)
    as (k & ln & m & ad & Hk & Hm & ->).
  destruct (match_entry_shape ln m Hm)
    as (ws & ws2 & tail & Hln & Hs1 & He1 & Hs3 & He3 & Hstrip).
  unfold entry_range, ConfEntry_new.
  cbn [loc deref loc_range value_range name raw]. rewrite Z.add_0_l.
  rewrite Hs1, He1, Hs3, He3, Hstrip. unfold len.
  rewrite !(doc_get_slice d k _ _ ln Hclean Hk).
  split; f_equal.
  - rewrite Hln at 1.
    replace (ws +:+ "CONFIG_" +:+ m_name m) with (ws +:+ ("CONFIG_" +:+ m_name m))
      by reflexivity.
    apply middle_slice.
  - rewrite Hln at 1.
    replace (ws +:+ ("CONFIG_" +:+ m_name m) +:+ (ws2 +:+ "=") +:+ m_value m +:+ tail)
      with ((ws +:+ ("CONFIG_" +:+ m_name m) +:+ ws2 +:+ "=") +:+ m_value m +:+ tail)
      by (rewrite !append_assoc; reflexivity).
    replace (ws +:+ ("CONFIG_" +:+ m_name m) +:+ (ws2 +:+ "=") +:+ m_value m)
      with ((ws +:+ ("CONFIG_" +:+ m_name m) +:+ ws2 +:+ "=") +:+ m_value m)
      by (rewrite !append_assoc; reflexivity).
    apply middle_slice.
Qed.

Definition conf_doc : TextDocument :=
  TextDocument_new (Uri_file "/prj.conf")
    (Some ("# comment" +:+ NEWLINE +:+ "  CONFIG_FOO =12")) None None.

Lemma entry_ranges_select_witness :
  doc_get conf_doc (Some (mk_Range (mk_Position 1 2) (mk_Position 1 12)))
  = Ret "CONFIG_FOO".
Proof.
  destruct (entry_ranges_select conf_doc (Uri_file "/prj.conf") 0
              (ConfEntry_new "FOO"
                 (mk_ref 0 (mk_Location (Uri_file "/prj.conf")
                    (mk_Range (mk_Position 1 2) (mk_Position 1 12))))
                 "12" (mk_Range (mk_Position 1 14) (mk_Position 1 16))))
    as [H _]; [apply new_document_clean | vm_compute; apply list_elem_of_here |].
  exact H.
Defined.

End EntryFacts.

